(** * Skillmentor backend: enrollment lifecycle and review moderation

    A shallow embedding of the route handlers and schema hooks of the
    LearnifyHub / Skillmentor REST backend:

    - [models/Enrollment.js]  : the enrollment schema, its defaults, its
      [min]/[max] validators, its unique index and its [pre('save')] hook;
    - [models/Course.js]      : [calculateAverageRating];
    - [routes/enrollments.js] : enroll, progress update, unenroll;
    - the review router ([/api/reviews]) : creation, update, deletion,
      helpful votes and reports;
    - the admin router ([/api/admin]) : review moderation;
    - [middleware/validation.js] : [validateReviewCreation].

    Conventions of the embedding.
    - A Mongo collection is the list of its documents in natural order;
      [findOne]/[findById] return the first match.
    - An [ObjectId] is a natural number, a [Date] is its millisecond
      timestamp, a schema [Number] holding a progress, an index or a rating
      is an integer ([Z]); the average computed by the aggregation pipeline
      is an exact rational ([Q]).
    - Every handler is an [async] function: it is written as a program
      [Prog] whose nodes are the awaited persistence calls, so that the same
      definition can be run alone ([handle]) or interleaved with another
      request ([interleave]).  A rejected promise lands in the handler's
      [catch] block, which always answers 500 "Server error".  A [save()]
      of a document that was read from the store is taken to overwrite the
      stored document, which is exact when no other request has written
      the document in between; the store itself is sent the changed paths
      only and keeps every pushed entry.
    - [new Date()] is the instant [now] handed to the request, and the
      identifier Mongoose draws for a created document is [oid].
    - Request bodies are well typed: [progress], [completedModuleIndex]
      and [rating] are JSON numbers, [courseId] an identifier, [reason],
      [comment] and [action] strings; a field of the body that may be
      missing is an [option].
    - A string is held as the bytes of its UTF-8 encoding: [trim] strips
      the white space and line terminators of ECMAScript by their
      encodings, and the length the validation middleware measures is
      counted in characters, not in bytes. *)

From Stdlib Require Import ZArith List String Ascii Bool Lia.
From Stdlib Require Import QArith Qround Qabs Lqa.
From Stdlib Require Import Sorted Permutation.
Import ListNotations.

Local Open Scope string_scope.
Local Open Scope list_scope.
Local Open Scope Z_scope.

Definition ObjectId := nat.
Definition Date := Z.

(* ================================================================= *)
(** ** Models *)

(** [models/Course.js]: only the fields the handlers below read. *)
Module Course.

Record t := mk {
  _id : ObjectId;
  title : string;
  isActive : bool
}.

Definition findById (id : ObjectId) (docs : list t) : option t :=
  find (fun c => Nat.eqb (_id c) id) docs.

End Course.

(** [models/Enrollment.js]. *)
Module Enrollment.

Record CompletedModule := mkModule {
  moduleIndex : Z;
  completedAt : Date
}.

Record t := mk {
  _id : ObjectId;
  student : ObjectId;
  course : ObjectId;
  progress : Z;
  completedModules : list CompletedModule;
  startDate : Date;
  completionDate : option Date;
  certificateIssued : bool;
  certificateUrl : option string;
  lastAccessedAt : Date;
  isActive : bool
}.

Definition set_progress (p : Z) (e : t) : t :=
  mk (_id e) (student e) (course e) p (completedModules e) (startDate e)
     (completionDate e) (certificateIssued e) (certificateUrl e)
     (lastAccessedAt e) (isActive e).

Definition set_completedModules (ms : list CompletedModule) (e : t) : t :=
  mk (_id e) (student e) (course e) (progress e) ms (startDate e)
     (completionDate e) (certificateIssued e) (certificateUrl e)
     (lastAccessedAt e) (isActive e).

Definition set_startDate (d : Date) (e : t) : t :=
  mk (_id e) (student e) (course e) (progress e) (completedModules e) d
     (completionDate e) (certificateIssued e) (certificateUrl e)
     (lastAccessedAt e) (isActive e).

Definition set_completionDate (d : option Date) (e : t) : t :=
  mk (_id e) (student e) (course e) (progress e) (completedModules e)
     (startDate e) d (certificateIssued e) (certificateUrl e)
     (lastAccessedAt e) (isActive e).

Definition set_lastAccessedAt (d : Date) (e : t) : t :=
  mk (_id e) (student e) (course e) (progress e) (completedModules e)
     (startDate e) (completionDate e) (certificateIssued e)
     (certificateUrl e) d (isActive e).

Definition set_isActive (b : bool) (e : t) : t :=
  mk (_id e) (student e) (course e) (progress e) (completedModules e)
     (startDate e) (completionDate e) (certificateIssued e)
     (certificateUrl e) (lastAccessedAt e) b.

(** The document [new Enrollment({student, course})] builds: every other
    path takes its schema default. *)
Definition defaults (now : Date) (oid student course : ObjectId) : t :=
  {| _id := oid; student := student; course := course;
     progress := 0; completedModules := [];
     startDate := now; completionDate := None;
     certificateIssued := false; certificateUrl := None;
     lastAccessedAt := now; isActive := true |}.

(** The [min: 0] and [max: 100] validators of [progress].  Mongoose runs
    them in its built-in pre-save hook, ahead of the schema's own one. *)
Definition validate (e : t) : bool :=
  (0 <=? progress e) && (progress e <=? 100).

(** [enrollmentSchema.pre('save', ...)]. *)
Definition preSave (now : Date) (e : t) : t :=
  let e1 :=
    if (progress e =? 100) &&
       (match completionDate e with None => true | Some _ => false end)
    then set_completionDate (Some now) e
    else if progress e <? 100
         then set_completionDate None e
         else e in
  set_lastAccessedAt now e1.

(** What [doc.save()] hands to the driver: validation, then the hook. *)
Definition save_doc (now : Date) (e : t) : option t :=
  if validate e then Some (preSave now e) else None.

(** Virtual [isCompleted]. *)
Definition isCompleted (e : t) : bool := progress e =? 100.

Definition findById (id : ObjectId) (docs : list t) : option t :=
  find (fun e => Nat.eqb (_id e) id) docs.

(** [findOne({student, course})]. *)
Definition findOne (s c : ObjectId) (docs : list t) : option t :=
  find (fun e => Nat.eqb (student e) s && Nat.eqb (course e) c) docs.

(** [findOne({student, course, isActive: true})]. *)
Definition findOneActive (s c : ObjectId) (docs : list t) : option t :=
  find (fun e => Nat.eqb (student e) s && Nat.eqb (course e) c
                 && isActive e) docs.

(** The [updateOne({_id}, ...)] that [save()] issues for a document that
    already exists: the first stored document with that [_id] is
    overwritten, the others are left alone. *)
Fixpoint replace (e' : t) (docs : list t) : list t :=
  match docs with
  | [] => []
  | e :: rest =>
      if Nat.eqb (_id e) (_id e') then e' :: rest
      else e :: replace e' rest
  end.

(** [enrollmentSchema.index({student: 1, course: 1}, {unique: true})]:
    does an insert of a document for this pair violate the index? *)
Definition violatesUnique (s c : ObjectId) (docs : list t) : bool :=
  existsb (fun e => Nat.eqb (student e) s && Nat.eqb (course e) c) docs.

End Enrollment.

(** The review model.  [models/Review.js] is not among the sources: the
    fields are those the routes read and write, the defaults are the
    specification's. *)
Module Review.

(** Modelled from the spec: an entry of [reportedBy] is
    [{user, reason, reportedAt}], [reportedAt] being the instant of the
    report. *)
Record Report := mkReport {
  user : ObjectId;
  reason : string;
  reportedAt : Date
}.

(** Modelled from the spec: a review references one student and one
    course and carries [rating] (integer 1-5), [comment], [isApproved],
    [helpfulVotes] (a counter) and [reportedBy]. *)
Record t := mk {
  _id : ObjectId;
  student : ObjectId;
  course : ObjectId;
  rating : Z;
  comment : string;
  isApproved : bool;
  helpfulVotes : Z;
  reportedBy : list Report
}.

Definition set_isApproved (b : bool) (r : t) : t :=
  mk (_id r) (student r) (course r) (rating r) (comment r) b
     (helpfulVotes r) (reportedBy r).

Definition set_reportedBy (l : list Report) (r : t) : t :=
  mk (_id r) (student r) (course r) (rating r) (comment r) (isApproved r)
     (helpfulVotes r) l.

Definition set_rating (n : Z) (r : t) : t :=
  mk (_id r) (student r) (course r) n (comment r) (isApproved r)
     (helpfulVotes r) (reportedBy r).

Definition set_comment (c : string) (r : t) : t :=
  mk (_id r) (student r) (course r) (rating r) c (isApproved r)
     (helpfulVotes r) (reportedBy r).

Definition set_helpfulVotes (n : Z) (r : t) : t :=
  mk (_id r) (student r) (course r) (rating r) (comment r) (isApproved r)
     n (reportedBy r).

(** Modelled from the spec: the schema defaults of [models/Review.js],
    which give the document [Review.create({student, course, rating,
    comment})] builds; a review is created with [isApproved=true],
    [helpfulVotes=0] and [reportedBy=[]]. *)
Definition defaults (oid student course : ObjectId) (rating : Z)
                    (comment : string) : t :=
  {| _id := oid; student := student; course := course;
     rating := rating; comment := comment;
     isApproved := true; helpfulVotes := 0; reportedBy := [] |}.

Definition findById (id : ObjectId) (docs : list t) : option t :=
  find (fun r => Nat.eqb (_id r) id) docs.

(** [findOne({student, course})]. *)
Definition findOne (s c : ObjectId) (docs : list t) : option t :=
  find (fun r => Nat.eqb (student r) s && Nat.eqb (course r) c) docs.

(** [updateOne({_id}, ...)], as for enrollments. *)
Fixpoint replace (r' : t) (docs : list t) : list t :=
  match docs with
  | [] => []
  | r :: rest =>
      if Nat.eqb (_id r) (_id r') then r' :: rest
      else r :: replace r' rest
  end.

(** [findByIdAndDelete]: the first document with that [_id] goes. *)
Fixpoint remove (id : ObjectId) (docs : list t) : list t :=
  match docs with
  | [] => []
  | r :: rest => if Nat.eqb (_id r) id then rest else r :: remove id rest
  end.

End Review.

(* ================================================================= *)
(** ** The persistence layer and asynchronous handlers *)

Record Db := mkDb {
  courses : list Course.t;
  enrollments : list Enrollment.t;
  reviews : list Review.t
}.

Definition set_enrollments (l : list Enrollment.t) (db : Db) : Db :=
  mkDb (courses db) l (reviews db).

Definition set_reviews (l : list Review.t) (db : Db) : Db :=
  mkDb (courses db) (enrollments db) l.

(** Why a persistence call rejects. *)
Inductive DbError := ValidationError | DuplicateKey.

(** One output document of the [$group] stage of [calculateAverageRating]. *)
Record RatingGroup := mkGroup {
  averageRating : Q;
  totalReviews : nat
}.

(** The awaited calls of the handlers, indexed by what they resolve to. *)
Inductive DbOp : Type -> Type :=
| CourseFindById (id : ObjectId) : DbOp (option Course.t)
| EnrollmentFindById (id : ObjectId) : DbOp (option Enrollment.t)
| EnrollmentFindOne (s c : ObjectId) : DbOp (option Enrollment.t)
| EnrollmentFindOneActive (s c : ObjectId) : DbOp (option Enrollment.t)
| EnrollmentSave (now : Date) (e : Enrollment.t) : DbOp Enrollment.t
| EnrollmentCreate (now : Date) (oid s c : ObjectId) : DbOp Enrollment.t
| ReviewFindById (id : ObjectId) : DbOp (option Review.t)
| ReviewFindOne (s c : ObjectId) : DbOp (option Review.t)
| ReviewCreate (oid s c : ObjectId) (rating : Z) (comment : string)
    : DbOp Review.t
| ReviewSave (r : Review.t) : DbOp Review.t
| ReviewFindByIdAndDelete (id : ObjectId) : DbOp unit
| ReviewAggregate (c : ObjectId) : DbOp (list RatingGroup).

Definition sumZ (l : list Z) : Z := fold_right Z.add 0 l.

(** [{ $match: { course, isApproved: true } }]. *)
Definition matchApproved (c : ObjectId) (docs : list Review.t)
  : list Review.t :=
  filter (fun r => Nat.eqb (Review.course r) c && Review.isApproved r) docs.

(** [{ $group: { _id: '$course', averageRating: { $avg: '$rating' },
                 totalReviews: { $sum: 1 } } }]: every matched document has
    the same [course], so there is one group, or none when nothing matched. *)
Definition groupByCourse (matched : list Review.t) : list RatingGroup :=
  match matched with
  | [] => []
  | _ :: _ =>
      [ {| averageRating :=
             Qmake (sumZ (map Review.rating matched))
                   (Pos.of_nat (List.length matched));
           totalReviews := List.length matched |} ]
  end.

(** What the store does with one call: the value it resolves to and the new
    store, or the reason it rejects (the store is then left as it was).
    Saving an enrollment runs [Enrollment.save_doc]; inserting one checks
    the unique index.  The review schema is not among the sources: its
    saves are taken to have no hook and no failing validator, and its
    collection no unique index (a second review is refused by the route,
    not by the store). *)
Definition exec {X : Type} (op : DbOp X) (db : Db) : DbError + (X * Db) :=
  match op in DbOp X return DbError + (X * Db) with
  | CourseFindById id => inr (Course.findById id (courses db), db)
  | EnrollmentFindById id =>
      inr (Enrollment.findById id (enrollments db), db)
  | EnrollmentFindOne s c =>
      inr (Enrollment.findOne s c (enrollments db), db)
  | EnrollmentFindOneActive s c =>
      inr (Enrollment.findOneActive s c (enrollments db), db)
  | EnrollmentSave now e =>
      match Enrollment.save_doc now e with
      | None => inl ValidationError
      | Some e' =>
          inr (e', set_enrollments (Enrollment.replace e' (enrollments db)) db)
      end
  | EnrollmentCreate now oid s c =>
      match Enrollment.save_doc now (Enrollment.defaults now oid s c) with
      | None => inl ValidationError
      | Some e' =>
          if Enrollment.violatesUnique s c (enrollments db)
          then inl DuplicateKey
          else inr (e', set_enrollments (enrollments db ++ [e']) db)
      end
  | ReviewFindById id => inr (Review.findById id (reviews db), db)
  | ReviewFindOne s c => inr (Review.findOne s c (reviews db), db)
  | ReviewCreate oid s c rating comment =>
      let r := Review.defaults oid s c rating comment in
      inr (r, set_reviews (reviews db ++ [r]) db)
  | ReviewSave r => inr (r, set_reviews (Review.replace r (reviews db)) db)
  | ReviewFindByIdAndDelete id =>
      inr (tt, set_reviews (Review.remove id (reviews db)) db)
  | ReviewAggregate c =>
      inr (groupByCourse (matchApproved c (reviews db)), db)
  end.

(** An [async] function body: a tree of awaited calls. *)
Inductive Prog (A : Type) : Type :=
| Ret (a : A)
| Await (X : Type) (op : DbOp X) (k : X -> Prog A).

Arguments Ret {A} a.
Arguments Await {A X} op k.

Notation "x <- 'await' op ;; k" := (Await op (fun x => k))
  (at level 61, op at next level, right associativity).

(** Running a body to its end with no other request in between. *)
Fixpoint run {A : Type} (p : Prog A) (db : Db) : (DbError + A) * Db :=
  match p with
  | Ret a => (inr a, db)
  | Await op k =>
      match exec op db with
      | inl err => (inl err, db)
      | inr (x, db') => run (k x) db'
      end
  end.

Record Response := mkResponse {
  status : nat;
  success : bool;
  message : string
}.

(** Every [catch (error)] block of the routes. *)
Definition server_error : Response := mkResponse 500 false "Server error".

(** [try { body } catch (error) { res.status(500)... }]. *)
Definition handle (body : Prog Response) (db : Db) : Response * Db :=
  match run body db with
  | (inl _, db') => (server_error, db')
  | (inr r, db') => (r, db')
  end.

(** A request in flight: still to run, or answered. *)
Inductive Thread :=
| Pending (body : Prog Response)
| Finished (r : Response).

(** The event loop resumes a request up to its next [await]. *)
Definition step (t : Thread) (db : Db) : Thread * Db :=
  match t with
  | Finished _ => (t, db)
  | Pending (Ret r) => (Finished r, db)
  | Pending (Await op k) =>
      match exec op db with
      | inl _ => (Finished server_error, db)
      | inr (x, db') => (Pending (k x), db')
      end
  end.

(** Two requests in flight; the schedule says which one is resumed next
    ([false]: the first, [true]: the second). *)
Fixpoint interleave (sched : list bool) (a b : Thread) (db : Db)
  : Thread * Thread * Db :=
  match sched with
  | [] => (a, b, db)
  | false :: sched' =>
      let (a', db') := step a db in interleave sched' a' b db'
  | true :: sched' =>
      let (b', db') := step b db in interleave sched' a b' db'
  end.

(* ================================================================= *)
(** ** JavaScript helpers *)

(** The string with the given bytes. *)
Definition bytes (l : list nat) : string :=
  string_of_list_ascii (map ascii_of_nat l).

(** The white space and line terminators [String.prototype.trim] strips
    (ECMAScript [WhiteSpace] and [LineTerminator]), each by the bytes of
    its UTF-8 encoding: TAB, LF, VT, FF, CR, SPACE, U+00A0, U+1680, U+2000
    to U+200A, U+2028, U+2029, U+202F, U+205F, U+3000 and U+FEFF. *)
Definition whiteSpaces : list (list ascii) :=
  map (map ascii_of_nat)
      [ [9]; [10]; [11]; [12]; [13]; [32];
        [194; 160];
        [225; 154; 128];
        [226; 128; 128]; [226; 128; 129]; [226; 128; 130]; [226; 128; 131];
        [226; 128; 132]; [226; 128; 133]; [226; 128; 134]; [226; 128; 135];
        [226; 128; 136]; [226; 128; 137]; [226; 128; 138];
        [226; 128; 168]; [226; 128; 169];
        [226; 128; 175];
        [226; 129; 159];
        [227; 128; 128];
        [239; 187; 191] ]%nat.

(** What is left of [l] after its prefix [w], if [w] is a prefix of it. *)
Fixpoint stripPrefix (w l : list ascii) : option (list ascii) :=
  match w, l with
  | [], _ => Some l
  | a :: w', b :: l' => if Ascii.eqb a b then stripPrefix w' l' else None
  | _ :: _, [] => None
  end.

(** What follows the first character of [l], if that is one of [ws]. *)
Fixpoint afterFirst (ws : list (list ascii)) (l : list ascii)
  : option (list ascii) :=
  match ws with
  | [] => None
  | w :: ws' =>
      match stripPrefix w l with
      | Some rest => Some rest
      | None => afterFirst ws' l
      end
  end.

(** [l] without the characters of [ws] it starts with; [n] bounds their
    number. *)
Fixpoint dropLeading (ws : list (list ascii)) (n : nat) (l : list ascii)
  : list ascii :=
  match n with
  | O => l
  | S n' =>
      match afterFirst ws l with
      | Some rest => dropLeading ws n' rest
      | None => l
      end
  end.

Definition trimStartChars (l : list ascii) : list ascii :=
  dropLeading whiteSpaces (List.length l) l.

(** The same from the end: the bytes are read backwards, and so are the
    encodings. *)
Definition trimEndChars (l : list ascii) : list ascii :=
  rev (dropLeading (map (@rev ascii) whiteSpaces) (List.length l) (rev l)).

(** [s.trim()]. *)
Definition trim (s : string) : string :=
  string_of_list_ascii
    (trimEndChars (trimStartChars (list_ascii_of_string s))).

(** A continuation byte of UTF-8, [10xxxxxx]. *)
Definition isContinuation (c : ascii) : bool :=
  (128 <=? nat_of_ascii c)%nat && (nat_of_ascii c <? 192)%nat.

(** [l] starts with a variation selector, U+FE0E or U+FE0F. *)
Definition startsWithSelector (l : list ascii) : bool :=
  match afterFirst (map (map ascii_of_nat) [[239; 184; 142]; [239; 184; 143]]%nat)
                   l with
  | Some _ => true
  | None => false
  end.

(** The length [isLength] of validator.js (13.7 and later) measures:
    [str.length] less the surrogate pairs and less the variation selectors
    U+FE0E and U+FE0F, that is, the characters of the string other than
    these two selectors.  On the UTF-8 bytes a character is a byte that is
    not a continuation byte. *)
Fixpoint isLengthOf (l : list ascii) : nat :=
  match l with
  | [] => O
  | c :: l' =>
      if isContinuation c || startsWithSelector l then isLengthOf l'
      else S (isLengthOf l')
  end.

(** [Math.round]: the nearest integer, a tie going up. *)
Definition Math_round (x : Q) : Z := Qfloor (x + (1 # 2)).

(* ================================================================= *)
(** ** [Course.methods.calculateAverageRating] *)

Record RatingStats := mkStats {
  rating : Q;
  reviewCount : nat
}.

Definition calculateAverageRating (this : Course.t) : Prog RatingStats :=
  stats <- await ReviewAggregate (Course._id this) ;;
  match stats with
  | g :: _ =>
      Ret {| rating := inject_Z (Math_round (averageRating g * 10)) / 10;
             reviewCount := totalReviews g |}
  | [] => Ret {| rating := 0%Q; reviewCount := 0%nat |}
  end.

(* ================================================================= *)
(** ** Enrollment routes ([/api/enrollments]) *)

Module EnrollmentRoutes.

Import Enrollment.

Definition course_id_required : Response :=
  mkResponse 400 false "Course ID is required".
Definition course_not_found : Response :=
  mkResponse 404 false "Course not found or inactive".
Definition already_enrolled : Response :=
  mkResponse 400 false "Already enrolled in this course".
Definition re_enrolled : Response :=
  mkResponse 200 true "Re-enrolled in course successfully".
Definition enrolled : Response :=
  mkResponse 201 true "Enrolled in course successfully".
Definition progress_out_of_range : Response :=
  mkResponse 400 false "Progress must be between 0 and 100".
Definition enrollment_not_found : Response :=
  mkResponse 404 false "Enrollment not found".
Definition access_denied : Response :=
  mkResponse 403 false "Access denied".
Definition progress_updated : Response :=
  mkResponse 200 true "Progress updated successfully".
Definition unenrolled : Response :=
  mkResponse 200 true "Unenrolled from course successfully".

(** The branch of [POST /] taken once [findOne] has resolved. *)
Definition enroll_existing (now : Date) (oid user cid : ObjectId)
           (existingEnrollment : option Enrollment.t) : Prog Response :=
  match existingEnrollment with
  | Some e =>
      if isActive e then Ret already_enrolled
      else
        _ <- await EnrollmentSave now
               (set_startDate now (set_isActive true e)) ;;
        Ret re_enrolled
  | None =>
      enrollment <- await EnrollmentCreate now oid user cid ;;
      _ <- await EnrollmentFindById (_id enrollment) ;;
      Ret enrolled
  end.

(** [router.post('/', protect, ...)]: [user] is [req.user._id] and
    [courseId] is [req.body.courseId] ([None] when it is missing). *)
Definition enroll (now : Date) (oid user : ObjectId)
           (courseId : option ObjectId) : Prog Response :=
  match courseId with
  | None => Ret course_id_required
  | Some cid =>
      course <- await CourseFindById cid ;;
      match course with
      | None => Ret course_not_found
      | Some c =>
          if negb (Course.isActive c) then Ret course_not_found
          else
            existingEnrollment <- await EnrollmentFindOne user cid ;;
            enroll_existing now oid user cid existingEnrollment
      end
  end.

(** The [completedModuleIndex] part of the progress update. *)
Definition addCompletedModule (now : Date) (completedModuleIndex : option Z)
           (e : Enrollment.t) : Enrollment.t :=
  match completedModuleIndex with
  | None => e
  | Some i =>
      match find (fun m => moduleIndex m =? i) (completedModules e) with
      | Some _ => e
      | None =>
          set_completedModules
            (completedModules e ++ [mkModule i now]) e
      end
  end.

(** [router.put('/:id/progress', protect, ...)]: [progress] is [None]
    when the body has no such field and [Some p] when it is the integer
    [p].  A body whose [progress] is [null] or is not a number is not
    among the requests of the embedding. *)
Definition updateProgress (now : Date) (user id : ObjectId)
           (progress : option Z) (completedModuleIndex : option Z)
  : Prog Response :=
  match progress with
  | None => Ret progress_out_of_range
  | Some p =>
      if (p <? 0) || (p >? 100) then Ret progress_out_of_range
      else
        enrollment <- await EnrollmentFindById id ;;
        match enrollment with
        | None => Ret enrollment_not_found
        | Some e =>
            if negb (Nat.eqb (student e) user) then Ret access_denied
            else
              saved <- await EnrollmentSave now
                (addCompletedModule now completedModuleIndex
                   (set_lastAccessedAt now (set_progress p e))) ;;
              _ <- await EnrollmentFindById (_id saved) ;;
              Ret progress_updated
        end
  end.

(** [router.delete('/:id', protect, ...)]. *)
Definition unenroll (now : Date) (user id : ObjectId) : Prog Response :=
  enrollment <- await EnrollmentFindById id ;;
  match enrollment with
  | None => Ret enrollment_not_found
  | Some e =>
      if negb (Nat.eqb (student e) user) then Ret access_denied
      else
        _ <- await EnrollmentSave now (set_isActive false e) ;;
        Ret unenrolled
  end.

End EnrollmentRoutes.

(* ================================================================= *)
(** ** The validation middleware ([middleware/validation.js]) *)

(** [isLength({ min, max })] on a string. *)
Definition isLength (min max : nat) (s : string) : bool :=
  (min <=? isLengthOf (list_ascii_of_string s))%nat
  && (isLengthOf (list_ascii_of_string s) <=? max)%nat.

(** [validateReviewCreation]: [rating] is an integer between 1 and 5 and
    [comment], once trimmed, has between 10 and 1000 characters. *)
Definition validateReviewCreation (rating : Z) (comment : string) : bool :=
  (1 <=? rating) && (rating <=? 5) && isLength 10 1000 (trim comment).

Definition validation_failed : Response :=
  mkResponse 400 false "Validation failed".

(* ================================================================= *)
(** ** Review routes ([/api/reviews]) *)

Module ReviewRoutes.

Import Review.

Definition course_not_found : Response :=
  mkResponse 404 false "Course not found".
Definition not_enrolled : Response :=
  mkResponse 400 false
    "You must be enrolled in this course to leave a review".
Definition already_reviewed : Response :=
  mkResponse 400 false "You have already reviewed this course".
Definition review_created : Response :=
  mkResponse 201 true "Review created successfully".
Definition review_not_found : Response :=
  mkResponse 404 false "Review not found".
Definition access_denied : Response :=
  mkResponse 403 false "Access denied".
Definition review_updated : Response :=
  mkResponse 200 true "Review updated successfully".
Definition review_deleted : Response :=
  mkResponse 200 true "Review deleted successfully".
Definition marked_helpful : Response :=
  mkResponse 200 true "Review marked as helpful".
Definition reason_required : Response :=
  mkResponse 400 false "Report reason is required".
Definition already_reported : Response :=
  mkResponse 400 false "You have already reported this review".
Definition review_reported : Response :=
  mkResponse 200 true "Review reported successfully".

(** The handler of [router.post('/', protect, validateReviewCreation, ...)]. *)
Definition createReview (oid user courseId : ObjectId) (rating : Z)
           (comment : string) : Prog Response :=
  course <- await CourseFindById courseId ;;
  match course with
  | None => Ret course_not_found
  | Some c =>
      if negb (Course.isActive c) then Ret course_not_found
      else
        enrollment <- await EnrollmentFindOneActive user courseId ;;
        match enrollment with
        | None => Ret not_enrolled
        | Some _ =>
            existingReview <- await ReviewFindOne user courseId ;;
            match existingReview with
            | Some _ => Ret already_reviewed
            | None =>
                review <- await ReviewCreate oid user courseId
                                             rating comment ;;
                _ <- await ReviewFindById (_id review) ;;
                Ret review_created
            end
        end
  end.

(** The whole route: the middleware answers first when the body is
    malformed, and hands the trimmed comment on otherwise. *)
Definition createReviewRoute (oid user courseId : ObjectId) (rating : Z)
           (comment : string) : Prog Response :=
  if validateReviewCreation rating comment
  then createReview oid user courseId rating (trim comment)
  else Ret validation_failed.

(** The handler of [router.put('/:id', protect, validateReviewCreation, ...)]. *)
Definition updateReview (user id : ObjectId) (rating : Z)
           (comment : string) : Prog Response :=
  review <- await ReviewFindById id ;;
  match review with
  | None => Ret review_not_found
  | Some r =>
      if negb (Nat.eqb (student r) user) then Ret access_denied
      else
        saved <- await ReviewSave (set_comment comment (set_rating rating r)) ;;
        _ <- await ReviewFindById (_id saved) ;;
        Ret review_updated
  end.

(** [router.delete('/:id', protect, ...)]: [role] is [req.user.role]. *)
Definition deleteReview (user : ObjectId) (role : string) (id : ObjectId)
  : Prog Response :=
  review <- await ReviewFindById id ;;
  match review with
  | None => Ret review_not_found
  | Some r =>
      if negb (Nat.eqb (student r) user) && negb (String.eqb role "admin")
      then Ret access_denied
      else
        _ <- await ReviewFindByIdAndDelete id ;;
        Ret review_deleted
  end.

(** [router.post('/:id/helpful', protect, ...)]. *)
Definition markHelpful (id : ObjectId) : Prog Response :=
  review <- await ReviewFindById id ;;
  match review with
  | None => Ret review_not_found
  | Some r =>
      _ <- await ReviewSave (set_helpfulVotes (helpfulVotes r + 1) r) ;;
      Ret marked_helpful
  end.

(** [router.post('/:id/report', protect, ...)]: [reason] is
    [req.body.reason] ([None] when it is missing). *)
Definition reportReview (now : Date) (reporter id : ObjectId)
           (reason : option string) : Prog Response :=
  match reason with
  | None => Ret reason_required
  | Some s =>
      if Nat.eqb (String.length s) 0 || Nat.eqb (String.length (trim s)) 0
      then Ret reason_required
      else
        review <- await ReviewFindById id ;;
        match review with
        | None => Ret review_not_found
        | Some r =>
            match find (fun report => Nat.eqb (user report) reporter)
                       (reportedBy r) with
            | Some _ => Ret already_reported
            | None =>
                _ <- await ReviewSave
                       (set_reportedBy
                          (reportedBy r ++ [mkReport reporter (trim s) now])
                          r) ;;
                Ret review_reported
            end
        end
  end.

End ReviewRoutes.

(* ================================================================= *)
(** ** Admin routes ([/api/admin]) *)

Module AdminRoutes.

Import Review.

Definition bad_action : Response :=
  mkResponse 400 false "Action must be either approve or reject".
Definition review_not_found : Response :=
  mkResponse 404 false "Review not found".
Definition moderated (action : string) : Response :=
  mkResponse 200 true ("Review " ++ action ++ "d successfully")%string.

(** [router.put('/reviews/:id/moderate', ...)], behind [protect] and
    [authorize('admin')]. *)
Definition moderateReview (id : ObjectId) (action : string)
  : Prog Response :=
  if negb (existsb (String.eqb action) ["approve"; "reject"])
  then Ret bad_action
  else
    review <- await ReviewFindById id ;;
    match review with
    | None => Ret review_not_found
    | Some r =>
        _ <- await ReviewSave
               (if String.eqb action "approve"
                then set_reportedBy [] (set_isApproved true r)
                else set_isApproved false r) ;;
        Ret (moderated action)
    end.

End AdminRoutes.

(* ================================================================= *)
(** ** The API as a whole *)

Inductive Request :=
| Enroll (now : Date) (oid user : ObjectId) (courseId : option ObjectId)
| UpdateProgress (now : Date) (user id : ObjectId) (progress : option Z)
                 (completedModuleIndex : option Z)
| Unenroll (now : Date) (user id : ObjectId)
| CreateReview (oid user courseId : ObjectId) (rating : Z) (comment : string)
| UpdateReview (user id : ObjectId) (rating : Z) (comment : string)
| DeleteReview (user : ObjectId) (role : string) (id : ObjectId)
| MarkHelpful (id : ObjectId)
| ReportReview (now : Date) (reporter id : ObjectId) (reason : option string)
| ModerateReview (id : ObjectId) (action : string).

Definition api (q : Request) : Prog Response :=
  match q with
  | Enroll now oid user courseId =>
      EnrollmentRoutes.enroll now oid user courseId
  | UpdateProgress now user id progress completedModuleIndex =>
      EnrollmentRoutes.updateProgress now user id progress completedModuleIndex
  | Unenroll now user id => EnrollmentRoutes.unenroll now user id
  | CreateReview oid user courseId rating comment =>
      ReviewRoutes.createReviewRoute oid user courseId rating comment
  | UpdateReview user id rating comment =>
      if validateReviewCreation rating comment
      then ReviewRoutes.updateReview user id rating (trim comment)
      else Ret validation_failed
  | DeleteReview user role id => ReviewRoutes.deleteReview user role id
  | MarkHelpful id => ReviewRoutes.markHelpful id
  | ReportReview now reporter id reason =>
      ReviewRoutes.reportReview now reporter id reason
  | ModerateReview id action => AdminRoutes.moderateReview id action
  end.

(** Serving one request with no other request in flight. *)
Definition serve (q : Request) (db : Db) : Response * Db := handle (api q) db.

Fixpoint serveAll (qs : list Request) (db : Db) : Db :=
  match qs with
  | [] => db
  | q :: qs' => serveAll qs' (snd (serve q db))
  end.

(** A store with a catalogue and nothing else yet. *)
Definition freshDb (cs : list Course.t) : Db := mkDb cs [] [].

(** Resuming one request [n] times in a row. *)
Fixpoint steps (n : nat) (t : Thread) (db : Db) : Thread * Db :=
  match n with
  | O => (t, db)
  | S n' => let (t', db') := step t db in steps n' t' db'
  end.

(* ================================================================= *)
(** ** Properties stated about the documents *)

(** [completionDate] is set exactly on the completed enrollments. *)
Definition completion_invariant (e : Enrollment.t) : Prop :=
  Enrollment.completionDate e <> None <-> Enrollment.progress e = 100.

(** The document a progress update hands to the driver. *)
Definition progressWrite (now : Date) (p : Z) (completedModuleIndex : option Z)
           (e : Enrollment.t) : Enrollment.t :=
  Enrollment.preSave now
    (EnrollmentRoutes.addCompletedModule now completedModuleIndex
       (Enrollment.set_lastAccessedAt now (Enrollment.set_progress p e))).

(** The document a re-enrollment hands to the driver. *)
Definition reactivated (now : Date) (e : Enrollment.t) : Enrollment.t :=
  Enrollment.preSave now
    (Enrollment.set_startDate now (Enrollment.set_isActive true e)).

(** Every stored enrollment passes the schema validators. *)
Definition schema_valid (docs : list Enrollment.t) : Prop :=
  Forall (fun e => 0 <= Enrollment.progress e <= 100) docs.

(** The [_id] index of the collection. *)
Definition ids_unique (docs : list Enrollment.t) : Prop :=
  NoDup (map Enrollment._id docs).

Definition pairOf (e : Enrollment.t) : ObjectId * ObjectId :=
  (Enrollment.student e, Enrollment.course e).

(** At most one enrollment per (student, course). *)
Definition pairs_unique (docs : list Enrollment.t) : Prop :=
  NoDup (map pairOf docs).

Definition moduleIndexes (e : Enrollment.t) : list Z :=
  map Enrollment.moduleIndex (Enrollment.completedModules e).

(** How many entries of [completedModules] carry index [i]. *)
Definition countModule (i : Z) (e : Enrollment.t) : nat :=
  count_occ Z.eq_dec (moduleIndexes e) i.

(** The [completedAt] recorded for index [i], if any. *)
Definition completedAtOf (i : Z) (e : Enrollment.t) : option Date :=
  option_map Enrollment.completedAt
    (find (fun m => Enrollment.moduleIndex m =? i)
          (Enrollment.completedModules e)).

Definition reporters (r : Review.t) : list ObjectId :=
  map Review.user (Review.reportedBy r).



(** No user has reported the review twice. *)
Definition reporters_unique (r : Review.t) : Prop :=
  NoDup (reporters r).

(** What a successful save guarantees of the document it wrote. *)
Definition saved_ok (e : Enrollment.t) : Prop :=
  completion_invariant e /\ 0 <= Enrollment.progress e <= 100.

(** The identifier an enroll request brings for its document is not in
    use. *)
Definition freshFor (db : Db) (q : Request) : Prop :=
  match q with
  | Enroll _ oid _ _ => ~ In oid (map Enrollment._id (enrollments db))
  | _ => True
  end.


(** [req.body.reason] is missing, empty, or blank. *)
Definition blankReason (reason : option string) : bool :=
  match reason with
  | None => true
  | Some s => String.eqb (trim s) ""
  end.

(** [s] is made of white space and line terminators only. *)
Definition whiteOnly (s : string) : Prop :=
  exists ks : list (list ascii),
    Forall (fun w => In w whiteSpaces) ks
    /\ list_ascii_of_string s = List.concat ks.

(** [t] is [s] without the white space at its two ends: what was taken
    away is white space, and [t] neither starts nor ends with any. *)
Definition trimmedOf (s t : string) : Prop :=
  exists a b : string,
    s = (a ++ t ++ b)%string
    /\ whiteOnly a /\ whiteOnly b
    /\ (forall w rest, In w whiteSpaces ->
                       list_ascii_of_string t <> w ++ rest)
    /\ (forall w rest, In w whiteSpaces ->
                       list_ascii_of_string t <> rest ++ w).

(** No word of [ws] is empty, and none starts with another. *)
Definition isCode (ws : list (list ascii)) : Prop :=
  (forall w, In w ws -> w <> [])
  /\ (forall w w' rest, In w ws -> In w' ws -> w' = w ++ rest -> rest = []).

Definition isCodeb (ws : list (list ascii)) : bool :=
  forallb
    (fun w =>
       match w with [] => false | _ :: _ => true end
       && forallb (fun w' => match stripPrefix w w' with
                             | Some (_ :: _) => false
                             | _ => true
                             end) ws) ws.

(** The three conditions of review creation, read off the store. *)
Definition courseUsable (cid : ObjectId) (db : Db) : bool :=
  match Course.findById cid (courses db) with
  | Some c => Course.isActive c
  | None => false
  end.

Definition hasActiveEnrollment (user cid : ObjectId) (db : Db) : bool :=
  existsb (fun e => Nat.eqb (Enrollment.student e) user
                    && Nat.eqb (Enrollment.course e) cid
                    && Enrollment.isActive e) (enrollments db).

Definition hasReviewed (user cid : ObjectId) (db : Db) : bool :=
  existsb (fun r => Nat.eqb (Review.student r) user
                    && Nat.eqb (Review.course r) cid) (reviews db).

(** The ratings that count for a course. *)
Definition approvedRatings (cid : ObjectId) (db : Db) : list Z :=
  map Review.rating
      (filter (fun r => Nat.eqb (Review.course r) cid && Review.isApproved r)
              (reviews db)).

Definition mean (l : list Z) : Q := sumZ l # Pos.of_nat (List.length l).

(** [r] is [x] rounded to one decimal place: a whole number of tenths, at
    most half a tenth away from [x]. *)
Definition rounded_to_one_decimal (x r : Q) : Prop :=
  (exists k : Z, r == inject_Z k / 10)%Q /\ (Qabs (x - r) <= 1 # 20)%Q.

(* ================================================================= *)
(** ** Sample data *)

Definition sampleCourse : Course.t :=
  Course.mk 10%nat "React Basics" true.

(** Student 7 left course 10 at 40%, with module 0 completed. *)
Definition sampleEnrollment : Enrollment.t :=
  {| Enrollment._id := 1%nat; Enrollment.student := 7%nat;
     Enrollment.course := 10%nat; Enrollment.progress := 40;
     Enrollment.completedModules := [Enrollment.mkModule 0 100];
     Enrollment.startDate := 50; Enrollment.completionDate := None;
     Enrollment.certificateIssued := false;
     Enrollment.certificateUrl := None;
     Enrollment.lastAccessedAt := 120; Enrollment.isActive := false |}.

(** A review of course 10 that user 8 has reported. *)
Definition sampleReview : Review.t :=
  {| Review._id := 3%nat; Review.student := 7%nat; Review.course := 10%nat;
     Review.rating := 5; Review.comment := "Clear and well paced.";
     Review.isApproved := true; Review.helpfulVotes := 2;
     Review.reportedBy := [Review.mkReport 8%nat "spam" 60] |}.

Definition sampleDb : Db :=
  mkDb [sampleCourse] [sampleEnrollment] [sampleReview].

(** An enrollment of student 7 that holds module 1 twice, as two progress
    updates in flight at once leave it in the store: each looked the list
    up before the other had saved, and the store keeps the entry each of
    them pushed. *)
Definition twiceRecorded : Enrollment.t :=
  {| Enrollment._id := 1%nat; Enrollment.student := 7%nat;
     Enrollment.course := 10%nat; Enrollment.progress := 40;
     Enrollment.completedModules :=
       [Enrollment.mkModule 1 100; Enrollment.mkModule 1 101];
     Enrollment.startDate := 50; Enrollment.completionDate := None;
     Enrollment.certificateIssued := false;
     Enrollment.certificateUrl := None;
     Enrollment.lastAccessedAt := 101; Enrollment.isActive := true |}.

(** Course 10 with approved ratings 5, 3 and 4, a rejected review and a
    review of another course. *)
Definition ratedDb : Db :=
  mkDb [sampleCourse] []
       [ Review.mk 1%nat 7%nat 10%nat 5 "Excellent course" true 0 [];
         Review.mk 2%nat 8%nat 10%nat 1 "Not for me at all" false 0 [];
         Review.mk 3%nat 9%nat 10%nat 3 "Average content" true 0 [];
         Review.mk 4%nat 7%nat 11%nat 2 "Another course" true 0 [];
         Review.mk 5%nat 6%nat 10%nat 4 "Good overall" true 0 [] ].

(** Two enroll requests of student 7 for course 10 in flight at once (a
    double click), on a store where the student is not enrolled yet.  Both
    look the course up, both find no enrollment, the first one creates its
    document and answers, and then the second one reaches its own
    [Enrollment.create]. *)
Definition raceDb : Db := freshDb [sampleCourse].

Definition raceFirst : Thread :=
  Pending (EnrollmentRoutes.enroll 1000 1%nat 7%nat (Some 10%nat)).

Definition raceSecond : Thread :=
  Pending (EnrollmentRoutes.enroll 1001 2%nat 7%nat (Some 10%nat)).

Definition raceSchedule : list bool :=
  [false; true; false; true; false; false; false; true].

(* ================================================================= *)
(** ** More of the models and routes

    The read-only statics and handlers below, and the course deletion,
    are given as functions of the store they are served from, with no
    other request in between. *)

(** [Math.ceil]. *)
Definition Math_ceil (x : Q) : Z := Qceiling x.

(** [1000 * 60 * 60 * 24], the milliseconds of a day. *)
Definition msPerDay : Z := 1000 * 60 * 60 * 24.

(** [models/Enrollment.js], virtual [daysSinceEnrollment]; [now] is
    [new Date()]. *)
Definition daysSinceEnrollment (now : Date) (e : Enrollment.t) : Z :=
  let diffTime := Z.abs (now - Enrollment.startDate e) in
  Math_ceil (inject_Z diffTime / inject_Z msPerDay).

(** The output documents of the [$group] stage of [getEnrollmentStats]. *)
Record EnrollmentStats := mkEnrollmentStats {
  totalEnrollments : nat;
  completedEnrollments : nat;
  averageProgress : Q
}.

(** [{ $group: { _id: null, totalEnrollments: { $sum: 1 },
       completedEnrollments: { $sum: { $cond: [{ $eq: ['$progress', 100] },
       1, 0] } }, averageProgress: { $avg: '$progress' } } }]: one group
    over the whole collection, none when the collection is empty. *)
Definition groupAllEnrollments (docs : list Enrollment.t)
  : list EnrollmentStats :=
  match docs with
  | [] => []
  | _ :: _ =>
      [ {| totalEnrollments := List.length docs;
           completedEnrollments :=
             fold_right
               (fun e n =>
                  ((if (Enrollment.progress e =? 100)%Z then 1 else 0)
                   + n)%nat)
               0%nat docs;
           averageProgress :=
             Qmake (sumZ (map Enrollment.progress docs))
                   (Pos.of_nat (List.length docs)) |} ]
  end.

(** [models/Enrollment.js], static [getEnrollmentStats]: [stats[0]], or
    the zero statistics. *)
Definition getEnrollmentStats (docs : list Enrollment.t) : EnrollmentStats :=
  match groupAllEnrollments docs with
  | g :: _ => g
  | [] => {| totalEnrollments := 0; completedEnrollments := 0;
             averageProgress := 0%Q |}
  end.

(** A JavaScript number that a division may have produced. *)
Inductive JsNumber :=
| JsNaN
| JsInfinity
| JsFinite (q : Q).

(** [a / b] on two counts. *)
Definition jsDivide (a b : nat) : JsNumber :=
  match b, a with
  | O, O => JsNaN
  | O, S _ => JsInfinity
  | S _, _ => JsFinite (inject_Z (Z.of_nat a) / inject_Z (Z.of_nat b))
  end.

(** [x * k] for a positive constant [k]. *)
Definition jsTimes (x : JsNumber) (k : Q) : JsNumber :=
  match x with
  | JsFinite q => JsFinite (q * k)
  | _ => x
  end.

(** [Math.round(x)]. *)
Definition jsRound (x : JsNumber) : JsNumber :=
  match x with
  | JsFinite q => JsFinite (inject_Z (Math_round q))
  | _ => x
  end.

(** [x || 0]: [NaN] and [0] are falsy. *)
Definition jsOrZero (x : JsNumber) : JsNumber :=
  match x with
  | JsNaN => JsFinite 0
  | JsInfinity => JsInfinity
  | JsFinite q => if Qeq_bool q 0 then JsFinite 0 else x
  end.

(** The admin dashboard, [overview.completionRate]:
    [Math.round((enrollmentStats.completedEnrollments /
    enrollmentStats.totalEnrollments) * 100) || 0], with
    [enrollmentStats = await Enrollment.getEnrollmentStats()]. *)
Definition dashboardCompletionRate (db : Db) : JsNumber :=
  let enrollmentStats := getEnrollmentStats (enrollments db) in
  jsOrZero
    (jsRound
       (jsTimes (jsDivide (completedEnrollments enrollmentStats)
                          (totalEnrollments enrollmentStats)) 100)).

(** [parseInt(param) || d]: [parsed] is what [parseInt] made of the query
    parameter, [None] when that is [NaN] (a missing parameter included);
    [NaN] and [0] give the default. *)
Definition orDefault (parsed : option Z) (d : Z) : Z :=
  match parsed with
  | None => d
  | Some 0 => d
  | Some n => n
  end.

(** The [query] object of [GET /api/enrollments], as a test on a
    document. *)
Definition enrollmentQuery (user : ObjectId) (statusQ isActiveQ : option string)
           (e : Enrollment.t) : bool :=
  Nat.eqb (Enrollment.student e) user
  && match statusQ with
     | Some s =>
         if String.eqb s "completed" then Enrollment.progress e =? 100
         else if String.eqb s "in-progress" then Enrollment.progress e <? 100
         else true
     | None => true
     end
  && match isActiveQ with
     | Some s => Bool.eqb (Enrollment.isActive e) (String.eqb s "true")
     | None => true
     end.

(** [.sort({ lastAccessedAt: -1 })], as a stable insertion sort. *)
Fixpoint insertByLastAccessed (e : Enrollment.t) (l : list Enrollment.t)
  : list Enrollment.t :=
  match l with
  | [] => [e]
  | x :: l' =>
      if Enrollment.lastAccessedAt x <=? Enrollment.lastAccessedAt e
      then e :: l
      else x :: insertByLastAccessed e l'
  end.

Definition sortByLastAccessedDesc (l : list Enrollment.t)
  : list Enrollment.t :=
  fold_right insertByLastAccessed [] l.

(** [a] was accessed no earlier than [b]. *)
Definition accessedNoEarlier (a b : Enrollment.t) : Prop :=
  Enrollment.lastAccessedAt b <= Enrollment.lastAccessedAt a.

(** [.skip(skip).limit(limit)]: the store rejects a negative skip, the
    driver reads a negative limit as its absolute value, and a limit of 0
    is no limit. *)
Definition skipLimit {A : Type} (skip limit : Z) (l : list A)
  : option (list A) :=
  if skip <? 0 then None
  else if limit =? 0 then Some (skipn (Z.to_nat skip) l)
  else Some (firstn (Z.to_nat (Z.abs limit)) (skipn (Z.to_nat skip) l)).

Record EnrollmentPage := mkEnrollmentPage {
  pageItems : list Enrollment.t;
  pageNumber : Z;
  pageLimit : Z;
  pageTotal : nat;
  pagePages : Z
}.

(** [router.get('/', protect, ...)] of the enrollment routes: the page of
    the requester's enrollments, or the 500 answer of the [catch] block. *)
Definition listEnrollments (user : ObjectId) (statusQ isActiveQ : option string)
           (pageQ limitQ : option Z) (db : Db) : Response + EnrollmentPage :=
  let page := orDefault pageQ 1 in
  let limit := orDefault limitQ 10 in
  let skip := (page - 1) * limit in
  let query := enrollmentQuery user statusQ isActiveQ in
  match skipLimit skip limit
          (sortByLastAccessedDesc (filter query (enrollments db))) with
  | None => inl server_error
  | Some found =>
      let total := List.length (filter query (enrollments db)) in
      inr {| pageItems := found;
             pageNumber := page;
             pageLimit := limit;
             pageTotal := total;
             pagePages :=
               Math_ceil (inject_Z (Z.of_nat total) / inject_Z limit) |}
  end.

(** The items page [p] of the listing shows, nothing when it is refused. *)
Definition itemsOfPage (user : ObjectId) (statusQ isActiveQ : option string)
           (limitQ : option Z) (db : Db) (p : Z) : list Enrollment.t :=
  match listEnrollments user statusQ isActiveQ (Some p) limitQ db with
  | inr pg => pageItems pg
  | inl _ => []
  end.

(** [course.isActive = false; await course.save()] and
    [Course.findByIdAndDelete(id)] on the catalogue: the first course with
    that [_id] is overwritten, or removed. *)
Fixpoint deactivateCourse (id : ObjectId) (cs : list Course.t)
  : list Course.t :=
  match cs with
  | [] => []
  | c :: rest =>
      if Nat.eqb (Course._id c) id
      then Course.mk (Course._id c) (Course.title c) false :: rest
      else c :: deactivateCourse id rest
  end.

Fixpoint removeCourse (id : ObjectId) (cs : list Course.t) : list Course.t :=
  match cs with
  | [] => []
  | c :: rest =>
      if Nat.eqb (Course._id c) id then rest else c :: removeCourse id rest
  end.

(** [Enrollment.countDocuments({ course })]. *)
Definition countEnrollmentsOf (cid : ObjectId) (docs : list Enrollment.t)
  : nat :=
  List.length (filter (fun e => Nat.eqb (Enrollment.course e) cid) docs).

(** [Review.deleteMany({ course })]. *)
Definition deleteReviewsOf (cid : ObjectId) (docs : list Review.t)
  : list Review.t :=
  filter (fun r => negb (Nat.eqb (Review.course r) cid)) docs.

Definition course_missing : Response :=
  mkResponse 404 false "Course not found".
Definition course_deactivated : Response :=
  mkResponse 200 true
    "Course deactivated successfully (has active enrollments)".
Definition course_deleted : Response :=
  mkResponse 200 true "Course deleted successfully".

(** [router.delete('/:id', ...)] of the course routes.  The stored courses
    are taken to pass the validators of the course schema, so that
    [course.save()] goes through. *)
Definition deleteCourse (id : ObjectId) (db : Db) : Response * Db :=
  match Course.findById id (courses db) with
  | None => (course_missing, db)
  | Some course =>
      let enrollmentCount :=
        countEnrollmentsOf (Course._id course) (enrollments db) in
      if (0 <? enrollmentCount)%nat
      then (course_deactivated,
            mkDb (deactivateCourse (Course._id course) (courses db))
                 (enrollments db) (reviews db))
      else (course_deleted,
            mkDb (removeCourse id (courses db))
                 (enrollments db)
                 (deleteReviewsOf id (reviews db)))
  end.

(** [s.split(sep)] for a one-character separator. *)
Fixpoint splitOn (sep : ascii) (s : string) : list string :=
  match s with
  | EmptyString => [EmptyString]
  | String c s' =>
      if Ascii.eqb c sep then EmptyString :: splitOn sep s'
      else match splitOn sep s' with
           | [] => [String c EmptyString]
           | w :: ws => String c w :: ws
           end
  end.

(** The sentences [generateMockSummary] keeps:
    [content.split('.').filter(s => s.trim().length > 0)]. *)
Definition sentencesOf (content : string) : list string :=
  filter (fun s => (0 <? String.length (trim s))%nat) (splitOn "." content).

(** [generateMockSummary] of the note routes. *)
Definition generateMockSummary (content : string) : string :=
  let sentences := sentencesOf content in
  let keyPoints := String.concat ". " (map trim (firstn 3 sentences)) in
  ("Key Points: " ++ keyPoints ++
   ". This summary was generated using AI to highlight the main concepts from your notes.")%string.

(* ================================================================= *)
(** ** Further properties stated about the documents *)

(** What a review weighs in the review count of course [c]: one if it is
    an approved review of that course, nothing otherwise. *)
Definition countsFor (c : ObjectId) (r : Review.t) : nat :=
  if Nat.eqb (Review.course r) c && Review.isApproved r then 1%nat else 0%nat.

(** What the two indexes of the enrollment collection see of a document:
    its [_id] and its (student, course) pair. *)
Definition Key : Type := (ObjectId * (ObjectId * ObjectId))%type.

Definition keyOf (e : Enrollment.t) : Key := (Enrollment._id e, pairOf e).

Definition keys (db : Db) : list Key := map keyOf (enrollments db).

(** The identifier a request brings for the enrollment it may create. *)
Definition newId (q : Request) : option ObjectId :=
  match q with
  | Enroll _ oid _ _ => Some oid
  | _ => None
  end.

(** What one awaited call asks of a handler that is resumed later, when
    other requests may have written in between.  [K] are the keys stored
    when the call is issued, [K'] those stored when it resolves, and
    [rest] is the handler from there on.  A read resolves to a document
    stored by then; a [save()] is for a document whose key is stored; an
    [Enrollment.create] uses the identifier [own] of the request, which is
    spent by it. *)
Definition trackedOp {X : Type} (op : DbOp X)
           (rest : X -> option ObjectId -> list Key -> Prop)
           (own : option ObjectId) (K : list Key) : Prop :=
  match op in DbOp X
        return (X -> option ObjectId -> list Key -> Prop) -> Prop with
  | EnrollmentFindById _ =>
      fun rest => forall K' x, incl K K' ->
                               (forall e, x = Some e -> In (keyOf e) K') ->
                               rest x own K'
  | EnrollmentFindOne _ _ =>
      fun rest => forall K' x, incl K K' ->
                               (forall e, x = Some e -> In (keyOf e) K') ->
                               rest x own K'
  | EnrollmentFindOneActive _ _ =>
      fun rest => forall K' x, incl K K' ->
                               (forall e, x = Some e -> In (keyOf e) K') ->
                               rest x own K'
  | EnrollmentSave _ e =>
      fun rest => In (keyOf e) K
                  /\ forall K' x, incl K K' -> In (keyOf x) K' ->
                                  rest x own K'
  | EnrollmentCreate _ oid _ _ =>
      fun rest => own = Some oid
                  /\ forall K' x, incl K K' -> In (keyOf x) K' ->
                                  rest x None K'
  | _ => fun rest => forall K' x, incl K K' -> rest x own K'
  end rest.

(** A handler all of whose awaited calls are as [trackedOp] asks. *)
Fixpoint tracked (p : Prog Response) : option ObjectId -> list Key -> Prop :=
  match p with
  | Ret _ => fun _ _ => True
  | Await op k => trackedOp op (fun x => tracked (k x))
  end.

Definition thread_tracked (t : Thread) (own : option ObjectId) (db : Db)
  : Prop :=
  match t with
  | Pending p => tracked p own (keys db)
  | Finished _ => True
  end.

(** The identifier [own] is not in use in the collection. *)
Definition unusedId (own : option ObjectId) (db : Db) : Prop :=
  forall o, own = Some o -> ~ In o (map Enrollment._id (enrollments db)).

(** [{ 'reportedBy.0': { $exists: true } }], the filter of
    [GET /api/admin/reported-reviews]: the review has a report. *)
Definition hasReports (r : Review.t) : bool :=
  match Review.reportedBy r with
  | [] => false
  | _ :: _ => true
  end.

(** [Review.countDocuments({ 'reportedBy.0': { $exists: true } })], the
    [total] that route answers with. *)
Definition reportedReviewsTotal (db : Db) : nat :=
  List.length (filter hasReports (reviews db)).

(* ================================================================= *)
(** ** Facts about the collections *)

Section ListFacts.

Context {A : Type}.

Lemma find_none_existsb (f : A -> bool) (l : list A) :
  find f l = None <-> existsb f l = false.
Proof.
  induction l as [|a l IH]; simpl.
  - tauto.
  - destruct (f a); simpl; [split; discriminate | exact IH].
Qed.

Lemma existsb_find (f : A -> bool) (l : list A) :
  existsb f l = match find f l with Some _ => true | None => false end.
Proof.
  induction l as [|a l IH]; simpl; [reflexivity|].
  destruct (f a); [reflexivity | exact IH].
Qed.

End ListFacts.

(* ================================================================= *)
(** ** Facts about [trim] *)

Module TrimFacts.

Lemma stripPrefix_app (w rest : list ascii) :
  stripPrefix w (w ++ rest) = Some rest.
Proof.
  induction w as [|a w IH]; simpl; [reflexivity|].
  now rewrite Ascii.eqb_refl.
Qed.

Lemma stripPrefix_some (w l rest : list ascii) :
  stripPrefix w l = Some rest -> l = w ++ rest.
Proof.
  revert l. induction w as [|a w IH]; intros l; simpl.
  - now intros [= ->].
  - destruct l as [|b l]; [discriminate|].
    destruct (Ascii.eqb a b) eqn:E; [|discriminate].
    apply Ascii.eqb_eq in E. subst b. intros H. f_equal. now apply IH.
Qed.

Lemma afterFirst_some ws l rest :
  afterFirst ws l = Some rest -> exists w, In w ws /\ l = w ++ rest.
Proof.
  induction ws as [|w ws IH]; simpl; [discriminate|].
  destruct (stripPrefix w l) as [r|] eqn:E.
  - intros [= ->]. exists w. split; [now left|].
    now apply stripPrefix_some.
  - intros H. destruct (IH H) as (w' & Hin & Hl). exists w'. auto.
Qed.

Lemma afterFirst_none ws l :
  afterFirst ws l = None ->
  forall w rest, In w ws -> l <> w ++ rest.
Proof.
  induction ws as [|w0 ws IH]; simpl; [intros _ w rest []|].
  destruct (stripPrefix w0 l) as [r|] eqn:E; [discriminate|].
  intros H w rest [<-|Hin] Hl.
  - subst l. rewrite stripPrefix_app in E. discriminate.
  - exact (IH H w rest Hin Hl).
Qed.

Lemma isCodeb_sound ws : isCodeb ws = true -> isCode ws.
Proof.
  unfold isCodeb. intros H. rewrite forallb_forall in H. split.
  - intros w Hin ->. apply H in Hin. discriminate.
  - intros w w' rest Hw Hw' ->. apply H in Hw.
    apply andb_true_iff in Hw as [_ Hw]. rewrite forallb_forall in Hw.
    specialize (Hw _ Hw'). rewrite stripPrefix_app in Hw.
    now destruct rest.
Qed.

Lemma whiteSpaces_code : isCode whiteSpaces.
Proof. apply isCodeb_sound. vm_compute. reflexivity. Qed.

Lemma whiteSpaces_rev_code : isCode (map (@rev ascii) whiteSpaces).
Proof. apply isCodeb_sound. vm_compute. reflexivity. Qed.


(** What [dropLeading] takes away is a run of words of [ws], and what it
    leaves starts with none. *)
Lemma dropLeading_split ws :
  isCode ws ->
  forall n l,
    (List.length l <= n)%nat ->
    exists ks,
      Forall (fun w => In w ws) ks
      /\ l = List.concat ks ++ dropLeading ws n l
      /\ afterFirst ws (dropLeading ws n l) = None.
Proof.
  intros [Hne _]. induction n as [|n IH]; intros l Hlen.
  - destruct l; [|simpl in Hlen; lia].
    exists []. simpl. repeat split; [constructor|].
    destruct (afterFirst ws []) as [r|] eqn:E; [|reflexivity].
    destruct (afterFirst_some _ _ _ E) as (w & Hin & Hl).
    symmetry in Hl. apply app_eq_nil in Hl as [-> _].
    now destruct (Hne [] Hin).
  - simpl. destruct (afterFirst ws l) as [r|] eqn:E.
    + destruct (afterFirst_some _ _ _ E) as (w & Hin & ->).
      assert (Hw : w <> []) by now apply Hne.
      assert (Hr : (List.length r <= n)%nat).
      { rewrite length_app in Hlen. destruct w; [congruence|].
        simpl in Hlen. lia. }
      destruct (IH r Hr) as (ks & Hks & Hsplit & Hnone).
      exists (w :: ks). split; [now constructor|].
      split; [|exact Hnone].
      simpl. rewrite <- app_assoc. now f_equal.
    + exists []. simpl. repeat split; [constructor | exact E].
Qed.


Lemma Forall_rev_words (ks : list (list ascii)) :
  Forall (fun w => In w (map (@rev ascii) whiteSpaces)) ks ->
  Forall (fun w => In w whiteSpaces) (map (@rev ascii) ks).
Proof.
  induction 1 as [|w ks Hw _ IH]; simpl; constructor; [|exact IH].
  apply in_map_iff in Hw as (x & <- & Hx). now rewrite rev_involutive.
Qed.

Lemma rev_concat (ks : list (list ascii)) :
  rev (List.concat ks) = List.concat (rev (map (@rev ascii) ks)).
Proof.
  induction ks as [|w ks IH]; simpl; [reflexivity|].
  rewrite rev_app_distr, IH, concat_app. simpl. now rewrite app_nil_r.
Qed.

(** [trim] on the bytes. *)
Lemma trimChars_split (l : list ascii) :
  exists ka kb,
    Forall (fun w => In w whiteSpaces) ka
    /\ Forall (fun w => In w whiteSpaces) kb
    /\ l = List.concat ka ++ trimEndChars (trimStartChars l) ++ List.concat kb
    /\ afterFirst whiteSpaces (trimEndChars (trimStartChars l)) = None
    /\ afterFirst (map (@rev ascii) whiteSpaces)
                  (rev (trimEndChars (trimStartChars l))) = None.
Proof.
  destruct (dropLeading_split whiteSpaces whiteSpaces_code
              (List.length l) l (le_n _)) as (ka & Hka & Hl & Hstart).
  fold (trimStartChars l) in Hl, Hstart.
  set (m := trimStartChars l) in *.
  destruct (dropLeading_split _ whiteSpaces_rev_code
              (List.length m) (rev m))
    as (kb & Hkb & Hm & Hend); [now rewrite length_rev|].
  set (t := dropLeading (map (@rev ascii) whiteSpaces)
                        (List.length m) (rev m)) in *.
  assert (Hmt : m = rev t ++ List.concat (rev (map (@rev ascii) kb))).
  { rewrite <- rev_concat, <- rev_app_distr, <- Hm.
    now rewrite rev_involutive. }
  exists ka, (rev (map (@rev ascii) kb)).
  split; [exact Hka|]. split.
  { apply Forall_rev. now apply Forall_rev_words. }
  unfold trimEndChars. fold t.
  split; [now rewrite <- Hmt|].
  split; [|now rewrite rev_involutive].
  destruct (afterFirst whiteSpaces (rev t)) as [r|] eqn:E; [|reflexivity].
  destruct (afterFirst_some _ _ _ E) as (w & Hw & Hrt).
  exfalso. apply (afterFirst_none _ _ Hstart w
                    (r ++ List.concat (rev (map (@rev ascii) kb))) Hw).
  rewrite Hmt, Hrt. now rewrite app_assoc.
Qed.


Lemma list_ascii_app (a b : string) :
  list_ascii_of_string (a ++ b)
  = list_ascii_of_string a ++ list_ascii_of_string b.
Proof. induction a as [|c a IH]; simpl; [reflexivity|]. now rewrite IH. Qed.

Lemma string_of_app (a b : list ascii) :
  string_of_list_ascii (a ++ b)
  = (string_of_list_ascii a ++ string_of_list_ascii b)%string.
Proof. induction a as [|c a IH]; simpl; [reflexivity|]. now rewrite IH. Qed.

(** [trim] takes white space away from the two ends, and all of it. *)
Lemma trim_trimmedOf (s : string) : trimmedOf s (trim s).
Proof.
  destruct (trimChars_split (list_ascii_of_string s))
    as (ka & kb & Hka & Hkb & Hl & Hstart & Hend).
  exists (string_of_list_ascii (List.concat ka)),
         (string_of_list_ascii (List.concat kb)).
  split.
  { unfold trim. rewrite <- !string_of_app, <- Hl.
    now rewrite string_of_list_ascii_of_string. }
  split; [exists ka; now rewrite list_ascii_of_string_of_list_ascii|].
  split; [exists kb; now rewrite list_ascii_of_string_of_list_ascii|].
  unfold trim. rewrite list_ascii_of_string_of_list_ascii. split.
  - intros w rest Hw. exact (afterFirst_none _ _ Hstart w rest Hw).
  - intros w rest Hw Heq.
    apply (afterFirst_none _ _ Hend (rev w) (rev rest)).
    + now apply in_map.
    + now rewrite Heq, rev_app_distr.
Qed.


End TrimFacts.

Module EnrollmentFacts.

Import Enrollment.

Lemma findById_id id docs e : findById id docs = Some e -> _id e = id.
Proof.
  intros H. apply find_some in H. now apply Nat.eqb_eq.
Qed.


(** After the update, looking the document up again gives what was
    written. *)
Lemma findById_replace e' docs e :
  findById (_id e') docs = Some e ->
  findById (_id e') (replace e' docs) = Some e'.
Proof.
  unfold findById.
  induction docs as [|d docs IH]; simpl; [discriminate|].
  destruct (Nat.eqb (_id d) (_id e')) eqn:E; simpl.
  - now rewrite Nat.eqb_refl.
  - rewrite E. exact IH.
Qed.

(** The update touches the looked-up document and nothing else. *)
Lemma replace_split e' docs e :
  findById (_id e') docs = Some e ->
  exists l1 l2, docs = l1 ++ e :: l2 /\ replace e' docs = l1 ++ e' :: l2.
Proof.
  unfold findById.
  induction docs as [|d docs IH]; simpl; [discriminate|].
  destruct (Nat.eqb (_id d) (_id e')) eqn:E.
  - intros [= ->]. now exists [], docs.
  - intros H. destruct (IH H) as (l1 & l2 & -> & ->).
    now exists (d :: l1), l2.
Qed.

Lemma replace_In e' docs d :
  In d (replace e' docs) -> In d docs \/ d = e'.
Proof.
  induction docs as [|x docs IH]; simpl; [tauto|].
  destruct (Nat.eqb (_id x) (_id e')); simpl; intuition.
Qed.

Lemma preSave_progress now e : progress (preSave now e) = progress e.
Proof.
  unfold preSave.
  destruct (progress e =? 100); destruct (completionDate e);
    destruct (progress e <? 100); reflexivity.
Qed.

Lemma preSave_completionDate now e :
  completionDate (preSave now e) =
    if progress e =? 100
    then Some (match completionDate e with Some d => d | None => now end)
    else if progress e <? 100 then None else completionDate e.
Proof.
  destruct e as [i s c p ms sd cd ci cu la act]. unfold preSave. simpl.
  destruct (p =? 100) eqn:E.
  - apply Z.eqb_eq in E. subst p. destruct cd; reflexivity.
  - simpl. destruct (p <? 100); reflexivity.
Qed.

Lemma preSave_invariant now e :
  progress e <= 100 -> completion_invariant (preSave now e).
Proof.
  intros Hle. unfold completion_invariant.
  rewrite preSave_completionDate, preSave_progress.
  destruct (progress e =? 100) eqn:E100.
  - apply Z.eqb_eq in E100. split; [auto | discriminate].
  - apply Z.eqb_neq in E100.
    assert (Hlt : (progress e <? 100) = true) by (apply Z.ltb_lt; lia).
    rewrite Hlt. split; [congruence | contradiction].
Qed.

Lemma save_doc_some now e e' :
  save_doc now e = Some e' ->
  0 <= progress e <= 100 /\ e' = preSave now e.
Proof.
  unfold save_doc, validate. intros H.
  destruct (0 <=? progress e) eqn:E0; simpl in H; [|discriminate].
  destruct (progress e <=? 100) eqn:E1; [|discriminate].
  injection H as <-.
  apply Z.leb_le in E0. apply Z.leb_le in E1. auto.
Qed.

Lemma save_doc_valid now e :
  0 <= progress e <= 100 -> save_doc now e = Some (preSave now e).
Proof.
  intros [H0 H1]. unfold save_doc, validate.
  apply Z.leb_le in H0. apply Z.leb_le in H1. now rewrite H0, H1.
Qed.

Lemma save_doc_invariant now e e' :
  save_doc now e = Some e' -> completion_invariant e'.
Proof.
  intros H. apply save_doc_some in H as [Hr ->].
  apply preSave_invariant. lia.
Qed.

End EnrollmentFacts.

(* ================================================================= *)
(** ** Completion date *)

Section SavedDocuments.

(** Whatever call the store accepts, an enrollment it holds afterwards was
    there before or has just passed [save_doc]. *)
Lemma exec_enrollments_saved {X : Type} (op : DbOp X) (db db' : Db) (x : X) :
  exec op db = inr (x, db') ->
  forall d, In d (enrollments db') -> In d (enrollments db) \/ saved_ok d.
Proof.
  assert (Hsaved : forall now e e', Enrollment.save_doc now e = Some e' ->
                                    saved_ok e').
  { intros now e e' H. split.
    - now apply EnrollmentFacts.save_doc_invariant in H.
    - apply EnrollmentFacts.save_doc_some in H as [Hr ->].
      now rewrite EnrollmentFacts.preSave_progress. }
  destruct op; simpl; intros Hexec d Hd;
    try (injection Hexec as _ <-; now left).
  - destruct (Enrollment.save_doc now e) as [e'|] eqn:Hs; [|discriminate].
    injection Hexec as _ <-. simpl in Hd.
    apply EnrollmentFacts.replace_In in Hd as [Hd | ->]; [now left|].
    right. now apply Hsaved in Hs.
  - destruct (Enrollment.violatesUnique s c (enrollments db));
      [discriminate|].
    injection Hexec as _ <-. simpl in Hd.
    apply in_app_or in Hd as [Hd | [<- | []]]; [now left|].
    right. now apply (Hsaved now (Enrollment.defaults now oid s c)).
Qed.

(** The same of any handler body run to its end. *)
Lemma run_enrollments_saved {A : Type} (p : Prog A) :
  forall (db : Db) (d : Enrollment.t),
    In d (enrollments (snd (run p db))) ->
    In d (enrollments db) \/ saved_ok d.
Proof.
  induction p as [a | X op k IH]; intros db d Hd; simpl in Hd.
  - now left.
  - destruct (exec op db) as [err | [x db']] eqn:Hexec; simpl in Hd.
    + now left.
    + apply IH in Hd as [Hd | Hd]; [|now right].
      now apply (exec_enrollments_saved op db db' x Hexec).
Qed.

Lemma handle_snd (body : Prog Response) (db : Db) :
  snd (handle body db) = snd (run body db).
Proof.
  unfold handle. destruct (run body db) as [[err | r] db']; reflexivity.
Qed.

(** Served alone, a request leaves every enrollment it wrote with its
    completion date set exactly when its progress is 100. *)
Lemma serve_enrollments_saved (q : Request) (db : Db) (d : Enrollment.t) :
  In d (enrollments (snd (serve q db))) ->
  In d (enrollments db) \/ saved_ok d.
Proof.
  unfold serve. rewrite handle_snd. apply run_enrollments_saved.
Qed.

(** And so do requests that overlap, whatever the schedule. *)
Lemma step_enrollments_saved (t t' : Thread) (db db' : Db) :
  step t db = (t', db') ->
  forall d, In d (enrollments db') -> In d (enrollments db) \/ saved_ok d.
Proof.
  destruct t as [[r | X op k] | r]; simpl.
  - intros [= _ <-] d Hd. now left.
  - destruct (exec op db) as [err | [x db1]] eqn:Hexec.
    + intros [= _ <-] d Hd. now left.
    + intros [= _ <-]. now apply (exec_enrollments_saved op db db1 x).
  - intros [= _ <-] d Hd. now left.
Qed.

Lemma interleave_enrollments_saved (sched : list bool) :
  forall (a b : Thread) (db : Db),
    Forall saved_ok (enrollments db) ->
    Forall saved_ok (enrollments (snd (interleave sched a b db))).
Proof.
  induction sched as [|w sched IH]; intros a b db Hall; simpl; [exact Hall|].
  destruct w.
  - destruct (step b db) as [b' db'] eqn:Hstep. apply IH.
    apply Forall_forall. intros d Hd.
    destruct (step_enrollments_saved _ _ _ _ Hstep d Hd) as [Hold|Hnew];
      [|exact Hnew].
    rewrite Forall_forall in Hall. now apply Hall.
  - destruct (step a db) as [a' db'] eqn:Hstep. apply IH.
    apply Forall_forall. intros d Hd.
    destruct (step_enrollments_saved _ _ _ _ Hstep d Hd) as [Hold|Hnew];
      [|exact Hnew].
    rewrite Forall_forall in Hall. now apply Hall.
Qed.

Lemma serveAll_enrollments_saved (qs : list Request) :
  forall db : Db,
    Forall saved_ok (enrollments db) ->
    Forall saved_ok (enrollments (serveAll qs db)).
Proof.
  induction qs as [|q qs IH]; intros db Hall; simpl; [exact Hall|].
  apply IH. apply Forall_forall. intros d Hd.
  destruct (serve_enrollments_saved q db d Hd) as [Hold|Hnew]; [|exact Hnew].
  rewrite Forall_forall in Hall. now apply Hall.
Qed.

(** X23.  Starting from a catalogue alone, with the requests served one
    after the other, none resumed while another is in flight, and the
    [progress] of a body an integer where the body has one: every stored
    enrollment passes the validators and has its completion date set
    exactly when its progress is 100. *)
Corollary reachable_enrollments_saved (cs : list Course.t)
          (qs : list Request) :
  Forall saved_ok (enrollments (serveAll qs (freshDb cs))).
Proof. apply serveAll_enrollments_saved. constructor. Qed.

End SavedDocuments.

(** C1.  Whatever document a save writes, its [completionDate] is non-null
    if and only if its [progress] is 100: the hook leaves [progress]
    alone, a progress below 100 clears the date and a progress of 100
    leaves a date in place.  Every write of the API is such a save:
    after any request (enrollment, reactivation, progress update,
    unenrollment), an enrollment of the store was there before or
    satisfies the equivalence. *)
Theorem save_completionDate_iff_progress_100 :
  (forall (now : Date) (e e' : Enrollment.t),
      Enrollment.save_doc now e = Some e' ->
      (Enrollment.completionDate e' <> None <-> Enrollment.progress e' = 100)
      /\ Enrollment.progress e' = Enrollment.progress e
      /\ (Enrollment.progress e < 100 -> Enrollment.completionDate e' = None)
      /\ (Enrollment.progress e = 100 ->
          Enrollment.completionDate e' <> None))
  /\ (forall (q : Request) (db : Db) (d : Enrollment.t),
        In d (enrollments (snd (serve q db))) ->
        In d (enrollments db)
        \/ (Enrollment.completionDate d <> None
            <-> Enrollment.progress d = 100)).
Proof.
  split.
  - intros now e e' Hsave.
    pose proof (EnrollmentFacts.save_doc_invariant _ _ _ Hsave) as Hinv.
    apply EnrollmentFacts.save_doc_some in Hsave as [Hrange ->].
    unfold completion_invariant in Hinv.
    rewrite EnrollmentFacts.preSave_progress in *.
    split; [exact Hinv|]. split; [reflexivity|]. split.
    + intros Hlt.
      destruct (Enrollment.completionDate _) eqn:E; [|reflexivity].
      assert (Enrollment.progress e = 100) by (apply Hinv; discriminate).
      lia.
    + intros H100. now apply Hinv.
  - intros q db d Hd.
    destruct (serve_enrollments_saved q db d Hd) as [Hold | [Hinv _]].
    + now left.
    + right. exact Hinv.
Qed.

Lemma save_completionDate_iff_progress_100_witness :
  Enrollment.save_doc 7 (Enrollment.set_progress 100 sampleEnrollment)
    = Some (Enrollment.preSave 7
              (Enrollment.set_progress 100 sampleEnrollment))
  /\ Enrollment.completionDate
       (Enrollment.preSave 7 (Enrollment.set_progress 100 sampleEnrollment))
     <> None.
Proof.
  split; [reflexivity|].
  destruct save_completionDate_iff_progress_100 as [Hsave _].
  apply (Hsave 7 (Enrollment.set_progress 100 sampleEnrollment) _ eq_refl).
  reflexivity.
Defined.


(* ================================================================= *)
(** ** Progress updates *)

Module ProgressFacts.

Import Enrollment EnrollmentRoutes.

Lemma addCompletedModule_progress now cmi e :
  progress (addCompletedModule now cmi e) = progress e.
Proof.
  destruct cmi as [i|]; simpl; [|reflexivity].
  destruct (find _ _); reflexivity.
Qed.

Lemma addCompletedModule_id now cmi e :
  _id (addCompletedModule now cmi e) = _id e.
Proof.
  destruct cmi as [i|]; simpl; [|reflexivity].
  destruct (find _ _); reflexivity.
Qed.

Lemma preSave_id now e : _id (preSave now e) = _id e.
Proof.
  unfold preSave.
  destruct (_ && _); [reflexivity|].
  destruct (progress e <? 100); reflexivity.
Qed.

Lemma progressWrite_id now p cmi e : _id (progressWrite now p cmi e) = _id e.
Proof.
  unfold progressWrite.
  now rewrite preSave_id, addCompletedModule_id.
Qed.

Lemma in_range_check p :
  0 <= p <= 100 -> (p <? 0) || (p >? 100) = false.
Proof.
  intros [H0 H1]. apply orb_false_iff. split.
  - apply Z.ltb_ge. lia.
  - rewrite Z.gtb_ltb. apply Z.ltb_ge. lia.
Qed.

Lemma out_of_range_check p :
  p < 0 \/ 100 < p -> (p <? 0) || (p >? 100) = true.
Proof.
  intros [H|H]; apply orb_true_iff.
  - left. now apply Z.ltb_lt.
  - right. rewrite Z.gtb_ltb. now apply Z.ltb_lt.
Qed.

(** What an accepted progress update does to the store. *)
Lemma handle_updateProgress now user id p cmi db e :
  0 <= p <= 100 ->
  findById id (enrollments db) = Some e ->
  student e = user ->
  handle (updateProgress now user id (Some p) cmi) db =
    (progress_updated,
     set_enrollments
       (replace (progressWrite now p cmi e) (enrollments db)) db).
Proof.
  intros Hp Hfind Hown.
  unfold handle, updateProgress.
  rewrite (in_range_check p Hp). simpl.
  rewrite Hfind, Hown, Nat.eqb_refl. simpl.
  rewrite EnrollmentFacts.save_doc_valid
    by (rewrite addCompletedModule_progress; simpl; exact Hp).
  reflexivity.
Qed.

End ProgressFacts.

(** C3.  A progress below 0 or above 100 is answered 400 "Progress must be
    between 0 and 100" before anything is awaited: the handler is already
    its answer, so the store it is run on comes back as it was, and every
    enrollment in it with all its fields. *)
Theorem updateProgress_out_of_range_rejected :
  forall (now : Date) (user id : ObjectId) (p : Z) (cmi : option Z),
    p < 0 \/ 100 < p ->
    EnrollmentRoutes.updateProgress now user id (Some p) cmi
      = Ret EnrollmentRoutes.progress_out_of_range
    /\ status EnrollmentRoutes.progress_out_of_range = 400%nat
    /\ forall db : Db,
         handle (EnrollmentRoutes.updateProgress now user id (Some p) cmi) db
           = (EnrollmentRoutes.progress_out_of_range, db)
         /\ step (Pending
                   (EnrollmentRoutes.updateProgress now user id (Some p) cmi))
                 db
            = (Finished EnrollmentRoutes.progress_out_of_range, db).
Proof.
  intros now user id p cmi Hout.
  assert (Hret : EnrollmentRoutes.updateProgress now user id (Some p) cmi
                 = Ret EnrollmentRoutes.progress_out_of_range).
  { unfold EnrollmentRoutes.updateProgress.
    now rewrite (ProgressFacts.out_of_range_check p Hout). }
  split; [exact Hret|]. split; [reflexivity|].
  intros db. rewrite Hret. split; reflexivity.
Qed.

Lemma updateProgress_out_of_range_rejected_witness :
  (101 < 0 \/ 100 < 101) /\
  EnrollmentRoutes.updateProgress 5 1%nat 1%nat (Some 101) (Some 2)
    = Ret EnrollmentRoutes.progress_out_of_range.
Proof.
  split; [right; lia|].
  apply (updateProgress_out_of_range_rejected 5 1%nat 1%nat 101 (Some 2)).
  right; lia.
Defined.

(** C10.  A progress update looks at three things only: the range of the
    value, the existence of the enrollment and its owner.  Whatever
    [isActive] says, an in-range update by the owner is answered 200 and
    writes [progressWrite]: the new progress, the completed module if it
    is new, [lastAccessedAt] and the completion date; the document written
    for an inactive enrollment is the one its active twin would get, with
    the flag left as it was. *)
Theorem updateProgress_ignores_isActive :
  forall (now : Date) (user id : ObjectId) (p : Z) (cmi : option Z)
         (db : Db) (e : Enrollment.t),
    Enrollment.findById id (enrollments db) = Some e ->
    Enrollment.student e = user ->
    0 <= p <= 100 ->
    let e' := progressWrite now p cmi e in
    handle (EnrollmentRoutes.updateProgress now user id (Some p) cmi) db
      = (EnrollmentRoutes.progress_updated,
         set_enrollments (Enrollment.replace e' (enrollments db)) db)
    /\ Enrollment.findById id
         (Enrollment.replace e' (enrollments db)) = Some e'
    /\ Enrollment.progress e' = p
    /\ Enrollment.lastAccessedAt e' = now
    /\ Enrollment.completedModules e'
       = Enrollment.completedModules
           (EnrollmentRoutes.addCompletedModule now cmi e)
    /\ (Enrollment.completionDate e' <> None <-> p = 100)
    /\ Enrollment.isActive e' = Enrollment.isActive e
    /\ forall b : bool,
         progressWrite now p cmi (Enrollment.set_isActive b e)
         = Enrollment.set_isActive b e'.
Proof.
  intros now user id p cmi db e Hfind Hown Hp e'.
  assert (Hid : Enrollment._id e' = id).
  { unfold e'. rewrite ProgressFacts.progressWrite_id.
    now apply EnrollmentFacts.findById_id in Hfind. }
  split; [now apply ProgressFacts.handle_updateProgress|].
  split.
  { rewrite <- Hid. apply EnrollmentFacts.findById_replace with (e := e).
    now rewrite Hid. }
  assert (Hprog : Enrollment.progress e' = p).
  { unfold e', progressWrite.
    now rewrite EnrollmentFacts.preSave_progress,
                ProgressFacts.addCompletedModule_progress. }
  split; [exact Hprog|].
  split.
  { unfold e', progressWrite, Enrollment.preSave. reflexivity. }
  split.
  { unfold e', progressWrite, Enrollment.preSave.
    destruct cmi as [i|]; simpl.
    - destruct (find _ _); simpl;
        destruct (_ && _); simpl; try reflexivity;
        destruct (p <? 100); reflexivity.
    - destruct (_ && _); simpl; try reflexivity;
        destruct (p <? 100); reflexivity. }
  split.
  { rewrite <- Hprog. apply EnrollmentFacts.preSave_invariant.
    rewrite ProgressFacts.addCompletedModule_progress. simpl. lia. }
  split.
  { unfold e', progressWrite, Enrollment.preSave.
    destruct cmi as [i|]; simpl.
    - destruct (find _ _); simpl;
        destruct (_ && _); simpl; try reflexivity;
        destruct (p <? 100); reflexivity.
    - destruct (_ && _); simpl; try reflexivity;
        destruct (p <? 100); reflexivity. }
  intros b. unfold e', progressWrite, Enrollment.preSave.
  destruct cmi as [i|]; simpl.
  - destruct (find _ _); simpl;
      destruct (_ && _); simpl; try reflexivity;
      destruct (p <? 100); reflexivity.
  - destruct (_ && _); simpl; try reflexivity;
      destruct (p <? 100); reflexivity.
Qed.

Lemma updateProgress_ignores_isActive_witness :
  Enrollment.isActive sampleEnrollment = false
  /\ handle (EnrollmentRoutes.updateProgress 200 7%nat 1%nat (Some 100) None)
            sampleDb
     = (EnrollmentRoutes.progress_updated,
        set_enrollments
          (Enrollment.replace (progressWrite 200 100 None sampleEnrollment)
                              (enrollments sampleDb)) sampleDb).
Proof.
  split; [reflexivity|].
  apply (updateProgress_ignores_isActive 200 7%nat 1%nat 100 None
           sampleDb sampleEnrollment); [reflexivity | reflexivity | lia].
Defined.

(* ================================================================= *)
(** ** Completed modules *)

Module ModuleFacts.

Import Enrollment EnrollmentRoutes.

Lemma preSave_completedModules now e :
  completedModules (preSave now e) = completedModules e.
Proof.
  unfold preSave.
  destruct (_ && _); [reflexivity|].
  destruct (progress e <? 100); reflexivity.
Qed.

Lemma progressWrite_completedModules now p cmi e :
  completedModules (progressWrite now p cmi e)
  = completedModules (addCompletedModule now cmi e).
Proof.
  unfold progressWrite. rewrite preSave_completedModules.
  destruct cmi as [i|]; simpl; [|reflexivity].
  destruct (find _ _); reflexivity.
Qed.

Lemma find_module_none i ms :
  find (fun m => moduleIndex m =? i) ms = None <->
  count_occ Z.eq_dec (map moduleIndex ms) i = 0%nat.
Proof.
  induction ms as [|m ms IH]; simpl; [tauto|].
  destruct (Z.eq_dec (moduleIndex m) i) as [E|E].
  - apply Z.eqb_eq in E. rewrite E. split; discriminate.
  - apply Z.eqb_neq in E. rewrite E. exact IH.
Qed.

Lemma find_module_app_new i now ms :
  find (fun m => moduleIndex m =? i) ms = None ->
  find (fun m => moduleIndex m =? i) (ms ++ [mkModule i now])
  = Some (mkModule i now).
Proof.
  induction ms as [|m ms IH]; simpl.
  - intros _. now rewrite Z.eqb_refl.
  - destruct (moduleIndex m =? i); [discriminate | exact IH].
Qed.

(** The index is in the list after the update, as often as before or
    once if it was not there. *)
Lemma countModule_add now i e :
  countModule i (addCompletedModule now (Some i) e)
  = Nat.max 1 (countModule i e).
Proof.
  unfold countModule, moduleIndexes. simpl.
  destruct (find _ _) as [m|] eqn:F.
  - destruct (count_occ Z.eq_dec (map moduleIndex (completedModules e)) i)
      as [|n] eqn:C; [|reflexivity].
    apply find_module_none in C. congruence.
  - pose proof F as C. apply find_module_none in C.
    simpl. rewrite map_app, count_occ_app, C. simpl.
    destruct (Z.eq_dec i i); [reflexivity | contradiction].
Qed.

Lemma completedAtOf_add now i e :
  completedAtOf i (addCompletedModule now (Some i) e)
  = Some (match completedAtOf i e with Some d => d | None => now end).
Proof.
  unfold completedAtOf. simpl.
  destruct (find _ (completedModules e)) as [m|] eqn:F; simpl.
  - now rewrite F.
  - now rewrite (find_module_app_new i now _ F).
Qed.

(** Submitting an index that is recorded changes nothing in the list. *)
Lemma addCompletedModule_present now i e d :
  completedAtOf i e = Some d ->
  completedModules (addCompletedModule now (Some i) e) = completedModules e.
Proof.
  unfold completedAtOf. simpl.
  destruct (find _ (completedModules e)); [reflexivity | discriminate].
Qed.

Lemma countModule_ext i e e' :
  completedModules e = completedModules e' ->
  countModule i e = countModule i e'.
Proof. unfold countModule, moduleIndexes. now intros ->. Qed.

Lemma completedAtOf_ext i e e' :
  completedModules e = completedModules e' ->
  completedAtOf i e = completedAtOf i e'.
Proof. unfold completedAtOf. now intros ->. Qed.

End ModuleFacts.

(** C4, as the claim states it for every enrollment, fails on an
    enrollment that holds the index twice already: two successive updates
    with that index are both answered 200 and find an entry, so neither
    adds nor removes one, and the index stays in the list twice. *)
Lemma resubmission_keeps_an_index_recorded_twice :
  let db := mkDb [sampleCourse] [twiceRecorded] [] in
  let r1 := handle (EnrollmentRoutes.updateProgress
                      200 7%nat 1%nat (Some 50) (Some 1)) db in
  let r2 := handle (EnrollmentRoutes.updateProgress
                      201 7%nat 1%nat (Some 60) (Some 1)) (snd r1) in
  fst r1 = EnrollmentRoutes.progress_updated
  /\ fst r2 = EnrollmentRoutes.progress_updated
  /\ exists e2 : Enrollment.t,
       Enrollment.findById 1%nat (enrollments (snd r2)) = Some e2
       /\ countModule 1 e2 = 2%nat
       /\ countModule 1 e2 <> 1%nat.
Proof.
  split; [reflexivity|]. split; [reflexivity|].
  eexists. split; [reflexivity|]. split; [reflexivity | discriminate].
Qed.

(** C4.  Two progress updates in a row that carry the same
    [completedModuleIndex] are both answered 200; the second one leaves
    [completedModules] exactly as the first one left it, so the date
    recorded first for the index stays.  After each of them the index is in
    the list as often as it was before, or once if it was not there: an
    enrollment that held it at most once holds it exactly once. *)
Theorem completedModule_resubmission_is_noop :
  forall (now1 now2 : Date) (user id : ObjectId) (p1 p2 i : Z)
         (db : Db) (e : Enrollment.t),
    Enrollment.findById id (enrollments db) = Some e ->
    Enrollment.student e = user ->
    0 <= p1 <= 100 -> 0 <= p2 <= 100 ->
    let r1 := handle (EnrollmentRoutes.updateProgress
                        now1 user id (Some p1) (Some i)) db in
    let r2 := handle (EnrollmentRoutes.updateProgress
                        now2 user id (Some p2) (Some i)) (snd r1) in
    exists e1 e2 : Enrollment.t,
      Enrollment.findById id (enrollments (snd r1)) = Some e1
      /\ Enrollment.findById id (enrollments (snd r2)) = Some e2
      /\ fst r1 = EnrollmentRoutes.progress_updated
      /\ fst r2 = EnrollmentRoutes.progress_updated
      /\ Enrollment.completedModules e2 = Enrollment.completedModules e1
      /\ countModule i e1 = Nat.max 1 (countModule i e)
      /\ countModule i e2 = countModule i e1
      /\ ((countModule i e <= 1)%nat -> countModule i e2 = 1%nat)
      /\ completedAtOf i e1
         = Some (match completedAtOf i e with Some d => d | None => now1 end)
      /\ completedAtOf i e2 = completedAtOf i e1.
Proof.
  intros now1 now2 user id p1 p2 i db e Hfind Hown Hp1 Hp2 r1 r2.
  set (e1 := progressWrite now1 p1 (Some i) e).
  set (e2 := progressWrite now2 p2 (Some i) e1).
  pose proof (EnrollmentFacts.findById_id _ _ _ Hfind) as Hid.
  assert (Hid1 : Enrollment._id e1 = id)
    by (unfold e1; now rewrite ProgressFacts.progressWrite_id).
  assert (Hr1 : r1 = (EnrollmentRoutes.progress_updated,
                      set_enrollments
                        (Enrollment.replace e1 (enrollments db)) db))
    by (apply ProgressFacts.handle_updateProgress; assumption).
  assert (Hfind1 : Enrollment.findById id (enrollments (snd r1)) = Some e1).
  { rewrite Hr1. simpl. rewrite <- Hid1.
    apply EnrollmentFacts.findById_replace with (e := e). now rewrite Hid1. }
  assert (Hown1 : Enrollment.student e1 = user).
  { unfold e1, progressWrite, Enrollment.preSave. simpl.
    destruct (find _ _); simpl;
      destruct (_ && _); simpl; try assumption;
      destruct (p1 <? 100); assumption. }
  assert (Hid2 : Enrollment._id e2 = id)
    by (unfold e2; now rewrite ProgressFacts.progressWrite_id).
  assert (Hr2 : r2 = (EnrollmentRoutes.progress_updated,
                      set_enrollments
                        (Enrollment.replace e2 (enrollments (snd r1)))
                        (snd r1)))
    by (apply ProgressFacts.handle_updateProgress; assumption).
  assert (Hfind2 : Enrollment.findById id (enrollments (snd r2)) = Some e2).
  { rewrite Hr2. simpl. rewrite <- Hid2.
    apply EnrollmentFacts.findById_replace with (e := e1). now rewrite Hid2. }
  assert (Hms1 : Enrollment.completedModules e1
                 = Enrollment.completedModules
                     (EnrollmentRoutes.addCompletedModule now1 (Some i) e))
    by apply ModuleFacts.progressWrite_completedModules.
  assert (Hat1 : completedAtOf i e1
                 = Some (match completedAtOf i e with
                         | Some d => d | None => now1 end)).
  { rewrite (ModuleFacts.completedAtOf_ext i _ _ Hms1).
    apply ModuleFacts.completedAtOf_add. }
  assert (Hms2 : Enrollment.completedModules e2
                 = Enrollment.completedModules e1).
  { unfold e2. rewrite ModuleFacts.progressWrite_completedModules.
    eapply ModuleFacts.addCompletedModule_present. exact Hat1. }
  assert (Hc1 : countModule i e1 = Nat.max 1 (countModule i e)).
  { rewrite (ModuleFacts.countModule_ext i _ _ Hms1).
    apply ModuleFacts.countModule_add. }
  exists e1, e2.
  split; [exact Hfind1|]. split; [exact Hfind2|].
  split; [now rewrite Hr1|]. split; [now rewrite Hr2|].
  split; [exact Hms2|]. split; [exact Hc1|].
  split; [now apply ModuleFacts.countModule_ext|].
  split.
  { intros Hle. rewrite (ModuleFacts.countModule_ext i _ _ Hms2), Hc1. lia. }
  split; [exact Hat1|].
  now apply ModuleFacts.completedAtOf_ext.
Qed.

Lemma completedModule_resubmission_is_noop_witness :
  exists e1 e2 : Enrollment.t,
    Enrollment.findById 1%nat
      (enrollments
         (snd (handle (EnrollmentRoutes.updateProgress
                         200 7%nat 1%nat (Some 60) (Some 1)) sampleDb)))
    = Some e1
    /\ Enrollment.findById 1%nat
         (enrollments
            (snd (handle (EnrollmentRoutes.updateProgress
                            300 7%nat 1%nat (Some 70) (Some 1))
                    (snd (handle (EnrollmentRoutes.updateProgress
                                    200 7%nat 1%nat (Some 60) (Some 1))
                                 sampleDb)))))
       = Some e2
    /\ countModule 1 e2 = 1%nat
    /\ completedAtOf 1 e2 = Some 200.
Proof.
  destruct (completedModule_resubmission_is_noop
              200 300 7%nat 1%nat 60 70 1 sampleDb sampleEnrollment
              eq_refl eq_refl)
    as (e1 & e2 & H1 & H2 & _ & _ & _ & _ & _ & Hc & Ha1 & Ha2);
    [lia | lia |].
  exists e1, e2. split; [exact H1|]. split; [exact H2|].
  split.
  - apply Hc. apply Nat.le_0_l.
  - rewrite Ha2. exact Ha1.
Defined.

(* ================================================================= *)
(** ** Enrolling *)

Module EnrollFacts.

Import Enrollment EnrollmentRoutes.

Lemma replace_length e' docs :
  List.length (replace e' docs) = List.length docs.
Proof.
  induction docs as [|d docs IH]; simpl; [reflexivity|].
  destruct (Nat.eqb (_id d) (_id e')); simpl; congruence.
Qed.

(** With identifiers that are unique, a document is what its own
    identifier finds. *)
Lemma findById_unique docs e :
  NoDup (map _id docs) -> In e docs -> findById (_id e) docs = Some e.
Proof.
  unfold findById.
  induction docs as [|d docs IH]; simpl; [contradiction|].
  intros Hnd Hin. inversion Hnd as [|x l Hnotin Hnd']; subst.
  destruct Hin as [->|Hin].
  - now rewrite Nat.eqb_refl.
  - destruct (Nat.eqb (_id d) (_id e)) eqn:E.
    + apply Nat.eqb_eq in E. exfalso. apply Hnotin. rewrite E.
      now apply in_map.
    + now apply IH.
Qed.

Lemma findOne_none_pair s c docs :
  findOne s c docs = None -> ~ In (s, c) (map pairOf docs).
Proof.
  intros Hnone Hin. apply in_map_iff in Hin as (d & Hpair & Hd).
  pose proof (find_none _ _ Hnone d Hd) as Hf. simpl in Hf.
  unfold pairOf in Hpair. injection Hpair as Hs Hc.
  rewrite Hs, Hc, !Nat.eqb_refl in Hf. discriminate.
Qed.

Lemma findOne_none_unique s c docs :
  findOne s c docs = None -> violatesUnique s c docs = false.
Proof. intros H. now apply find_none_existsb. Qed.

Lemma pairs_unique_app s c docs e' :
  student e' = s -> course e' = c ->
  findOne s c docs = None ->
  pairs_unique docs -> pairs_unique (docs ++ [e']).
Proof.
  intros Hs Hc Hnone Hnd. unfold pairs_unique in *.
  rewrite map_app. apply NoDup_app; [exact Hnd | | ].
  - simpl. constructor; [intros [] | constructor].
  - intros a Ha [<-|[]]. apply (findOne_none_pair s c docs Hnone).
    unfold pairOf in Ha. now rewrite Hs, Hc in Ha.
Qed.

Lemma pairs_unique_replace docs e e' :
  NoDup (map _id docs) -> In e docs ->
  _id e' = _id e -> pairOf e' = pairOf e ->
  pairs_unique docs -> pairs_unique (replace e' docs).
Proof.
  intros Hids Hin Hid Hpair Hnd.
  pose proof (findById_unique docs e Hids Hin) as Hfind.
  rewrite <- Hid in Hfind.
  destruct (EnrollmentFacts.replace_split e' docs e Hfind)
    as (l1 & l2 & Hdocs & Hrep).
  unfold pairs_unique in *. rewrite Hrep. rewrite Hdocs in Hnd.
  rewrite map_app in *. simpl in *. now rewrite Hpair.
Qed.

Lemma handle_enroll_active now oid user cid db c e :
  Course.findById cid (courses db) = Some c -> Course.isActive c = true ->
  findOne user cid (enrollments db) = Some e -> isActive e = true ->
  handle (enroll now oid user (Some cid)) db = (already_enrolled, db).
Proof.
  intros Hc Hact Hfind He. unfold handle, enroll. simpl.
  rewrite Hc, Hact. simpl. rewrite Hfind. simpl. now rewrite He.
Qed.

Lemma handle_enroll_inactive now oid user cid db c e :
  Course.findById cid (courses db) = Some c -> Course.isActive c = true ->
  findOne user cid (enrollments db) = Some e -> isActive e = false ->
  0 <= progress e <= 100 ->
  handle (enroll now oid user (Some cid)) db
  = (re_enrolled,
     set_enrollments (replace (reactivated now e) (enrollments db)) db).
Proof.
  intros Hc Hact Hfind He Hp. unfold handle, enroll. simpl.
  rewrite Hc, Hact. simpl. rewrite Hfind. simpl. rewrite He. simpl.
  now rewrite EnrollmentFacts.save_doc_valid by (simpl; exact Hp).
Qed.

Lemma handle_enroll_new now oid user cid db c :
  Course.findById cid (courses db) = Some c -> Course.isActive c = true ->
  findOne user cid (enrollments db) = None ->
  handle (enroll now oid user (Some cid)) db
  = (enrolled,
     set_enrollments (enrollments db ++ [defaults now oid user cid]) db).
Proof.
  intros Hc Hact Hfind. unfold handle, enroll. simpl.
  rewrite Hc, Hact. simpl. rewrite Hfind. simpl.
  now rewrite (findOne_none_unique _ _ _ Hfind).
Qed.

End EnrollFacts.

(** C2.  For a course that exists and is active, and a store whose
    enrollments pass the schema validators, enrolling splits on the
    enrollment found for the (student, course) pair: an active one is
    answered 400 "Already enrolled in this course" and nothing changes;
    an inactive one is overwritten in place (same [_id], student and
    course, [isActive] true, [startDate] now, progress and completed
    modules kept, no document added, and with unique identifiers the
    rest of the collection untouched) and answered 200 "Re-enrolled in
    course successfully"; none, and a document with progress 0 and
    [isActive] true is appended and answered 201 "Enrolled in course
    successfully".  With unique identifiers, a store with at most one
    enrollment per pair stays so. *)
Theorem enroll_three_way_split :
  forall (now : Date) (oid user cid : ObjectId) (db : Db) (c : Course.t),
    Course.findById cid (courses db) = Some c ->
    Course.isActive c = true ->
    schema_valid (enrollments db) ->
    let res := handle (EnrollmentRoutes.enroll now oid user (Some cid)) db in
    match Enrollment.findOne user cid (enrollments db) with
    | Some e =>
        if Enrollment.isActive e
        then res = (EnrollmentRoutes.already_enrolled, db)
        else
          exists e' : Enrollment.t,
            res = (EnrollmentRoutes.re_enrolled,
                   set_enrollments
                     (Enrollment.replace e' (enrollments db)) db)
            /\ Enrollment._id e' = Enrollment._id e
            /\ Enrollment.student e' = Enrollment.student e
            /\ Enrollment.course e' = Enrollment.course e
            /\ Enrollment.isActive e' = true
            /\ Enrollment.startDate e' = now
            /\ Enrollment.progress e' = Enrollment.progress e
            /\ Enrollment.completedModules e'
               = Enrollment.completedModules e
            /\ List.length (enrollments (snd res))
               = List.length (enrollments db)
            /\ (ids_unique (enrollments db) ->
                exists l1 l2 : list Enrollment.t,
                  enrollments db = l1 ++ e :: l2
                  /\ enrollments (snd res) = l1 ++ e' :: l2)
    | None =>
        exists e' : Enrollment.t,
          res = (EnrollmentRoutes.enrolled,
                 set_enrollments (enrollments db ++ [e']) db)
          /\ Enrollment._id e' = oid
          /\ Enrollment.student e' = user
          /\ Enrollment.course e' = cid
          /\ Enrollment.progress e' = 0
          /\ Enrollment.isActive e' = true
    end
    /\ EnrollmentRoutes.re_enrolled <> EnrollmentRoutes.enrolled
    /\ (ids_unique (enrollments db) ->
        pairs_unique (enrollments db) ->
        pairs_unique (enrollments (snd res))).
Proof.
  intros now oid user cid db c Hc Hact Hvalid res.
  destruct (Enrollment.findOne user cid (enrollments db)) as [e|] eqn:Hfind.
  - pose proof (find_some _ _ Hfind) as [Hin Hmatch].
    assert (Hp : 0 <= Enrollment.progress e <= 100).
    { unfold schema_valid in Hvalid. rewrite Forall_forall in Hvalid.
      now apply Hvalid. }
    destruct (Enrollment.isActive e) eqn:He.
    + assert (Hres : res = (EnrollmentRoutes.already_enrolled, db))
        by (eapply EnrollFacts.handle_enroll_active; eassumption).
      split; [exact Hres|]. split; [discriminate|].
      intros _ Hnd. now rewrite Hres.
    + assert (Hres : res = (EnrollmentRoutes.re_enrolled,
                            set_enrollments
                              (Enrollment.replace (reactivated now e)
                                 (enrollments db)) db))
        by (eapply EnrollFacts.handle_enroll_inactive; eassumption).
      assert (Hfields :
                Enrollment._id (reactivated now e) = Enrollment._id e
                /\ Enrollment.student (reactivated now e)
                   = Enrollment.student e
                /\ Enrollment.course (reactivated now e)
                   = Enrollment.course e
                /\ Enrollment.isActive (reactivated now e) = true
                /\ Enrollment.startDate (reactivated now e) = now
                /\ Enrollment.progress (reactivated now e)
                   = Enrollment.progress e
                /\ Enrollment.completedModules (reactivated now e)
                   = Enrollment.completedModules e).
      { unfold reactivated, Enrollment.preSave. simpl.
        destruct (Enrollment.progress e =? 100);
          destruct (Enrollment.completionDate e);
          destruct (Enrollment.progress e <? 100); simpl; repeat split. }
      destruct Hfields as (Hid & Hs & Hco & Hia & Hsd & Hpr & Hms).
      split.
      { exists (reactivated now e). rewrite Hres. simpl.
        rewrite EnrollFacts.replace_length.
        repeat (split; [assumption || reflexivity|]).
        intros Hids.
        pose proof (EnrollFacts.findById_unique _ e Hids Hin) as Hbyid.
        rewrite <- Hid in Hbyid.
        destruct (EnrollmentFacts.replace_split _ _ _ Hbyid)
          as (l1 & l2 & Hdocs & Hrep).
        exists l1, l2. now split. }
      split; [discriminate|].
      intros Hids Hnd. rewrite Hres. simpl.
      apply EnrollFacts.pairs_unique_replace with (e := e); auto.
      unfold pairOf. now rewrite Hs, Hco.
  - assert (Hres : res = (EnrollmentRoutes.enrolled,
                          set_enrollments
                            (enrollments db
                               ++ [Enrollment.defaults now oid user cid]) db))
      by (eapply EnrollFacts.handle_enroll_new; eassumption).
    split.
    { exists (Enrollment.defaults now oid user cid). rewrite Hres.
      repeat split; reflexivity. }
    split; [discriminate|].
    intros _ Hnd. rewrite Hres. simpl.
    now apply EnrollFacts.pairs_unique_app with (s := user) (c := cid).
Qed.

Lemma enroll_three_way_split_witness :
  Course.findById 10%nat (courses sampleDb) = Some sampleCourse
  /\ schema_valid (enrollments sampleDb)
  /\ pairs_unique
       (enrollments
          (snd (handle (EnrollmentRoutes.enroll 200 9%nat 7%nat (Some 10%nat))
                       sampleDb))).
Proof.
  assert (Hvalid : schema_valid (enrollments sampleDb)).
  { constructor; [simpl; lia | constructor]. }
  split; [reflexivity|]. split; [exact Hvalid|].
  destruct (enroll_three_way_split 200 9%nat 7%nat 10%nat sampleDb
              sampleCourse eq_refl eq_refl Hvalid) as (_ & _ & Hkeep).
  apply Hkeep.
  - constructor; [intros [] | constructor].
  - constructor; [intros [] | constructor].
Defined.

(* ================================================================= *)
(** ** Creating a review *)

(** C5.  The handler of [POST /api/reviews] answers 201 exactly when the
    course exists and is active, the student has an active enrollment in
    it and has not reviewed it yet.  A missing or inactive course is
    answered 404, no active enrollment 400 "You must be enrolled ...", an
    earlier review 400 "You have already reviewed this course", each with
    the store untouched.  On success one review is appended, with
    [isApproved] true, no helpful vote and no report. *)
Theorem createReview_outcomes :
  forall (oid user cid : ObjectId) (rating : Z) (comment : string) (db : Db),
    let res := handle (ReviewRoutes.createReview oid user cid rating comment)
                      db in
    (status (fst res) = 201%nat <->
       courseUsable cid db = true
       /\ hasActiveEnrollment user cid db = true
       /\ hasReviewed user cid db = false)
    /\ (courseUsable cid db = false ->
        res = (ReviewRoutes.course_not_found, db))
    /\ (courseUsable cid db = true ->
        hasActiveEnrollment user cid db = false ->
        res = (ReviewRoutes.not_enrolled, db))
    /\ (courseUsable cid db = true ->
        hasActiveEnrollment user cid db = true ->
        hasReviewed user cid db = true ->
        res = (ReviewRoutes.already_reviewed, db))
    /\ (courseUsable cid db = true ->
        hasActiveEnrollment user cid db = true ->
        hasReviewed user cid db = false ->
        exists r : Review.t,
          res = (ReviewRoutes.review_created,
                 set_reviews (reviews db ++ [r]) db)
          /\ Review._id r = oid
          /\ Review.student r = user
          /\ Review.course r = cid
          /\ Review.rating r = rating
          /\ Review.comment r = comment
          /\ Review.isApproved r = true
          /\ Review.helpfulVotes r = 0
          /\ Review.reportedBy r = [])
    /\ status ReviewRoutes.course_not_found = 404%nat
    /\ status ReviewRoutes.not_enrolled = 400%nat
    /\ status ReviewRoutes.already_reviewed = 400%nat.
Proof.
  intros oid user cid rating comment db res.
  unfold res, handle, ReviewRoutes.createReview,
         courseUsable, hasActiveEnrollment, hasReviewed.
  rewrite !existsb_find. simpl.
  fold (Enrollment.findOneActive user cid (enrollments db)).
  fold (Review.findOne user cid (reviews db)).
  destruct (Course.findById cid (courses db)) as [c|]; simpl.
  2: { repeat split; try reflexivity; try discriminate; intros; try easy. }
  destruct (Course.isActive c); simpl.
  2: { repeat split; try reflexivity; try discriminate; intros; try easy. }
  destruct (Enrollment.findOneActive user cid (enrollments db)); simpl.
  2: { repeat split; try reflexivity; try discriminate; intros; try easy. }
  destruct (Review.findOne user cid (reviews db)); simpl.
  { repeat split; try reflexivity; try discriminate; intros; try easy. }
  repeat split; try reflexivity; try discriminate.
  intros _ _ _. exists (Review.defaults oid user cid rating comment).
  repeat split; reflexivity.
Qed.

Lemma createReview_outcomes_witness :
  handle (ReviewRoutes.createReview 4%nat 7%nat 10%nat 5 "Too short")
         sampleDb
  = (ReviewRoutes.not_enrolled, sampleDb).
Proof.
  apply (createReview_outcomes 4%nat 7%nat 10%nat 5 "Too short" sampleDb);
    reflexivity.
Defined.

(* ================================================================= *)
(** ** Moderating and reporting reviews *)

Module ReviewFacts.

Import Review.

Lemma review_findById_id id docs r : findById id docs = Some r -> _id r = id.
Proof.
  intros H. apply find_some in H. now apply Nat.eqb_eq.
Qed.

Lemma review_findById_replace r' docs r :
  findById (_id r') docs = Some r ->
  findById (_id r') (replace r' docs) = Some r'.
Proof.
  unfold findById.
  induction docs as [|d docs IH]; simpl; [discriminate|].
  destruct (Nat.eqb (_id d) (_id r')) eqn:E; simpl.
  - now rewrite Nat.eqb_refl.
  - rewrite E. exact IH.
Qed.

(** Writing back a document found by [id] and looking it up again. *)
Lemma review_findById_saved id docs r r' :
  findById id docs = Some r -> _id r' = _id r ->
  findById id (replace r' docs) = Some r'.
Proof.
  intros Hfind Hid. pose proof (review_findById_id _ _ _ Hfind) as Hr.
  rewrite <- Hr, <- Hid. apply review_findById_replace with (r := r).
  now rewrite Hid, Hr.
Qed.

Lemma find_reporter_none u l :
  find (fun report => Nat.eqb (user report) u) l = None <->
  ~ In u (map user l).
Proof.
  induction l as [|x l IH]; simpl; [tauto|].
  destruct (Nat.eqb (user x) u) eqn:E.
  - apply Nat.eqb_eq in E. split; [discriminate | tauto].
  - apply Nat.eqb_neq in E. rewrite IH. tauto.
Qed.

Lemma find_reporter_some u l :
  In u (map user l) ->
  exists x, find (fun report => Nat.eqb (user report) u) l = Some x.
Proof.
  intros Hin.
  destruct (find (fun report => Nat.eqb (user report) u) l) eqn:F;
    [eauto|].
  now apply find_reporter_none in F.
Qed.

Lemma length_zero_eqb s : Nat.eqb (String.length s) 0 = String.eqb s "".
Proof. destruct s; reflexivity. Qed.

(** The test [!reason || reason.trim().length === 0] on a string. *)
Lemma blank_check s :
  Nat.eqb (String.length s) 0 || Nat.eqb (String.length (trim s)) 0
  = String.eqb (trim s) "".
Proof.
  destruct s as [|a s]; [reflexivity|].
  simpl String.length at 1. simpl Nat.eqb at 1. simpl orb.
  apply length_zero_eqb.
Qed.


Lemma reporters_NoDup_new u l x :
  ~ In u (map user l) -> user x = u ->
  NoDup (map user l) -> NoDup (map user (l ++ [x])).
Proof.
  intros Hnot Hx Hnd. rewrite map_app. apply NoDup_app; [exact Hnd| |].
  - simpl. constructor; [intros [] | constructor].
  - intros a Ha [<-|[]]. rewrite Hx in Ha. contradiction.
Qed.

End ReviewFacts.

(** C7.  On a review that exists, moderating with ["approve"] writes it
    back approved and with no report, moderating with ["reject"] writes it
    back unapproved with the reports it had, and any other action is
    answered 400 "Action must be either approve or reject" with the store
    as it was. *)
Theorem moderateReview_effects :
  forall (id : ObjectId) (action : string) (db : Db) (r : Review.t),
    Review.findById id (reviews db) = Some r ->
    let res := handle (AdminRoutes.moderateReview id action) db in
    (action = "approve" ->
     let r' := Review.set_reportedBy [] (Review.set_isApproved true r) in
     res = (AdminRoutes.moderated "approve",
            set_reviews (Review.replace r' (reviews db)) db)
     /\ Review.findById id (reviews (snd res)) = Some r'
     /\ Review.isApproved r' = true
     /\ Review.reportedBy r' = [])
    /\ (action = "reject" ->
        let r' := Review.set_isApproved false r in
        res = (AdminRoutes.moderated "reject",
               set_reviews (Review.replace r' (reviews db)) db)
        /\ Review.findById id (reviews (snd res)) = Some r'
        /\ Review.isApproved r' = false
        /\ Review.reportedBy r' = Review.reportedBy r)
    /\ (action <> "approve" -> action <> "reject" ->
        res = (AdminRoutes.bad_action, db)
        /\ status AdminRoutes.bad_action = 400%nat).
Proof.
  intros id action db r Hfind res.
  split; [|split].
  - intros -> r'.
    assert (Hres : res = (AdminRoutes.moderated "approve",
                          set_reviews (Review.replace r' (reviews db)) db)).
    { unfold res, handle, AdminRoutes.moderateReview. simpl.
      now rewrite Hfind. }
    split; [exact Hres|]. split; [|split; reflexivity].
    rewrite Hres. simpl.
    now apply ReviewFacts.review_findById_saved with (r := r).
  - intros -> r'.
    assert (Hres : res = (AdminRoutes.moderated "reject",
                          set_reviews (Review.replace r' (reviews db)) db)).
    { unfold res, handle, AdminRoutes.moderateReview. simpl.
      now rewrite Hfind. }
    split; [exact Hres|]. split; [|split; reflexivity].
    rewrite Hres. simpl.
    now apply ReviewFacts.review_findById_saved with (r := r).
  - intros Ha Hr. split; [|reflexivity].
    unfold res, handle, AdminRoutes.moderateReview. simpl.
    apply String.eqb_neq in Ha. apply String.eqb_neq in Hr.
    now rewrite Ha, Hr.
Qed.

Lemma moderateReview_effects_witness :
  Review.findById 3%nat (reviews sampleDb) = Some sampleReview
  /\ Review.findById 3%nat
       (reviews (snd (handle (AdminRoutes.moderateReview 3%nat "approve")
                             sampleDb)))
     = Some (Review.set_reportedBy [] (Review.set_isApproved true sampleReview)).
Proof.
  split; [reflexivity|].
  destruct (moderateReview_effects 3%nat "approve" sampleDb sampleReview
              eq_refl) as (Happrove & _ & _).
  apply (Happrove eq_refl).
Defined.




(* ================================================================= *)
(** ** Rating statistics *)

Module RatingFacts.

(** [Math.round(x * 10) / 10] is [x] rounded to one decimal place. *)
Lemma round_tenths (x : Q) :
  rounded_to_one_decimal x (inject_Z (Math_round (x * 10)) / 10)%Q.
Proof.
  unfold rounded_to_one_decimal, Math_round. split.
  - exists (Qfloor (x * 10 + (1 # 2))). reflexivity.
  - pose proof (Qfloor_le (x * 10 + (1 # 2))) as Hle.
    pose proof (Qlt_floor (x * 10 + (1 # 2))) as Hlt.
    rewrite inject_Z_plus in Hlt.
    change (inject_Z 1) with 1%Q in Hlt.
    set (t := inject_Z (Qfloor (x * 10 + (1 # 2)))) in *.
    apply Qabs_diff_Qle_condition. unfold Qdiv.
    setoid_replace (/ 10)%Q with (1 # 10)%Q by reflexivity.
    split; lra.
Qed.

Lemma matchApproved_In c docs r :
  In r (matchApproved c docs) <->
  In r docs /\ Review.course r = c /\ Review.isApproved r = true.
Proof.
  unfold matchApproved. rewrite filter_In.
  rewrite andb_true_iff, Nat.eqb_eq. tauto.
Qed.

Lemma groupByCourse_mean matched :
  matched <> [] ->
  groupByCourse matched
  = [ {| averageRating := mean (map Review.rating matched);
         totalReviews := List.length matched |} ].
Proof.
  destruct matched as [|r l]; [contradiction|]. intros _.
  unfold groupByCourse, mean. now rewrite length_map.
Qed.

End RatingFacts.

(** C6.  [calculateAverageRating] counts the reviews of the course that
    are approved and no others.  With none it returns rating 0 and count
    0.  Otherwise the count is their number and the rating is their mean
    rounded to one decimal place, a tie going up: a whole number of
    tenths, at most 0.05 away from the mean.  Ratings 5, 3 and 4 give 4.0
    and 3. *)
Theorem calculateAverageRating_rounded_mean :
  forall (this : Course.t) (db : Db),
    let l := approvedRatings (Course._id this) db in
    exists st : RatingStats,
      run (calculateAverageRating this) db = (inr st, db)
      /\ reviewCount st = List.length l
      /\ (l = [] -> rating st = 0%Q)
      /\ (l <> [] ->
          rating st = (inject_Z (Qfloor (mean l * 10 + (1 # 2))) / 10)%Q
          /\ rounded_to_one_decimal (mean l) (rating st))
      /\ (l = [5; 3; 4] -> (rating st == 4)%Q /\ reviewCount st = 3%nat).
Proof.
  intros this db l.
  assert (Hl : l = map Review.rating
                       (matchApproved (Course._id this) (reviews db)))
    by reflexivity.
  destruct (matchApproved (Course._id this) (reviews db))
    as [|r0 rest] eqn:Hm.
  - exists {| rating := 0%Q; reviewCount := 0%nat |}.
    simpl in Hl.
    split.
    { unfold calculateAverageRating. simpl. now rewrite Hm. }
    rewrite Hl. repeat split; try reflexivity; try congruence; discriminate.
  - set (matched := r0 :: rest) in *.
    assert (Hne : matched <> []) by discriminate.
    exists {| rating := (inject_Z (Math_round (mean l * 10)) / 10)%Q;
              reviewCount := List.length l |}.
    split.
    { unfold calculateAverageRating. simpl. rewrite Hm.
      fold matched. rewrite (RatingFacts.groupByCourse_mean _ Hne).
      rewrite Hl, length_map. reflexivity. }
    split; [reflexivity|].
    split; [intros E; rewrite Hl in E; discriminate|].
    split.
    { intros _. split; [reflexivity|]. apply RatingFacts.round_tenths. }
    intros E. simpl. rewrite E. split; reflexivity.
Qed.

Lemma calculateAverageRating_rounded_mean_witness :
  approvedRatings 10%nat ratedDb = [5; 3; 4]
  /\ exists st : RatingStats,
       run (calculateAverageRating sampleCourse) ratedDb = (inr st, ratedDb)
       /\ (rating st == 4)%Q
       /\ reviewCount st = 3%nat.
Proof.
  split; [reflexivity|].
  destruct (calculateAverageRating_rounded_mean sampleCourse ratedDb)
    as (st & Hrun & _ & _ & _ & Hex).
  exists st. split; [exact Hrun|]. apply Hex. reflexivity.
Defined.

(* ================================================================= *)
(** ** Concurrent enrollments *)

(** C9, as the specification states it, fails: of two concurrent enroll
    requests for one pair, the one whose [Enrollment.create] the unique
    index rejects is answered 500 "Server error", not with the conflict
    answer 400 "Already enrolled in this course". *)
Lemma enroll_race_loser_gets_500 :
  interleave raceSchedule raceFirst raceSecond raceDb
    = (Finished EnrollmentRoutes.enrolled,
       Finished server_error,
       set_enrollments [Enrollment.defaults 1000 1%nat 7%nat 10%nat] raceDb)
  /\ exec (EnrollmentCreate 1001 2%nat 7%nat 10%nat)
          (set_enrollments
             [Enrollment.defaults 1000 1%nat 7%nat 10%nat] raceDb)
     = inl DuplicateKey
  /\ status server_error = 500%nat
  /\ server_error <> EnrollmentRoutes.already_enrolled.
Proof.
  split; [reflexivity|]. split; [reflexivity|].
  split; [reflexivity|]. discriminate.
Qed.

(** C9, amended.  A request that found the course active and no enrollment
    for its pair has, after these two lookups, only its creation left.  If
    by then the pair is taken, the store rejects the creation for the
    unique index, and the request is answered with the generic 500 "Server
    error" of the [catch] block, which is not the conflict answer; the
    store stays as the winner left it. *)
Theorem enroll_lost_race_answers_server_error :
  forall (now : Date) (oid user cid : ObjectId) (db db' : Db) (c : Course.t),
    Course.findById cid (courses db) = Some c ->
    Course.isActive c = true ->
    Enrollment.findOne user cid (enrollments db) = None ->
    Enrollment.violatesUnique user cid (enrollments db') = true ->
    steps 2 (Pending (EnrollmentRoutes.enroll now oid user (Some cid))) db
      = (Pending (EnrollmentRoutes.enroll_existing now oid user cid None), db)
    /\ exec (EnrollmentCreate now oid user cid) db' = inl DuplicateKey
    /\ step (Pending (EnrollmentRoutes.enroll_existing now oid user cid None))
            db'
       = (Finished server_error, db')
    /\ status server_error = 500%nat
    /\ server_error <> EnrollmentRoutes.already_enrolled.
Proof.
  intros now oid user cid db db' c Hc Hact Hnone Htaken.
  split.
  { unfold EnrollmentRoutes.enroll. simpl. rewrite Hc, Hact. simpl.
    now rewrite Hnone. }
  assert (Hexec : exec (EnrollmentCreate now oid user cid) db'
                  = inl DuplicateKey).
  { simpl. now rewrite Htaken. }
  split; [exact Hexec|]. split.
  { unfold EnrollmentRoutes.enroll_existing, step. now rewrite Hexec. }
  split; [reflexivity | discriminate].
Qed.

Lemma enroll_lost_race_answers_server_error_witness :
  Enrollment.violatesUnique 7%nat 10%nat
    [Enrollment.defaults 1000 1%nat 7%nat 10%nat] = true
  /\ step (Pending
             (EnrollmentRoutes.enroll_existing 1001 2%nat 7%nat 10%nat None))
          (set_enrollments
             [Enrollment.defaults 1000 1%nat 7%nat 10%nat] raceDb)
     = (Finished server_error,
        set_enrollments
          [Enrollment.defaults 1000 1%nat 7%nat 10%nat] raceDb).
Proof.
  split; [reflexivity|].
  apply (enroll_lost_race_answers_server_error
           1001 2%nat 7%nat 10%nat raceDb
           (set_enrollments
              [Enrollment.defaults 1000 1%nat 7%nat 10%nat] raceDb)
           sampleCourse); reflexivity.
Defined.

(* ================================================================= *)
(** ** What holds of every store the API can reach *)

Module ReachFacts.

Import Enrollment EnrollmentRoutes.

Lemma preSave_pairOf now e : pairOf (preSave now e) = pairOf e.
Proof.
  unfold pairOf, preSave.
  destruct (_ && _); [reflexivity|].
  destruct (progress e <? 100); reflexivity.
Qed.


Lemma addCompletedModule_pairOf now cmi e :
  pairOf (addCompletedModule now cmi e) = pairOf e.
Proof.
  destruct cmi as [i|]; simpl; [|reflexivity].
  destruct (find _ _); reflexivity.
Qed.





End ReachFacts.

Section ReachableEnrollments.







End ReachableEnrollments.

Module ReviewReachFacts.

Import Review ReviewRoutes.

Lemma review_replace_In r' docs d :
  In d (replace r' docs) -> In d docs \/ d = r'.
Proof.
  induction docs as [|x docs IH]; simpl; [tauto|].
  destruct (Nat.eqb (_id x) (_id r')); simpl; intuition.
Qed.

Lemma review_remove_In id docs d : In d (remove id docs) -> In d docs.
Proof.
  induction docs as [|x docs IH]; simpl; [tauto|].
  destruct (Nat.eqb (_id x) id); simpl; intuition.
Qed.

Lemma review_findById_In id docs r : findById id docs = Some r -> In r docs.
Proof. intros H. now apply find_some in H. Qed.

(** Serving a request keeps the reporters of every review distinct. *)
Lemma serve_reporters_unique (q : Request) (db : Db) :
  Forall reporters_unique (reviews db) ->
  Forall reporters_unique (reviews (snd (serve q db))).
Proof.
  intros Hall.
  assert (Hget : forall id r, findById id (reviews db) = Some r ->
                              reporters_unique r).
  { intros id r Hf. rewrite Forall_forall in Hall.
    apply Hall. now apply review_findById_In in Hf. }
  assert (Hput : forall r', reporters_unique r' ->
                            Forall reporters_unique
                                   (replace r' (reviews db))).
  { intros r' Hr'. apply Forall_forall. intros d Hd.
    apply review_replace_In in Hd as [Hd | ->]; [|exact Hr'].
    rewrite Forall_forall in Hall. now apply Hall. }
  destruct q as [now oid user courseId | now user id prog cmi | now user id
                | oid user courseId stars text | user id stars text
                | user role id | id | now reporter id reason | id action];
    unfold serve, handle; simpl.
  - (* Enroll *)
    destruct courseId as [cid|]; simpl; [|exact Hall].
    destruct (Course.findById cid (courses db)) as [c|]; simpl;
      [|exact Hall].
    destruct (Course.isActive c); simpl; [|exact Hall].
    destruct (Enrollment.findOne user cid (enrollments db)) as [e|]; simpl.
    + destruct (Enrollment.isActive e); simpl; [exact Hall|].
      destruct (Enrollment.save_doc now _); exact Hall.
    + destruct (Enrollment.violatesUnique user cid (enrollments db));
        exact Hall.
  - (* UpdateProgress *)
    destruct prog as [p|]; simpl; [|exact Hall].
    destruct ((p <? 0) || (p >? 100)); simpl; [exact Hall|].
    destruct (Enrollment.findById id (enrollments db)) as [e|]; simpl;
      [|exact Hall].
    destruct (Nat.eqb (Enrollment.student e) user); simpl; [|exact Hall].
    destruct (Enrollment.save_doc now _); exact Hall.
  - (* Unenroll *)
    destruct (Enrollment.findById id (enrollments db)) as [e|]; simpl;
      [|exact Hall].
    destruct (Nat.eqb (Enrollment.student e) user); simpl; [|exact Hall].
    destruct (Enrollment.save_doc now _); exact Hall.
  - (* CreateReview *)
    unfold createReviewRoute.
    destruct (validateReviewCreation stars text); [|exact Hall]. simpl.
    destruct (Course.findById courseId (courses db)) as [c|]; simpl;
      [|exact Hall].
    destruct (Course.isActive c); simpl; [|exact Hall].
    destruct (Enrollment.findOneActive user courseId (enrollments db));
      simpl; [|exact Hall].
    destruct (findOne user courseId (reviews db)); simpl; [exact Hall|].
    apply Forall_app. split; [exact Hall|].
    constructor; [constructor | constructor].
  - (* UpdateReview *)
    destruct (validateReviewCreation stars text); [|exact Hall]. simpl.
    destruct (findById id (reviews db)) as [r|] eqn:Hf; simpl; [|exact Hall].
    destruct (Nat.eqb (student r) user); simpl; [|exact Hall].
    apply Hput. exact (Hget id r Hf).
  - (* DeleteReview *)
    destruct (findById id (reviews db)) as [r|] eqn:Hf; simpl; [|exact Hall].
    destruct (negb (Nat.eqb (student r) user)
              && negb (String.eqb role "admin")); simpl; [exact Hall|].
    apply Forall_forall. intros d Hd. apply review_remove_In in Hd.
    rewrite Forall_forall in Hall. now apply Hall.
  - (* MarkHelpful *)
    destruct (findById id (reviews db)) as [r|] eqn:Hf; simpl; [|exact Hall].
    apply Hput. exact (Hget id r Hf).
  - (* ReportReview *)
    destruct reason as [s|]; simpl; [|exact Hall].
    destruct (Nat.eqb (String.length s) 0
              || Nat.eqb (String.length (trim s)) 0); simpl; [exact Hall|].
    destruct (findById id (reviews db)) as [r|] eqn:Hf; simpl; [|exact Hall].
    destruct (find _ (reportedBy r)) eqn:Hrep; simpl; [exact Hall|].
    apply Hput. unfold reporters_unique, reporters. simpl.
    apply ReviewFacts.reporters_NoDup_new with (u := reporter).
    + now apply ReviewFacts.find_reporter_none.
    + reflexivity.
    + exact (Hget id r Hf).
  - (* ModerateReview *)
    unfold AdminRoutes.moderateReview.
    destruct (negb _); simpl; [exact Hall|].
    destruct (findById id (reviews db)) as [r|] eqn:Hf; simpl; [|exact Hall].
    apply Hput. destruct (String.eqb action "approve").
    + constructor.
    + exact (Hget id r Hf).
Qed.

(** X26.  From a catalogue alone, with the requests served one after the
    other, none resumed while another is in flight, no stored review has
    been reported twice by one user. *)
Lemma reachable_reporters_unique (cs : list Course.t) (qs : list Request) :
  Forall reporters_unique (reviews (serveAll qs (freshDb cs))).
Proof.
  assert (H : forall db, Forall reporters_unique (reviews db) ->
                         Forall reporters_unique (reviews (serveAll qs db))).
  { induction qs as [|q qs IH]; intros db Hall; simpl; [exact Hall|].
    apply IH. now apply serve_reporters_unique. }
  apply H. constructor.
Qed.

End ReviewReachFacts.

(* ================================================================= *)
(** ** Worked requests *)

Example trim_strips_both_ends : trim "  spam again
 " = "spam again".
Proof. reflexivity. Qed.

Example trim_of_blanks_is_empty : trim "   " = "".
Proof. reflexivity. Qed.

(** A no-break space in front and a line separator behind are stripped
    like any other white space. *)
Example trim_strips_unicode_space :
  trim (bytes [194; 160; 104; 105; 226; 128; 168]%nat) = "hi".
Proof. reflexivity. Qed.

(** An accented letter ends with the byte of no white space. *)
Example trim_keeps_accented_letter :
  trim (bytes [32; 195; 160]%nat) = bytes [195; 160]%nat.
Proof. reflexivity. Qed.

(** A reason that is a no-break space is blank. *)
Example no_break_space_is_no_reason :
  handle (ReviewRoutes.reportReview 500 9%nat 3%nat
            (Some (bytes [194; 160]%nat))) sampleDb
  = (ReviewRoutes.reason_required, sampleDb).
Proof. reflexivity. Qed.

(** A sentence that is a no-break space is left out of the summary. *)
Example blank_sentence_is_skipped :
  sentencesOf ("A." ++ bytes [194; 160]%nat ++ ".B") = ["A"; "B"].
Proof. reflexivity. Qed.

(** A character of four bytes counts once, a variation selector not at
    all. *)
Example isLength_counts_characters :
  isLengthOf (list_ascii_of_string
                (bytes [240; 159; 152; 128; 226; 157; 164; 239; 184; 143;
                        97]%nat))
  = 3%nat.
Proof. reflexivity. Qed.

Example moderated_message :
  message (AdminRoutes.moderated "approve") = "Review approved successfully".
Proof. reflexivity. Qed.

(** Enroll, reach 100%, fall back to 50%: the completion date is set, then
    cleared. *)
Example completion_date_set_then_cleared :
  let db1 := snd (serve (Enroll 100 1%nat 7%nat (Some 10%nat)) raceDb) in
  let db2 := snd (serve (UpdateProgress 200 7%nat 1%nat (Some 100) None)
                        db1) in
  let db3 := snd (serve (UpdateProgress 300 7%nat 1%nat (Some 50) None)
                        db2) in
  option_map Enrollment.completionDate
             (Enrollment.findById 1%nat (enrollments db2)) = Some (Some 200)
  /\ option_map Enrollment.completionDate
                (Enrollment.findById 1%nat (enrollments db3)) = Some None.
Proof. split; reflexivity. Qed.

(** Enroll, unenroll, enroll again: the second enrollment is answered 200
    and the store still holds the one document, active, with its progress. *)
Example reenroll_reactivates_same_document :
  let db1 := serveAll [ Enroll 100 1%nat 7%nat (Some 10%nat);
                        UpdateProgress 150 7%nat 1%nat (Some 30) (Some 0);
                        Unenroll 200 7%nat 1%nat ] raceDb in
  let res := serve (Enroll 300 2%nat 7%nat (Some 10%nat)) db1 in
  fst res = EnrollmentRoutes.re_enrolled
  /\ map (fun e => (Enrollment._id e, Enrollment.isActive e,
                    Enrollment.progress e, Enrollment.startDate e,
                    moduleIndexes e))
         (enrollments (snd res))
     = [ (1%nat, true, 30, 300, [0]) ].
Proof. split; reflexivity. Qed.

(** A second enrollment while the first is active is the conflict. *)
Example enroll_twice_is_conflict :
  serve (Enroll 300 2%nat 7%nat (Some 10%nat))
        (snd (serve (Enroll 100 1%nat 7%nat (Some 10%nat)) raceDb))
  = (EnrollmentRoutes.already_enrolled,
     snd (serve (Enroll 100 1%nat 7%nat (Some 10%nat)) raceDb)).
Proof. reflexivity. Qed.

(** The sample course: ratings 5, 3 and 4 count, the rejected review and
    the review of another course do not. *)
Example ratedDb_stats :
  run (calculateAverageRating sampleCourse) ratedDb
  = (inr {| rating := (inject_Z 40 / 10)%Q; reviewCount := 3 |}, ratedDb).
Proof. reflexivity. Qed.

(** A mean of 4.25 is rounded up to 4.3. *)
Example rounding_tie_goes_up :
  (inject_Z (Math_round (mean [5; 4; 4; 4]%Z * 10)) / 10 == 43 # 10)%Q.
Proof. reflexivity. Qed.

(* ================================================================= *)
(** ** Guards of the enrollment routes *)

(** X1.  Enrolling without a course identifier is answered 400, and enrolling in
    a course that is missing or inactive is answered 404, whether or not
    the student holds an enrollment in it; the store is left as it was. *)
Theorem enroll_guards_come_first :
  forall (now : Date) (oid user : ObjectId) (db : Db),
    handle (EnrollmentRoutes.enroll now oid user None) db
      = (EnrollmentRoutes.course_id_required, db)
    /\ status EnrollmentRoutes.course_id_required = 400%nat
    /\ status EnrollmentRoutes.course_not_found = 404%nat
    /\ forall cid : ObjectId,
         courseUsable cid db = false ->
         handle (EnrollmentRoutes.enroll now oid user (Some cid)) db
           = (EnrollmentRoutes.course_not_found, db).
Proof.
  intros now oid user db.
  split; [reflexivity|]. split; [reflexivity|]. split; [reflexivity|].
  intros cid Hbad. unfold courseUsable in Hbad.
  unfold handle, EnrollmentRoutes.enroll. simpl.
  destruct (Course.findById cid (courses db)) as [c|]; simpl; [|reflexivity].
  now rewrite Hbad.
Qed.

Lemma enroll_guards_come_first_witness :
  Enrollment.findOne 7%nat 11%nat
    (enrollments (mkDb [Course.mk 11%nat "Retired" false]
                       [Enrollment.defaults 5 1%nat 7%nat 11%nat] []))
    = Some (Enrollment.defaults 5 1%nat 7%nat 11%nat)
  /\ handle (EnrollmentRoutes.enroll 9 2%nat 7%nat (Some 11%nat))
            (mkDb [Course.mk 11%nat "Retired" false]
                  [Enrollment.defaults 5 1%nat 7%nat 11%nat] [])
     = (EnrollmentRoutes.course_not_found,
        mkDb [Course.mk 11%nat "Retired" false]
             [Enrollment.defaults 5 1%nat 7%nat 11%nat] []).
Proof.
  split; [reflexivity|].
  apply (enroll_guards_come_first 9 2%nat 7%nat). reflexivity.
Defined.

(** X2.  A progress update with no [progress] field is answered 400.  With a
    value in range, an unknown enrollment is answered 404 whoever asks,
    and a known one asked for by anyone but its student is answered 403;
    none of these touches the store. *)
Theorem updateProgress_lookup_then_owner :
  forall (now : Date) (user id : ObjectId) (p : Z) (cmi : option Z) (db : Db),
    0 <= p <= 100 ->
    handle (EnrollmentRoutes.updateProgress now user id None cmi) db
      = (EnrollmentRoutes.progress_out_of_range, db)
    /\ (Enrollment.findById id (enrollments db) = None ->
        handle (EnrollmentRoutes.updateProgress now user id (Some p) cmi) db
          = (EnrollmentRoutes.enrollment_not_found, db))
    /\ (forall e : Enrollment.t,
          Enrollment.findById id (enrollments db) = Some e ->
          Enrollment.student e <> user ->
          handle (EnrollmentRoutes.updateProgress now user id (Some p) cmi) db
            = (EnrollmentRoutes.access_denied, db))
    /\ status EnrollmentRoutes.enrollment_not_found = 404%nat
    /\ status EnrollmentRoutes.access_denied = 403%nat.
Proof.
  intros now user id p cmi db Hp.
  split; [reflexivity|].
  split.
  { intros Hnone. unfold handle, EnrollmentRoutes.updateProgress.
    rewrite (ProgressFacts.in_range_check p Hp). simpl. now rewrite Hnone. }
  split; [|split; reflexivity].
  intros e Hfind Hother. unfold handle, EnrollmentRoutes.updateProgress.
  rewrite (ProgressFacts.in_range_check p Hp). simpl. rewrite Hfind.
  apply Nat.eqb_neq in Hother. now rewrite Hother.
Qed.

Lemma updateProgress_lookup_then_owner_witness :
  Enrollment.student sampleEnrollment <> 8%nat
  /\ handle (EnrollmentRoutes.updateProgress 200 8%nat 1%nat (Some 50) None)
            sampleDb
     = (EnrollmentRoutes.access_denied, sampleDb).
Proof.
  split; [discriminate|].
  destruct (updateProgress_lookup_then_owner 200 8%nat 1%nat 50 None sampleDb)
    as (_ & _ & Hdenied & _); [lia|].
  apply (Hdenied sampleEnrollment); [reflexivity | discriminate].
Defined.

(* ================================================================= *)
(** ** Unenrolling *)

Module UnenrollFacts.

Import Enrollment EnrollmentRoutes.

Lemma handle_unenroll now user id db e :
  findById id (enrollments db) = Some e ->
  student e = user ->
  0 <= progress e <= 100 ->
  handle (unenroll now user id) db
  = (unenrolled,
     set_enrollments
       (replace (preSave now (set_isActive false e)) (enrollments db)) db).
Proof.
  intros Hfind Hown Hp. unfold handle, unenroll. simpl.
  rewrite Hfind, Hown, Nat.eqb_refl. simpl.
  now rewrite EnrollmentFacts.save_doc_valid by (simpl; exact Hp).
Qed.

(** The hook leaves alone everything but the two dates it sets. *)
Lemma preSave_keeps now e :
  _id (preSave now e) = _id e
  /\ student (preSave now e) = student e
  /\ course (preSave now e) = course e
  /\ progress (preSave now e) = progress e
  /\ completedModules (preSave now e) = completedModules e
  /\ startDate (preSave now e) = startDate e
  /\ isActive (preSave now e) = isActive e
  /\ lastAccessedAt (preSave now e) = now.
Proof.
  unfold preSave.
  destruct (progress e =? 100); destruct (completionDate e);
    destruct (progress e <? 100); simpl; repeat split.
Qed.

(** A document that satisfies the completion invariant keeps its
    completion date through the hook. *)
Lemma preSave_keeps_completionDate now e :
  completion_invariant e -> progress e <= 100 ->
  completionDate (preSave now e) = completionDate e.
Proof.
  unfold completion_invariant. intros Hinv Hle.
  rewrite EnrollmentFacts.preSave_completionDate.
  destruct (progress e =? 100) eqn:E.
  - apply Z.eqb_eq in E.
    destruct (completionDate e) as [d|] eqn:Hd; [reflexivity|].
    exfalso. now apply Hinv.
  - apply Z.eqb_neq in E.
    assert (Hlt : (progress e <? 100) = true) by (apply Z.ltb_lt; lia).
    rewrite Hlt.
    destruct (completionDate e) as [d|] eqn:Hd; [|reflexivity].
    exfalso. apply E. apply Hinv. discriminate.
Qed.

End UnenrollFacts.

(** X3.  Unenrolling is a soft delete.  For its student, an enrollment that
    passes the validators is written back with [isActive] false and
    answered 200: identity, progress, completed modules and start date
    are kept, the completion date too when it agreed with the progress,
    and no document leaves the collection.  An unknown enrollment is
    answered 404 and somebody else's 403, the store untouched. *)
Theorem unenroll_soft_deletes :
  forall (now : Date) (user id : ObjectId) (db : Db),
    (Enrollment.findById id (enrollments db) = None ->
     handle (EnrollmentRoutes.unenroll now user id) db
       = (EnrollmentRoutes.enrollment_not_found, db))
    /\ (forall e : Enrollment.t,
          Enrollment.findById id (enrollments db) = Some e ->
          Enrollment.student e <> user ->
          handle (EnrollmentRoutes.unenroll now user id) db
            = (EnrollmentRoutes.access_denied, db))
    /\ (forall e : Enrollment.t,
          Enrollment.findById id (enrollments db) = Some e ->
          Enrollment.student e = user ->
          0 <= Enrollment.progress e <= 100 ->
          exists e' : Enrollment.t,
            handle (EnrollmentRoutes.unenroll now user id) db
              = (EnrollmentRoutes.unenrolled,
                 set_enrollments
                   (Enrollment.replace e' (enrollments db)) db)
            /\ Enrollment.findById id
                 (Enrollment.replace e' (enrollments db)) = Some e'
            /\ List.length (Enrollment.replace e' (enrollments db))
               = List.length (enrollments db)
            /\ Enrollment.isActive e' = false
            /\ Enrollment._id e' = Enrollment._id e
            /\ Enrollment.student e' = Enrollment.student e
            /\ Enrollment.course e' = Enrollment.course e
            /\ Enrollment.progress e' = Enrollment.progress e
            /\ Enrollment.completedModules e'
               = Enrollment.completedModules e
            /\ Enrollment.startDate e' = Enrollment.startDate e
            /\ (completion_invariant e ->
                Enrollment.completionDate e'
                = Enrollment.completionDate e)).
Proof.
  intros now user id db. split; [|split].
  - intros Hnone. unfold handle, EnrollmentRoutes.unenroll. simpl.
    now rewrite Hnone.
  - intros e Hfind Hother. unfold handle, EnrollmentRoutes.unenroll. simpl.
    rewrite Hfind. apply Nat.eqb_neq in Hother. now rewrite Hother.
  - intros e Hfind Hown Hp.
    set (e0 := Enrollment.set_isActive false e).
    exists (Enrollment.preSave now e0).
    destruct (UnenrollFacts.preSave_keeps now e0)
      as (Hid & Hs & Hc & Hpr & Hms & Hsd & Hia & _).
    split; [now apply UnenrollFacts.handle_unenroll|].
    split.
    { pose proof (EnrollmentFacts.findById_id _ _ _ Hfind) as Hide.
      rewrite <- Hide at 1. change (Enrollment._id e)
        with (Enrollment._id e0). rewrite <- Hid.
      apply EnrollmentFacts.findById_replace with (e := e).
      rewrite Hid. simpl. now rewrite Hide. }
    split; [apply EnrollFacts.replace_length|].
    repeat (split; [assumption|]).
    intros Hinv.
    now apply (UnenrollFacts.preSave_keeps_completionDate now e0).
Qed.

Lemma unenroll_soft_deletes_witness :
  Enrollment.findById 1%nat (enrollments sampleDb) = Some sampleEnrollment
  /\ exists e' : Enrollment.t,
       handle (EnrollmentRoutes.unenroll 300 7%nat 1%nat) sampleDb
         = (EnrollmentRoutes.unenrolled,
            set_enrollments
              (Enrollment.replace e' (enrollments sampleDb)) sampleDb)
       /\ Enrollment.progress e' = 40.
Proof.
  split; [reflexivity|].
  destruct (unenroll_soft_deletes 300 7%nat 1%nat sampleDb)
    as (_ & _ & Hok).
  destruct (Hok sampleEnrollment eq_refl eq_refl)
    as (e' & Hres & _ & _ & _ & _ & _ & _ & Hp & _); [simpl; lia|].
  exists e'. split; [exact Hres | exact Hp].
Defined.

Module RoundTripFacts.

Import Enrollment EnrollmentRoutes.

Lemma find_app_hit {A : Type} (f : A -> bool) (l1 l2 : list A) (x : A) :
  (forall y, In y l1 -> f y = false) -> f x = true ->
  find f (l1 ++ x :: l2) = Some x.
Proof.
  intros Hmiss Hx. induction l1 as [|y l1 IH]; simpl.
  - now rewrite Hx.
  - rewrite (Hmiss y (or_introl eq_refl)). apply IH.
    intros z Hz. apply Hmiss. now right.
Qed.

(** In a collection with one enrollment per pair, the pair of a document
    finds that document, also once it has been overwritten in place. *)
Lemma findOne_after_replace docs l1 l2 e e' :
  pairs_unique docs ->
  docs = l1 ++ e :: l2 ->
  pairOf e' = pairOf e ->
  findOne (student e) (course e) (l1 ++ e' :: l2) = Some e'.
Proof.
  intros Hnd Hdocs Hpair. unfold findOne. apply find_app_hit.
  - intros y Hy.
    destruct (Nat.eqb (student y) (student e)
              && Nat.eqb (course y) (course e)) eqn:E; [|reflexivity].
    exfalso. apply andb_true_iff in E as [Es Ec].
    apply Nat.eqb_eq in Es. apply Nat.eqb_eq in Ec.
    unfold pairs_unique in Hnd. rewrite Hdocs, map_app in Hnd. simpl in Hnd.
    apply NoDup_remove_2 in Hnd. apply Hnd. apply in_or_app. left.
    apply in_map_iff. exists y. split; [|exact Hy].
    unfold pairOf. now rewrite Es, Ec.
  - unfold pairOf in Hpair. injection Hpair as Hs Hc.
    now rewrite Hs, Hc, !Nat.eqb_refl.
Qed.

End RoundTripFacts.

(** X4.  Unenrolling and enrolling again is a round trip on the one document.
    In a store with one enrollment per pair, once its student has
    unenrolled, an enroll request of that student for the same course
    (still active) is answered 200 "Re-enrolled in course successfully";
    the enrollment found under the same identifier is active again, with
    the progress and completed modules it had and a new start date, and
    the collection has as many documents as before. *)
Theorem unenroll_then_enroll_restores :
  forall (now1 now2 : Date) (oid user id : ObjectId) (db : Db)
         (e : Enrollment.t) (c : Course.t),
    Enrollment.findById id (enrollments db) = Some e ->
    Enrollment.student e = user ->
    0 <= Enrollment.progress e <= 100 ->
    Course.findById (Enrollment.course e) (courses db) = Some c ->
    Course.isActive c = true ->
    pairs_unique (enrollments db) ->
    let db1 := snd (handle (EnrollmentRoutes.unenroll now1 user id) db) in
    let res := handle (EnrollmentRoutes.enroll now2 oid user
                         (Some (Enrollment.course e))) db1 in
    fst res = EnrollmentRoutes.re_enrolled
    /\ List.length (enrollments (snd res)) = List.length (enrollments db)
    /\ exists e2 : Enrollment.t,
         Enrollment.findById id (enrollments (snd res)) = Some e2
         /\ Enrollment.isActive e2 = true
         /\ Enrollment.progress e2 = Enrollment.progress e
         /\ Enrollment.completedModules e2 = Enrollment.completedModules e
         /\ Enrollment.startDate e2 = now2.
Proof.
  intros now1 now2 oid user id db e c Hfind Hown Hp Hc Hact Hpairs db1 res.
  set (e1 := Enrollment.preSave now1 (Enrollment.set_isActive false e)).
  assert (K1 : Enrollment._id e1 = Enrollment._id e
               /\ Enrollment.student e1 = Enrollment.student e
               /\ Enrollment.course e1 = Enrollment.course e
               /\ Enrollment.progress e1 = Enrollment.progress e
               /\ Enrollment.completedModules e1
                  = Enrollment.completedModules e
               /\ Enrollment.startDate e1 = Enrollment.startDate e
               /\ Enrollment.isActive e1 = false
               /\ Enrollment.lastAccessedAt e1 = now1)
    by exact (UnenrollFacts.preSave_keeps now1
                (Enrollment.set_isActive false e)).
  destruct K1 as (Hid1 & Hs1 & Hc1 & Hpr1 & Hms1 & _ & Hia1 & _).
  assert (Hdb1 : db1 = set_enrollments
                         (Enrollment.replace e1 (enrollments db)) db).
  { unfold db1. now rewrite (UnenrollFacts.handle_unenroll now1 user id db e). }
  clearbody e1.
  pose proof (EnrollmentFacts.findById_id _ _ _ Hfind) as Hide.
  assert (Hfind' : Enrollment.findById (Enrollment._id e1) (enrollments db)
                   = Some e) by (now rewrite Hid1, Hide).
  destruct (EnrollmentFacts.replace_split e1 _ e Hfind')
    as (l1 & l2 & Hdocs & Hrep).
  assert (Hone : Enrollment.findOne user (Enrollment.course e)
                   (enrollments db1) = Some e1).
  { rewrite Hdb1. simpl. rewrite Hrep, <- Hown.
    apply RoundTripFacts.findOne_after_replace with (docs := enrollments db);
      auto.
    unfold pairOf. now rewrite Hs1, Hc1. }
  assert (Hres : res = (EnrollmentRoutes.re_enrolled,
                        set_enrollments
                          (Enrollment.replace (reactivated now2 e1)
                             (enrollments db1)) db1)).
  { unfold res. apply EnrollFacts.handle_enroll_inactive with (c := c).
    - now rewrite Hdb1.
    - exact Hact.
    - exact Hone.
    - exact Hia1.
    - now rewrite Hpr1. }
  set (e2 := reactivated now2 e1) in *.
  assert (K2 : Enrollment._id e2 = Enrollment._id e1
               /\ Enrollment.student e2 = Enrollment.student e1
               /\ Enrollment.course e2 = Enrollment.course e1
               /\ Enrollment.progress e2 = Enrollment.progress e1
               /\ Enrollment.completedModules e2
                  = Enrollment.completedModules e1
               /\ Enrollment.startDate e2 = now2
               /\ Enrollment.isActive e2 = true
               /\ Enrollment.lastAccessedAt e2 = now2)
    by exact (UnenrollFacts.preSave_keeps now2
                (Enrollment.set_startDate now2
                   (Enrollment.set_isActive true e1))).
  destruct K2 as (Hid2 & _ & _ & Hpr2 & Hms2 & Hsd2 & Hia2 & _).
  clearbody e2.
  split; [now rewrite Hres|].
  split.
  { rewrite Hres. simpl. rewrite EnrollFacts.replace_length, Hdb1. simpl.
    apply EnrollFacts.replace_length. }
  exists e2.
  split.
  { rewrite Hres. simpl.
    assert (Hk : Enrollment._id e2 = id) by (now rewrite Hid2, Hid1).
    rewrite <- Hk. apply EnrollmentFacts.findById_replace with (e := e1).
    rewrite Hk, Hdb1. simpl. rewrite <- Hide, <- Hid1.
    apply EnrollmentFacts.findById_replace with (e := e). exact Hfind'. }
  split; [exact Hia2|].
  split; [now rewrite Hpr2|].
  split; [now rewrite Hms2 | exact Hsd2].
Qed.

Lemma unenroll_then_enroll_restores_witness :
  pairs_unique (enrollments sampleDb)
  /\ fst (handle (EnrollmentRoutes.enroll 400 9%nat 7%nat (Some 10%nat))
                 (snd (handle (EnrollmentRoutes.unenroll 300 7%nat 1%nat)
                              sampleDb)))
     = EnrollmentRoutes.re_enrolled.
Proof.
  assert (Hpairs : pairs_unique (enrollments sampleDb)).
  { constructor; [intros [] | constructor]. }
  split; [exact Hpairs|].
  apply (unenroll_then_enroll_restores 300 400 9%nat 7%nat 1%nat sampleDb
           sampleEnrollment sampleCourse);
    try reflexivity; try exact Hpairs.
  simpl; lia.
Defined.

(* ================================================================= *)
(** ** Updating, deleting and voting on reviews *)

Module ReviewEditFacts.

Import Review ReviewRoutes.

Lemma remove_length id docs r :
  findById id docs = Some r ->
  S (List.length (remove id docs)) = List.length docs.
Proof.
  unfold findById.
  induction docs as [|d docs IH]; simpl; [discriminate|].
  destruct (Nat.eqb (_id d) id); simpl; [reflexivity|].
  intros H. now rewrite (IH H).
Qed.

Lemma remove_unique id docs :
  NoDup (map _id docs) -> findById id (remove id docs) = None.
Proof.
  unfold findById.
  induction docs as [|d docs IH]; simpl; [reflexivity|].
  intros Hnd. inversion Hnd as [|x l Hnotin Hnd']; subst.
  destruct (Nat.eqb (_id d) id) eqn:E; simpl.
  - apply Nat.eqb_eq in E. subst id.
    destruct (find _ docs) as [y|] eqn:F; [|reflexivity].
    apply find_some in F as [Hin Hy]. apply Nat.eqb_eq in Hy.
    exfalso. apply Hnotin. rewrite <- Hy. now apply in_map.
  - rewrite E. now apply IH.
Qed.

Lemma handle_markHelpful id db r :
  findById id (reviews db) = Some r ->
  handle (markHelpful id) db
  = (marked_helpful,
     set_reviews
       (replace (set_helpfulVotes (helpfulVotes r + 1) r) (reviews db)) db).
Proof.
  intros Hfind. unfold handle, markHelpful. simpl. now rewrite Hfind.
Qed.

End ReviewEditFacts.

(** X5.  Only its author updates a review, an administrator included: anybody
    else is answered 403 and an unknown review 404, the store untouched.
    For the author the rating and the comment are overwritten and
    nothing else: approval, helpful votes and reports stay as they were. *)
Theorem updateReview_author_only :
  forall (user id : ObjectId) (stars : Z) (text : string) (db : Db),
    (Review.findById id (reviews db) = None ->
     handle (ReviewRoutes.updateReview user id stars text) db
       = (ReviewRoutes.review_not_found, db))
    /\ (forall r : Review.t,
          Review.findById id (reviews db) = Some r ->
          Review.student r <> user ->
          handle (ReviewRoutes.updateReview user id stars text) db
            = (ReviewRoutes.access_denied, db))
    /\ (forall r : Review.t,
          Review.findById id (reviews db) = Some r ->
          Review.student r = user ->
          exists r' : Review.t,
            handle (ReviewRoutes.updateReview user id stars text) db
              = (ReviewRoutes.review_updated,
                 set_reviews (Review.replace r' (reviews db)) db)
            /\ Review.findById id (Review.replace r' (reviews db)) = Some r'
            /\ Review.rating r' = stars
            /\ Review.comment r' = text
            /\ Review.isApproved r' = Review.isApproved r
            /\ Review.helpfulVotes r' = Review.helpfulVotes r
            /\ Review.reportedBy r' = Review.reportedBy r
            /\ Review.student r' = Review.student r
            /\ Review.course r' = Review.course r).
Proof.
  intros user id stars text db. split; [|split].
  - intros Hnone. unfold handle, ReviewRoutes.updateReview. simpl.
    now rewrite Hnone.
  - intros r Hfind Hother. unfold handle, ReviewRoutes.updateReview. simpl.
    rewrite Hfind. apply Nat.eqb_neq in Hother. now rewrite Hother.
  - intros r Hfind Hown.
    exists (Review.set_comment text (Review.set_rating stars r)).
    split.
    { unfold handle, ReviewRoutes.updateReview. simpl.
      now rewrite Hfind, Hown, Nat.eqb_refl. }
    split; [now apply ReviewFacts.review_findById_saved with (r := r)|].
    repeat split.
Qed.

Lemma updateReview_author_only_witness :
  Review.findById 3%nat (reviews sampleDb) = Some sampleReview
  /\ Review.student sampleReview <> 8%nat
  /\ handle (ReviewRoutes.updateReview 8%nat 3%nat 1 "I changed my mind.")
            sampleDb
     = (ReviewRoutes.access_denied, sampleDb).
Proof.
  split; [reflexivity|]. split; [discriminate|].
  destruct (updateReview_author_only 8%nat 3%nat 1 "I changed my mind."
              sampleDb) as (_ & Hdenied & _).
  apply (Hdenied sampleReview); [reflexivity | discriminate].
Defined.

(** X6.  A review is deleted by its author or by an administrator, and by
    nobody else (403, store untouched).  The deletion takes exactly one
    document out of the collection, and with unique identifiers the
    review can no longer be found. *)
Theorem deleteReview_author_or_admin :
  forall (user : ObjectId) (role : string) (id : ObjectId) (db : Db)
         (r : Review.t),
    Review.findById id (reviews db) = Some r ->
    (Review.student r <> user -> role <> "admin" ->
     handle (ReviewRoutes.deleteReview user role id) db
       = (ReviewRoutes.access_denied, db))
    /\ (Review.student r = user \/ role = "admin" ->
        handle (ReviewRoutes.deleteReview user role id) db
          = (ReviewRoutes.review_deleted,
             set_reviews (Review.remove id (reviews db)) db)
        /\ S (List.length (Review.remove id (reviews db)))
           = List.length (reviews db)
        /\ (NoDup (map Review._id (reviews db)) ->
            Review.findById id (Review.remove id (reviews db)) = None)).
Proof.
  intros user role id db r Hfind. split.
  - intros Hother Hrole. unfold handle, ReviewRoutes.deleteReview. simpl.
    rewrite Hfind. apply Nat.eqb_neq in Hother.
    apply String.eqb_neq in Hrole. now rewrite Hother, Hrole.
  - intros Hmay. split; [|split].
    + unfold handle, ReviewRoutes.deleteReview. simpl. rewrite Hfind.
      destruct Hmay as [Hown | Hadmin].
      * now rewrite Hown, Nat.eqb_refl.
      * rewrite Hadmin, String.eqb_refl. simpl.
        now rewrite andb_false_r.
    + now apply ReviewEditFacts.remove_length with (r := r).
    + apply ReviewEditFacts.remove_unique.
Qed.

Lemma deleteReview_author_or_admin_witness :
  Review.findById 3%nat (reviews sampleDb) = Some sampleReview
  /\ handle (ReviewRoutes.deleteReview 99%nat "admin" 3%nat) sampleDb
     = (ReviewRoutes.review_deleted, set_reviews [] sampleDb).
Proof.
  split; [reflexivity|].
  destruct (deleteReview_author_or_admin 99%nat "admin" 3%nat sampleDb
              sampleReview eq_refl) as (_ & Hok).
  destruct (Hok (or_intror eq_refl)) as (Hres & _). exact Hres.
Defined.

(** X7.  Helpful votes are not deduplicated: marking a review helpful [n]
    times in a row, by whomever, adds [n] to its counter and changes
    nothing else of it. *)
Theorem markHelpful_counts_every_call :
  forall (n : nat) (id : ObjectId) (db : Db) (r : Review.t),
    Review.findById id (reviews db) = Some r ->
    exists r' : Review.t,
      Review.findById id
        (reviews (Nat.iter n
                    (fun d => snd (handle (ReviewRoutes.markHelpful id) d))
                    db)) = Some r'
      /\ Review.helpfulVotes r' = Review.helpfulVotes r + Z.of_nat n
      /\ Review.rating r' = Review.rating r
      /\ Review.comment r' = Review.comment r
      /\ Review.isApproved r' = Review.isApproved r
      /\ Review.reportedBy r' = Review.reportedBy r
      /\ Review.student r' = Review.student r
      /\ Review.course r' = Review.course r.
Proof.
  induction n as [|n IH]; intros id db r Hfind.
  - exists r. simpl. rewrite Z.add_0_r. repeat split. exact Hfind.
  - destruct (IH id db r Hfind)
      as (r1 & Hf1 & Hv & Hra & Hco & Hap & Hrep & Hst & Hcr).
    rewrite Nat.iter_succ.
    set (dbn := Nat.iter n
                  (fun d => snd (handle (ReviewRoutes.markHelpful id) d))
                  db) in *.
    rewrite (ReviewEditFacts.handle_markHelpful id dbn r1 Hf1). simpl.
    exists (Review.set_helpfulVotes (Review.helpfulVotes r1 + 1) r1).
    split; [now apply ReviewFacts.review_findById_saved with (r := r1)|].
    simpl. repeat split; try assumption. lia.
Qed.

Lemma markHelpful_counts_every_call_witness :
  Review.findById 3%nat (reviews sampleDb) = Some sampleReview
  /\ exists r' : Review.t,
       Review.findById 3%nat
         (reviews (Nat.iter 3
                     (fun d => snd (handle (ReviewRoutes.markHelpful 3%nat) d))
                     sampleDb)) = Some r'
       /\ Review.helpfulVotes r' = 5.
Proof.
  split; [reflexivity|].
  destruct (markHelpful_counts_every_call 3 3%nat sampleDb sampleReview
              eq_refl) as (r' & Hf & Hv & _).
  exists r'. split; [exact Hf | exact Hv].
Defined.

(* ================================================================= *)
(** ** Order of the checks on reports and moderation *)

(** X8.  The body is checked before the review is looked up.  A report with a
    blank reason is answered 400 and a moderation with an action other
    than approve or reject is answered 400, whether the review exists or
    not; with a well-formed body an unknown review is answered 404.  None
    of these touches the store. *)
Theorem review_body_checked_before_lookup :
  forall (now : Date) (reporter id : ObjectId) (reason : option string)
         (action : string) (db : Db),
    (blankReason reason = true ->
     handle (ReviewRoutes.reportReview now reporter id reason) db
       = (ReviewRoutes.reason_required, db))
    /\ (blankReason reason = false ->
        Review.findById id (reviews db) = None ->
        handle (ReviewRoutes.reportReview now reporter id reason) db
          = (ReviewRoutes.review_not_found, db))
    /\ (action <> "approve" -> action <> "reject" ->
        handle (AdminRoutes.moderateReview id action) db
          = (AdminRoutes.bad_action, db))
    /\ (action = "approve" \/ action = "reject" ->
        Review.findById id (reviews db) = None ->
        handle (AdminRoutes.moderateReview id action) db
          = (AdminRoutes.review_not_found, db))
    /\ status ReviewRoutes.review_not_found = 404%nat
    /\ status AdminRoutes.review_not_found = 404%nat.
Proof.
  intros now reporter id reason action db.
  split; [|split; [|split; [|split; [|split; reflexivity]]]].
  - intros Hb. unfold handle, ReviewRoutes.reportReview.
    destruct reason as [s|]; [|reflexivity].
    simpl in Hb. now rewrite ReviewFacts.blank_check, Hb.
  - intros Hb Hnone. unfold handle, ReviewRoutes.reportReview.
    destruct reason as [s|]; [|discriminate].
    simpl in Hb. rewrite ReviewFacts.blank_check, Hb. simpl.
    now rewrite Hnone.
  - intros Ha Hr. unfold handle, AdminRoutes.moderateReview. simpl.
    apply String.eqb_neq in Ha. apply String.eqb_neq in Hr.
    now rewrite Ha, Hr.
  - intros Hact Hnone. unfold handle, AdminRoutes.moderateReview.
    destruct Hact as [-> | ->]; simpl; now rewrite Hnone.
Qed.

Lemma review_body_checked_before_lookup_witness :
  Review.findById 77%nat (reviews sampleDb) = None
  /\ handle (ReviewRoutes.reportReview 5 8%nat 77%nat (Some "   ")) sampleDb
     = (ReviewRoutes.reason_required, sampleDb).
Proof.
  split; [reflexivity|].
  apply (review_body_checked_before_lookup 5 8%nat 77%nat (Some "   ")
           "approve" sampleDb).
  reflexivity.
Defined.

(** X9.  Approval wipes the slate: a user whose report is on record, and who
    could not report the review again, can report it once more after the
    review has been approved; the new report is then the only one. *)
Theorem approve_reopens_reporting :
  forall (now : Date) (reporter id : ObjectId) (s : string) (db : Db)
         (r : Review.t),
    Review.findById id (reviews db) = Some r ->
    In reporter (reporters r) ->
    blankReason (Some s) = false ->
    let db1 := snd (handle (AdminRoutes.moderateReview id "approve") db) in
    let res := handle (ReviewRoutes.reportReview now reporter id (Some s))
                      db1 in
    handle (ReviewRoutes.reportReview now reporter id (Some s)) db
      = (ReviewRoutes.already_reported, db)
    /\ fst res = ReviewRoutes.review_reported
    /\ exists r' : Review.t,
         Review.findById id (reviews (snd res)) = Some r'
         /\ Review.reportedBy r' = [Review.mkReport reporter (trim s) now]
         /\ Review.isApproved r' = true.
Proof.
  intros now reporter id s db r Hfind Hin Hb db1 res.
  set (r1 := Review.set_reportedBy [] (Review.set_isApproved true r)).
  assert (Hdb1 : db1 = set_reviews (Review.replace r1 (reviews db)) db).
  { unfold db1, handle, AdminRoutes.moderateReview. simpl.
    now rewrite Hfind. }
  assert (Hf1 : Review.findById id (reviews db1) = Some r1).
  { rewrite Hdb1. simpl.
    now apply ReviewFacts.review_findById_saved with (r := r). }
  simpl in Hb.
  split.
  { unfold handle, ReviewRoutes.reportReview.
    rewrite ReviewFacts.blank_check, Hb. simpl. rewrite Hfind.
    destruct (ReviewFacts.find_reporter_some _ _ Hin) as [x ->].
    reflexivity. }
  set (r2 := Review.set_reportedBy
               [Review.mkReport reporter (trim s) now] r1).
  assert (Hres : res = (ReviewRoutes.review_reported,
                        set_reviews (Review.replace r2 (reviews db1)) db1)).
  { unfold res, handle, ReviewRoutes.reportReview.
    rewrite ReviewFacts.blank_check, Hb. simpl. now rewrite Hf1. }
  split; [now rewrite Hres|].
  exists r2. split; [|split; reflexivity].
  rewrite Hres. simpl.
  now apply ReviewFacts.review_findById_saved with (r := r1).
Qed.

Lemma approve_reopens_reporting_witness :
  In 8%nat (reporters sampleReview)
  /\ fst (handle (ReviewRoutes.reportReview 500 8%nat 3%nat (Some "still spam"))
                 (snd (handle (AdminRoutes.moderateReview 3%nat "approve")
                              sampleDb)))
     = ReviewRoutes.review_reported.
Proof.
  split; [left; reflexivity|].
  apply (approve_reopens_reporting 500 8%nat 3%nat "still spam" sampleDb
           sampleReview); [reflexivity | left; reflexivity | reflexivity].
Defined.

(* ================================================================= *)
(** ** Review creation behind its validation middleware *)

(** X10.  Whatever the route [POST /api/reviews] stores has passed the
    middleware: when it answers 201, one review has been appended whose
    rating lies between 1 and 5 and whose comment is the body comment
    without the white space at its ends, 10 to 1000 characters long as
    [isLength] counts them.  A body the middleware refuses is answered 400
    "Validation failed" without any lookup. *)
Theorem createReviewRoute_stores_validated_reviews :
  forall (oid user cid : ObjectId) (stars : Z) (text : string) (db : Db),
    let res := handle (ReviewRoutes.createReviewRoute oid user cid stars text)
                      db in
    (validateReviewCreation stars text = false ->
     ReviewRoutes.createReviewRoute oid user cid stars text
       = Ret validation_failed
     /\ res = (validation_failed, db))
    /\ (status (fst res) = 201%nat ->
        exists r : Review.t,
          reviews (snd res) = reviews db ++ [r]
          /\ 1 <= Review.rating r <= 5
          /\ Review.comment r = trim text
          /\ trimmedOf text (Review.comment r)
          /\ (10 <= isLengthOf (list_ascii_of_string (Review.comment r))
               <= 1000)%nat
          /\ Review.student r = user
          /\ Review.course r = cid).
Proof.
  intros oid user cid stars text db res. split.
  - intros Hbad. unfold res, ReviewRoutes.createReviewRoute.
    rewrite Hbad. split; reflexivity.
  - unfold res, ReviewRoutes.createReviewRoute.
    destruct (validateReviewCreation stars text) eqn:Hv;
      [|simpl; discriminate].
    unfold validateReviewCreation, isLength in Hv.
    apply andb_true_iff in Hv as [Hv Hlen].
    apply andb_true_iff in Hv as [Hlo Hhi].
    apply andb_true_iff in Hlen as [Hmin Hmax].
    apply Z.leb_le in Hlo. apply Z.leb_le in Hhi.
    apply Nat.leb_le in Hmin. apply Nat.leb_le in Hmax.
    unfold handle, ReviewRoutes.createReview. simpl.
    destruct (Course.findById cid (courses db)) as [c|]; simpl;
      [|discriminate].
    destruct (Course.isActive c); simpl; [|discriminate].
    destruct (Enrollment.findOneActive user cid (enrollments db)); simpl;
      [|discriminate].
    destruct (Review.findOne user cid (reviews db)); simpl; [discriminate|].
    intros _. exists (Review.defaults oid user cid stars (trim text)).
    simpl. split; [reflexivity|]. split; [now split|].
    split; [reflexivity|]. split; [apply TrimFacts.trim_trimmedOf|].
    split; [now split|]. now split.
Qed.

(** Five accented letters are ten bytes and five characters: too short a
    comment. *)
Lemma createReviewRoute_stores_validated_reviews_witness :
  validateReviewCreation
    5 (bytes [195; 169; 195; 169; 195; 169; 195; 169; 195; 169]%nat) = false
  /\ handle (ReviewRoutes.createReviewRoute
               4%nat 7%nat 10%nat 5
               (bytes [195; 169; 195; 169; 195; 169; 195; 169; 195; 169]%nat))
            sampleDb
     = (validation_failed, sampleDb).
Proof.
  split; [reflexivity|].
  apply (createReviewRoute_stores_validated_reviews
           4%nat 7%nat 10%nat 5
           (bytes [195; 169; 195; 169; 195; 169; 195; 169; 195; 169]%nat)
           sampleDb).
  reflexivity.
Defined.

(* ================================================================= *)
(** ** Bounds and moderation of the course rating *)

Module RatingBoundFacts.

Lemma sumZ_bounds (l : list Z) :
  Forall (fun z => 1 <= z <= 5) l ->
  Z.of_nat (List.length l) <= sumZ l <= 5 * Z.of_nat (List.length l).
Proof.
  induction 1 as [|z l Hz _ IH]; simpl List.length; simpl sumZ; [lia|].
  rewrite Nat2Z.inj_succ. lia.
Qed.

Lemma Zpos_of_nat (n : nat) :
  (0 < n)%nat -> Z.pos (Pos.of_nat n) = Z.of_nat n.
Proof.
  destruct n as [|n]; [lia|]. intros _.
  rewrite <- Pos.of_nat_succ, Zpos_P_of_succ_nat, Nat2Z.inj_succ.
  reflexivity.
Qed.

Lemma mean_bounds (l : list Z) :
  l <> [] -> Forall (fun z => 1 <= z <= 5) l ->
  (1 <= mean l <= 5)%Q.
Proof.
  intros Hne Hall. pose proof (sumZ_bounds l Hall) as [Hlo Hhi].
  assert (Hlen : (0 < List.length l)%nat)
    by (destruct l; [contradiction | simpl; lia]).
  pose proof (Zpos_of_nat _ Hlen) as Hpos.
  unfold mean. split; unfold Qle; cbn [Qnum Qden]; rewrite Hpos;
    clear Hpos; lia.
Qed.

(** A mean between 1 and 5 is still between 1 and 5 once rounded to a
    tenth. *)
Lemma round_tenths_bounds (x : Q) :
  (1 <= x <= 5)%Q ->
  (1 <= inject_Z (Math_round (x * 10)) / 10 <= 5)%Q.
Proof.
  intros [Hlo Hhi]. unfold Math_round.
  assert (Hq10 : (10 <= x * 10 + (1 # 2))%Q) by lra.
  assert (Hq50 : (x * 10 + (1 # 2) <= 101 # 2)%Q) by lra.
  pose proof (Qfloor_resp_le _ _ Hq10) as H10.
  pose proof (Qfloor_resp_le _ _ Hq50) as H50.
  change (Qfloor 10) with 10 in H10.
  change (Qfloor (101 # 2)) with 50 in H50.
  set (k := Qfloor (x * 10 + (1 # 2))) in *.
  unfold Qle, Qdiv, Qmult, Qinv, inject_Z. simpl. lia.
Qed.

(** What [calculateAverageRating] returns, with its count read off the
    matched reviews. *)
Lemma run_calculateAverageRating (this : Course.t) (db : Db) :
  exists st : RatingStats,
    run (calculateAverageRating this) db = (inr st, db)
    /\ reviewCount st
       = List.length (matchApproved (Course._id this) (reviews db))
    /\ ((matchApproved (Course._id this) (reviews db) = []
         /\ rating st = 0%Q)
        \/ (matchApproved (Course._id this) (reviews db) <> []
            /\ rating st
               = (inject_Z
                    (Math_round
                       (mean (map Review.rating
                                (matchApproved (Course._id this)
                                   (reviews db))) * 10)) / 10)%Q)).
Proof.
  unfold calculateAverageRating. simpl.
  destruct (matchApproved (Course._id this) (reviews db))
    as [|r0 rest] eqn:Hm.
  - exists {| rating := 0%Q; reviewCount := 0%nat |}.
    split; [reflexivity|]. split; [reflexivity|]. left. now split.
  - assert (Hne : r0 :: rest <> []) by discriminate.
    rewrite (RatingFacts.groupByCourse_mean _ Hne).
    eexists. split; [reflexivity|]. split; [reflexivity|].
    right. split; [exact Hne | reflexivity].
Qed.

Lemma review_replace_split r' docs r :
  Review.findById (Review._id r') docs = Some r ->
  exists l1 l2, docs = l1 ++ r :: l2 /\ Review.replace r' docs = l1 ++ r' :: l2.
Proof.
  unfold Review.findById.
  induction docs as [|d docs IH]; simpl; [discriminate|].
  destruct (Nat.eqb (Review._id d) (Review._id r')) eqn:E.
  - intros [= ->]. now exists [], docs.
  - intros H. destruct (IH H) as (l1 & l2 & -> & ->).
    now exists (d :: l1), l2.
Qed.

Lemma matchApproved_split c l1 r l2 :
  List.length (matchApproved c (l1 ++ r :: l2))
  = (List.length (matchApproved c l1) + countsFor c r
     + List.length (matchApproved c l2))%nat.
Proof.
  unfold matchApproved, countsFor. rewrite filter_app, length_app. simpl.
  destruct (Nat.eqb (Review.course r) c && Review.isApproved r); simpl; lia.
Qed.

End RatingBoundFacts.

(** X11.  With ratings between 1 and 5, as the middleware lets them in, the
    rating [calculateAverageRating] returns is 0 for a course without an
    approved review and lies between 1 and 5 otherwise. *)
Theorem calculateAverageRating_between_1_and_5 :
  forall (this : Course.t) (db : Db),
    (forall r : Review.t, In r (reviews db) -> 1 <= Review.rating r <= 5) ->
    exists st : RatingStats,
      run (calculateAverageRating this) db = (inr st, db)
      /\ ((reviewCount st = 0%nat /\ rating st = 0%Q)
          \/ ((0 < reviewCount st)%nat /\ (1 <= rating st <= 5)%Q)).
Proof.
  intros this db Hvalid.
  destruct (RatingBoundFacts.run_calculateAverageRating this db)
    as (st & Hrun & Hcount & [[Hnil Hzero] | [Hne Hrate]]).
  - exists st. split; [exact Hrun|]. left.
    rewrite Hcount, Hnil. now split.
  - exists st. split; [exact Hrun|]. right. split.
    + rewrite Hcount.
      destruct (matchApproved (Course._id this) (reviews db));
        [contradiction | simpl; lia].
    + rewrite Hrate. apply RatingBoundFacts.round_tenths_bounds.
      apply RatingBoundFacts.mean_bounds.
      * destruct (matchApproved (Course._id this) (reviews db));
          [contradiction | discriminate].
      * apply Forall_forall. intros z Hz.
        apply in_map_iff in Hz as (r & <- & Hr).
        apply RatingFacts.matchApproved_In in Hr as [Hin _].
        now apply Hvalid.
Qed.

Lemma calculateAverageRating_between_1_and_5_witness :
  exists st : RatingStats,
    run (calculateAverageRating sampleCourse) ratedDb = (inr st, ratedDb)
    /\ ((reviewCount st = 0%nat /\ rating st = 0%Q)
        \/ ((0 < reviewCount st)%nat /\ (1 <= rating st <= 5)%Q)).
Proof.
  apply (calculateAverageRating_between_1_and_5 sampleCourse ratedDb).
  intros r Hr. simpl in Hr.
  repeat (destruct Hr as [<- | Hr]; [simpl; lia|]). contradiction.
Defined.

(** X12.  Moderation moves the review count by what the review weighed.  For
    the course of the moderated review, rejecting takes an approved review
    out of the count and approving brings a rejected one in; a review of
    another course changes nothing. *)
Theorem moderateReview_moves_reviewCount :
  forall (this : Course.t) (id : ObjectId) (action : string) (db : Db)
         (r : Review.t),
    Review.findById id (reviews db) = Some r ->
    action = "approve" \/ action = "reject" ->
    let db' := snd (handle (AdminRoutes.moderateReview id action) db) in
    exists st st' : RatingStats,
      run (calculateAverageRating this) db = (inr st, db)
      /\ run (calculateAverageRating this) db' = (inr st', db')
      /\ (Review.course r <> Course._id this ->
          reviewCount st' = reviewCount st)
      /\ (Review.course r = Course._id this ->
          (reviewCount st' + countsFor (Course._id this) r)%nat
          = (reviewCount st
             + (if String.eqb action "approve" then 1 else 0))%nat).
Proof.
  intros this id action db r Hfind Hact db'.
  set (r' := if String.eqb action "approve"
             then Review.set_reportedBy [] (Review.set_isApproved true r)
             else Review.set_isApproved false r).
  assert (Hdb' : db' = set_reviews (Review.replace r' (reviews db)) db).
  { unfold db', handle, AdminRoutes.moderateReview.
    destruct Hact as [-> | ->]; simpl; now rewrite Hfind. }
  assert (Hid' : Review._id r' = id).
  { pose proof (ReviewFacts.review_findById_id _ _ _ Hfind) as Hid.
    unfold r'. now destruct (String.eqb action "approve"). }
  assert (Hcourse' : Review.course r' = Review.course r)
    by (unfold r'; now destruct (String.eqb action "approve")).
  assert (Happ' : Review.isApproved r' = String.eqb action "approve")
    by (unfold r'; now destruct (String.eqb action "approve")).
  rewrite <- Hid' in Hfind.
  destruct (RatingBoundFacts.review_replace_split r' _ r Hfind)
    as (l1 & l2 & Hdocs & Hrep).
  destruct (RatingBoundFacts.run_calculateAverageRating this db)
    as (st & Hrun & Hcount & _).
  destruct (RatingBoundFacts.run_calculateAverageRating this db')
    as (st' & Hrun' & Hcount' & _).
  exists st, st'. split; [exact Hrun|]. split; [exact Hrun'|].
  rewrite Hcount, Hcount', Hdb'. simpl. rewrite Hrep, Hdocs.
  rewrite !RatingBoundFacts.matchApproved_split.
  unfold countsFor. rewrite Hcourse', Happ'.
  split.
  - intros Hother. apply Nat.eqb_neq in Hother. rewrite Hother.
    reflexivity.
  - intros Hsame. apply Nat.eqb_eq in Hsame. rewrite Hsame. simpl.
    destruct (String.eqb action "approve"); destruct (Review.isApproved r);
      simpl; lia.
Qed.

Lemma moderateReview_moves_reviewCount_witness :
  Review.findById 5%nat (reviews ratedDb)
    = Some (Review.mk 5%nat 6%nat 10%nat 4 "Good overall" true 0 [])
  /\ exists st st' : RatingStats,
       run (calculateAverageRating sampleCourse) ratedDb = (inr st, ratedDb)
       /\ run (calculateAverageRating sampleCourse)
              (snd (handle (AdminRoutes.moderateReview 5%nat "reject") ratedDb))
          = (inr st',
             snd (handle (AdminRoutes.moderateReview 5%nat "reject") ratedDb))
       /\ (reviewCount st' + 1)%nat = reviewCount st.
Proof.
  split; [reflexivity|].
  destruct (moderateReview_moves_reviewCount sampleCourse 5%nat "reject"
              ratedDb _ eq_refl (or_intror eq_refl))
    as (st & st' & Hrun & Hrun' & _ & Hsame).
  exists st, st'. split; [exact Hrun|]. split; [exact Hrun'|].
  rewrite <- (Nat.add_0_r (reviewCount st)). now apply Hsame.
Defined.

(* ================================================================= *)
(** ** Enrollment statistics *)

Module StatsFacts.

(** [Math.ceil] of a quotient of integers, in integer arithmetic. *)
Lemma Math_ceil_quotient (a m : Z) :
  0 < m -> Math_ceil (inject_Z a / inject_Z m) = - ((- a) / m).
Proof.
  intros Hm. unfold Math_ceil, Qceiling. f_equal.
  rewrite Zdiv_Qdiv. apply Qfloor_comp.
  rewrite inject_Z_opp. field.
  intros H. unfold Qeq in H. simpl in H. lia.
Qed.

Lemma Math_ceil_bounds (a m : Z) :
  0 < m ->
  (Math_ceil (inject_Z a / inject_Z m) - 1) * m < a
  <= Math_ceil (inject_Z a / inject_Z m) * m.
Proof.
  intros Hm. rewrite (Math_ceil_quotient a m Hm).
  pose proof (Z.mul_div_le (- a) m Hm).
  pose proof (Z.mul_succ_div_gt (- a) m Hm).
  nia.
Qed.

Lemma completed_count (docs : list Enrollment.t) :
  fold_right
    (fun e n =>
       ((if (Enrollment.progress e =? 100)%Z then 1 else 0) + n)%nat)
    0%nat docs
  = List.length (filter (fun e => Enrollment.progress e =? 100) docs).
Proof.
  induction docs as [|e docs IH]; simpl; [reflexivity|].
  rewrite IH. destruct (Enrollment.progress e =? 100); reflexivity.
Qed.

Lemma progress_sum_bounds (docs : list Enrollment.t) :
  schema_valid docs ->
  0 <= sumZ (map Enrollment.progress docs)
  <= 100 * Z.of_nat (List.length docs).
Proof.
  induction 1 as [|e docs He _ IH]; simpl List.length; simpl sumZ; [lia|].
  rewrite Nat2Z.inj_succ. lia.
Qed.

(** A sum of values none above 100 reaches 100 times their number only if
    every one of them is 100. *)
Lemma progress_sum_full (docs : list Enrollment.t) :
  schema_valid docs ->
  (sumZ (map Enrollment.progress docs) = 100 * Z.of_nat (List.length docs)
   <-> List.length (filter (fun e => Enrollment.progress e =? 100) docs)
       = List.length docs).
Proof.
  induction 1 as [|e docs He Hrest IH]; simpl List.length; simpl sumZ;
    simpl filter; [tauto|].
  pose proof (progress_sum_bounds docs Hrest) as Hb.
  pose proof (filter_length_le (fun e => Enrollment.progress e =? 100) docs)
    as Hf.
  rewrite Nat2Z.inj_succ.
  destruct (Enrollment.progress e =? 100) eqn:E.
  - apply Z.eqb_eq in E. simpl List.length. split; intros H'.
    + f_equal. apply IH. lia.
    + injection H' as H'. apply IH in H'. lia.
  - apply Z.eqb_neq in E. split; intros H'; lia.
Qed.

End StatsFacts.

(** X13.  The days since enrollment are counted in started days, whichever of
    the two dates comes first: never negative, zero only at the very
    instant of the start date, and otherwise the least number of whole
    days that covers the time between the two. *)
Theorem daysSinceEnrollment_counts_started_days :
  forall (now : Date) (e : Enrollment.t),
    let d := daysSinceEnrollment now e in
    0 <= d
    /\ (d - 1) * msPerDay < Z.abs (now - Enrollment.startDate e)
       <= d * msPerDay
    /\ (d = 0 <-> now = Enrollment.startDate e)
    /\ daysSinceEnrollment (2 * Enrollment.startDate e - now) e = d.
Proof.
  intros now e d.
  assert (Hm : 0 < msPerDay) by reflexivity.
  pose proof (StatsFacts.Math_ceil_bounds
                (Z.abs (now - Enrollment.startDate e)) msPerDay Hm) as Hb.
  fold (daysSinceEnrollment now e) in Hb. fold d in Hb.
  assert (Hd : 0 <= d) by nia.
  split; [exact Hd|]. split; [exact Hb|]. split.
  - split; intros H0; [rewrite H0 in Hb; lia|].
    assert (Z.abs (now - Enrollment.startDate e) = 0) by lia.
    unfold msPerDay in Hb. nia.
  - unfold d, daysSinceEnrollment.
    replace (Z.abs (2 * Enrollment.startDate e - now
                    - Enrollment.startDate e))
      with (Z.abs (now - Enrollment.startDate e)) by lia.
    reflexivity.
Qed.

(** X14.  [getEnrollmentStats] counts every enrollment, active or not.  The
    completed ones are those at 100, never more than the total; an empty
    collection gives the zero statistics; and when the enrollments pass
    the validators the average progress lies between 0 and 100 and is 100
    exactly when every enrollment is completed. *)
Theorem getEnrollmentStats_summary :
  forall docs : list Enrollment.t,
    let s := getEnrollmentStats docs in
    totalEnrollments s = List.length docs
    /\ completedEnrollments s
       = List.length (filter (fun e => Enrollment.progress e =? 100) docs)
    /\ (completedEnrollments s <= totalEnrollments s)%nat
    /\ (docs = [] -> averageProgress s = 0%Q)
    /\ (schema_valid docs ->
        (0 <= averageProgress s <= 100)%Q
        /\ (docs <> [] ->
            ((averageProgress s == 100)%Q
             <-> completedEnrollments s = totalEnrollments s))).
Proof.
  intros docs s.
  destruct docs as [|e0 rest] eqn:Hdocs.
  - split; [reflexivity|]. split; [reflexivity|].
    split; [apply Nat.le_refl|]. split; [reflexivity|].
    intros _. split; [split; discriminate|].
    intros Hne. contradiction.
  - rewrite <- Hdocs in *.
    assert (Hs : s = {| totalEnrollments := List.length docs;
                        completedEnrollments :=
                          List.length
                            (filter (fun e => Enrollment.progress e =? 100)
                                    docs);
                        averageProgress :=
                          Qmake (sumZ (map Enrollment.progress docs))
                                (Pos.of_nat (List.length docs)) |}).
    { unfold s, getEnrollmentStats, groupAllEnrollments.
      rewrite Hdocs at 1. rewrite <- Hdocs.
      now rewrite StatsFacts.completed_count. }
    rewrite Hs. cbn [totalEnrollments completedEnrollments averageProgress].
    assert (Hlen : (0 < List.length docs)%nat) by (rewrite Hdocs; simpl; lia).
    pose proof (RatingBoundFacts.Zpos_of_nat _ Hlen) as Hpos.
    split; [reflexivity|]. split; [reflexivity|].
    split; [apply filter_length_le|].
    split; [intros E; rewrite Hdocs in E; discriminate|].
    intros Hvalid.
    pose proof (StatsFacts.progress_sum_bounds docs Hvalid) as [Hlo Hhi].
    split.
    + split; unfold Qle; cbn [Qnum Qden]; rewrite ?Hpos; lia.
    + intros _. unfold Qeq. cbn [Qnum Qden]. rewrite Hpos.
      rewrite <- (StatsFacts.progress_sum_full docs Hvalid). lia.
Qed.

Lemma getEnrollmentStats_summary_witness :
  schema_valid (enrollments sampleDb)
  /\ (0 <= averageProgress (getEnrollmentStats (enrollments sampleDb))
      <= 100)%Q.
Proof.
  assert (Hvalid : schema_valid (enrollments sampleDb)).
  { constructor; [simpl; lia | constructor]. }
  split; [exact Hvalid|].
  destruct (getEnrollmentStats_summary (enrollments sampleDb))
    as (_ & _ & _ & _ & Hv).
  apply (Hv Hvalid).
Defined.

Module RateFacts.

Lemma stats_counts (docs : list Enrollment.t) :
  totalEnrollments (getEnrollmentStats docs) = List.length docs
  /\ (completedEnrollments (getEnrollmentStats docs)
      <= totalEnrollments (getEnrollmentStats docs))%nat
  /\ (Forall (fun e => Enrollment.progress e = 100) docs ->
      completedEnrollments (getEnrollmentStats docs) = List.length docs).
Proof.
  destruct docs as [|e0 rest]; [repeat split; simpl; auto|].
  unfold getEnrollmentStats, groupAllEnrollments.
  cbn [totalEnrollments completedEnrollments].
  rewrite StatsFacts.completed_count.
  split; [reflexivity|]. split; [apply filter_length_le|].
  intros Hall. f_equal. apply forallb_filter_id.
  apply forallb_forall. intros x Hx. rewrite Forall_forall in Hall.
  apply Z.eqb_eq. now apply Hall.
Qed.

Lemma ratio_bounds (a b : nat) :
  (a <= b)%nat -> (0 < b)%nat ->
  (0 <= inject_Z (Z.of_nat a) / inject_Z (Z.of_nat b) <= 1)%Q.
Proof.
  intros Hab Hb.
  assert (Hpos : (0 < inject_Z (Z.of_nat b))%Q).
  { change 0%Q with (inject_Z 0). rewrite <- Zlt_Qlt. lia. }
  split.
  - apply Qle_shift_div_l; [exact Hpos|]. rewrite Qmult_0_l.
    change 0%Q with (inject_Z 0). rewrite <- Zle_Qle. lia.
  - apply Qle_shift_div_r; [exact Hpos|]. rewrite Qmult_1_l.
    rewrite <- Zle_Qle. lia.
Qed.

Lemma round_percent_bounds (x : Q) :
  (0 <= x <= 1)%Q -> 0 <= Math_round (x * 100) <= 100.
Proof.
  intros [Hlo Hhi]. unfold Math_round.
  assert (Hq0 : (0 <= x * 100 + (1 # 2))%Q) by lra.
  assert (Hq1 : (x * 100 + (1 # 2) <= 201 # 2)%Q) by lra.
  pose proof (Qfloor_resp_le _ _ Hq0) as H0.
  pose proof (Qfloor_resp_le _ _ Hq1) as H1.
  change (Qfloor 0) with 0 in H0.
  change (Qfloor (201 # 2)) with 100 in H1.
  lia.
Qed.

End RateFacts.

(** X15.  The completion rate of the admin dashboard is always a whole
    percentage between 0 and 100, never [NaN] or [Infinity]: with no
    enrollment at all the division 0/0 gives [NaN], which [|| 0] turns
    into 0; and when every enrollment is completed the rate is 100. *)
Theorem dashboardCompletionRate_is_a_percentage :
  forall db : Db,
    exists k : Z,
      dashboardCompletionRate db = JsFinite (inject_Z k)
      /\ 0 <= k <= 100
      /\ (enrollments db = [] -> k = 0)
      /\ (enrollments db <> [] ->
          Forall (fun e => Enrollment.progress e = 100) (enrollments db) ->
          k = 100).
Proof.
  intros db. unfold dashboardCompletionRate.
  destruct (RateFacts.stats_counts (enrollments db))
    as (Htotal & Hle & Hfull).
  set (s := getEnrollmentStats (enrollments db)) in *.
  destruct (totalEnrollments s) as [|t] eqn:Ht.
  - assert (Hc : completedEnrollments s = 0%nat) by lia.
    rewrite Hc. exists 0. simpl.
    split; [reflexivity|]. split; [lia|]. split; [reflexivity|].
    intros Hne _. destruct (enrollments db); [contradiction | discriminate].
  - cbn [jsDivide jsTimes jsRound jsOrZero].
    set (x := (inject_Z (Z.of_nat (completedEnrollments s))
               / inject_Z (Z.of_nat (S t)))%Q).
    assert (Hx : (0 <= x <= 1)%Q)
      by (apply RateFacts.ratio_bounds; lia).
    pose proof (RateFacts.round_percent_bounds x Hx) as Hk.
    assert (Hne0 : enrollments db <> []).
    { intros E. rewrite E in Htotal. simpl in Htotal. lia. }
    assert (Hall : Forall (fun e => Enrollment.progress e = 100)
                          (enrollments db) ->
                   Math_round (x * 100) = 100).
    { intros Hall. unfold x. rewrite (Hfull Hall), <- Htotal.
      unfold Math_round. 
      assert (E : (inject_Z (Z.of_nat (S t)) / inject_Z (Z.of_nat (S t))
                   * 100 + (1 # 2) == 201 # 2)%Q).
      { field. intros H. unfold Qeq in H. simpl in H. lia. }
      rewrite (Qfloor_comp _ _ E). reflexivity. }
    destruct (Qeq_bool (inject_Z (Math_round (x * 100))) 0) eqn:Ez.
    + exists 0. split; [reflexivity|]. split; [lia|].
      split; [intros E; contradiction|].
      intros _ Hfl. apply Hall in Hfl. rewrite Hfl in Ez. discriminate.
    + exists (Math_round (x * 100)).
      split; [reflexivity|]. split; [exact Hk|].
      split; [intros E; contradiction|].
      intros _ Hfl. now apply Hall.
Qed.

(* ================================================================= *)
(** ** Listing one's enrollments *)

Module ListingFacts.

Lemma insert_perm e l : Permutation (insertByLastAccessed e l) (e :: l).
Proof.
  induction l as [|x l IH]; simpl; [apply Permutation_refl|].
  destruct (Enrollment.lastAccessedAt x <=? Enrollment.lastAccessedAt e).
  - apply Permutation_refl.
  - apply perm_trans with (x :: e :: l); [now apply perm_skip|].
    apply perm_swap.
Qed.

Lemma sort_perm l : Permutation (sortByLastAccessedDesc l) l.
Proof.
  induction l as [|x l IH]; simpl; [constructor|].
  apply perm_trans with (x :: sortByLastAccessedDesc l).
  - apply insert_perm.
  - now apply perm_skip.
Qed.

Lemma sort_length l : List.length (sortByLastAccessedDesc l) = List.length l.
Proof. apply Permutation_length, sort_perm. Qed.

Lemma insert_sorted e l :
  StronglySorted accessedNoEarlier l ->
  StronglySorted accessedNoEarlier (insertByLastAccessed e l).
Proof.
  induction 1 as [|x l Hs IH Hx]; simpl.
  - constructor; constructor.
  - destruct (Enrollment.lastAccessedAt x <=? Enrollment.lastAccessedAt e)
      eqn:E.
    + apply Z.leb_le in E. constructor; [now constructor|].
      constructor; [exact E|].
      rewrite Forall_forall in *. intros y Hy.
      specialize (Hx y Hy). unfold accessedNoEarlier in *. lia.
    + apply Z.leb_gt in E. constructor; [exact IH|].
      rewrite Forall_forall in *. intros y Hy.
      apply (Permutation_in _ (insert_perm e l)) in Hy.
      destruct Hy as [<- | Hy]; [unfold accessedNoEarlier; lia|].
      now apply Hx.
Qed.

Lemma sort_sorted l : StronglySorted accessedNoEarlier (sortByLastAccessedDesc l).
Proof.
  induction l as [|x l IH]; simpl; [constructor|].
  now apply insert_sorted.
Qed.

Lemma In_firstn {A : Type} (n : nat) (l : list A) (x : A) :
  In x (firstn n l) -> In x l.
Proof.
  intros H. rewrite <- (firstn_skipn n l). apply in_or_app. now left.
Qed.

Lemma In_skipn {A : Type} (n : nat) (l : list A) (x : A) :
  In x (skipn n l) -> In x l.
Proof.
  intros H. rewrite <- (firstn_skipn n l). apply in_or_app. now right.
Qed.

Lemma sorted_skipn (n : nat) l :
  StronglySorted accessedNoEarlier l ->
  StronglySorted accessedNoEarlier (skipn n l).
Proof.
  revert l. induction n as [|n IH]; intros l Hs; [exact Hs|].
  destruct l as [|x l]; [constructor|]. simpl. apply IH.
  now inversion Hs.
Qed.

Lemma sorted_firstn (n : nat) l :
  StronglySorted accessedNoEarlier l ->
  StronglySorted accessedNoEarlier (firstn n l).
Proof.
  revert l. induction n as [|n IH]; intros l Hs; [constructor|].
  destruct l as [|x l]; [constructor|]. simpl.
  inversion Hs as [|y l' Hs' Hx]; subst. constructor; [now apply IH|].
  rewrite Forall_forall in *. intros y Hy. apply Hx.
  now apply In_firstn in Hy.
Qed.

(** What the page holds, in terms of the sorted matches. *)
Lemma skipLimit_some {A : Type} (skip limit : Z) (l found : list A) :
  skipLimit skip limit l = Some found ->
  0 <= skip
  /\ (found = skipn (Z.to_nat skip) l
      \/ found = firstn (Z.to_nat (Z.abs limit)) (skipn (Z.to_nat skip) l)).
Proof.
  unfold skipLimit. destruct (skip <? 0) eqn:E; [discriminate|].
  apply Z.ltb_ge in E.
  destruct (limit =? 0); intros [= <-]; auto.
Qed.

Lemma orDefault_nonzero parsed d : d <> 0 -> orDefault parsed d <> 0.
Proof.
  intros Hd. destruct parsed as [[|n|n]|]; simpl; try assumption; discriminate.
Qed.

(** Cutting a list into [n] chunks of [k] and gluing them back. *)
Lemma chunks_cover {A : Type} (k : nat) :
  forall (n : nat) (l : list A),
    (List.length l <= n * k)%nat ->
    flat_map (fun i => firstn k (skipn (i * k) l)) (seq 0 n) = l.
Proof.
  induction n as [|n IH]; intros l Hlen.
  - simpl in *. destruct l; [reflexivity | simpl in Hlen; lia].
  - rewrite <- cons_seq, <- seq_shift. simpl flat_map.
    rewrite flat_map_concat_map, map_map, <- flat_map_concat_map.
    transitivity (firstn k l ++ skipn k l); [|apply firstn_skipn].
    f_equal.
    transitivity (flat_map (fun i => firstn k (skipn (i * k) (skipn k l)))
                           (seq 0 n)).
    + apply flat_map_ext. intros i. rewrite skipn_skipn.
      f_equal. f_equal. lia.
    + apply IH. rewrite length_skipn. simpl in Hlen. lia.
Qed.

End ListingFacts.

Module PageFacts.

Lemma skipLimit_limited {A : Type} (skip limit : Z) (l found : list A) :
  limit <> 0 ->
  skipLimit skip limit l = Some found ->
  0 <= skip
  /\ found = firstn (Z.to_nat (Z.abs limit)) (skipn (Z.to_nat skip) l).
Proof.
  intros Hl H. destruct (ListingFacts.skipLimit_some _ _ _ _ H) as [Hs _].
  split; [exact Hs|]. unfold skipLimit in H.
  apply Z.ltb_ge in Hs. rewrite Hs in H.
  apply Z.eqb_neq in Hl. rewrite Hl in H. now injection H as <-.
Qed.

(** What the listing answers when it does answer. *)
Lemma listEnrollments_inr user statusQ isActiveQ pageQ limitQ db pg :
  listEnrollments user statusQ isActiveQ pageQ limitQ db = inr pg ->
  let matches := filter (enrollmentQuery user statusQ isActiveQ)
                        (enrollments db) in
  pageLimit pg = orDefault limitQ 10
  /\ pageNumber pg = orDefault pageQ 1
  /\ pageTotal pg = List.length matches
  /\ pagePages pg
     = Math_ceil (inject_Z (Z.of_nat (List.length matches))
                  / inject_Z (orDefault limitQ 10))
  /\ 0 <= (orDefault pageQ 1 - 1) * orDefault limitQ 10
  /\ pageItems pg
     = firstn (Z.to_nat (Z.abs (orDefault limitQ 10)))
         (skipn (Z.to_nat ((orDefault pageQ 1 - 1) * orDefault limitQ 10))
                (sortByLastAccessedDesc matches)).
Proof.
  intros H matches. unfold listEnrollments in H. fold matches in H.
  destruct (skipLimit _ _ _) as [found|] eqn:Hsl; [|discriminate].
  injection H as <-. cbn [pageLimit pageNumber pageTotal pagePages pageItems].
  apply skipLimit_limited in Hsl as [Hskip ->];
    [|apply ListingFacts.orDefault_nonzero; discriminate].
  do 4 (split; [reflexivity|]). split; [exact Hskip | reflexivity].
Qed.

Lemma enrollmentQuery_true user statusQ isActiveQ e :
  enrollmentQuery user statusQ isActiveQ e = true ->
  Enrollment.student e = user
  /\ (statusQ = Some "completed" -> Enrollment.progress e = 100)
  /\ (statusQ = Some "in-progress" -> Enrollment.progress e < 100)
  /\ (forall s, isActiveQ = Some s ->
                Enrollment.isActive e = String.eqb s "true").
Proof.
  unfold enrollmentQuery. intros H.
  apply andb_true_iff in H as [H Hact].
  apply andb_true_iff in H as [Hown Hstatus].
  apply Nat.eqb_eq in Hown.
  split; [exact Hown|]. split; [|split].
  - intros ->. simpl in Hstatus. now apply Z.eqb_eq.
  - intros ->. simpl in Hstatus. now apply Z.ltb_lt.
  - intros s ->. now apply Bool.eqb_prop.
Qed.

End PageFacts.

(** X16.  The listing shows a requester nobody's enrollments but their own.
    Every item of an answered page is an enrollment of the store that
    belongs to the requester and passes the filters: at 100 for
    [status=completed], below 100 for [status=in-progress], and with
    [isActive] equal to whether the parameter reads ["true"] (so any other
    text lists the inactive ones).  The total counts the matches, and the
    page holds no more items than that, nor than the limit. *)
Theorem listEnrollments_only_own_matching :
  forall (user : ObjectId) (statusQ isActiveQ : option string)
         (pageQ limitQ : option Z) (db : Db) (pg : EnrollmentPage),
    listEnrollments user statusQ isActiveQ pageQ limitQ db = inr pg ->
    (forall e : Enrollment.t,
        In e (pageItems pg) ->
        In e (enrollments db)
        /\ Enrollment.student e = user
        /\ (statusQ = Some "completed" -> Enrollment.progress e = 100)
        /\ (statusQ = Some "in-progress" -> Enrollment.progress e < 100)
        /\ (forall s, isActiveQ = Some s ->
                      Enrollment.isActive e = String.eqb s "true"))
    /\ pageTotal pg
       = List.length (filter (enrollmentQuery user statusQ isActiveQ)
                             (enrollments db))
    /\ (List.length (pageItems pg) <= pageTotal pg)%nat
    /\ Z.of_nat (List.length (pageItems pg)) <= Z.abs (pageLimit pg).
Proof.
  intros user statusQ isActiveQ pageQ limitQ db pg H.
  destruct (PageFacts.listEnrollments_inr _ _ _ _ _ _ _ H)
    as (Hlimit & _ & Htotal & _ & _ & Hitems).
  split; [|split; [exact Htotal|split]].
  - intros e He. rewrite Hitems in He.
    apply ListingFacts.In_firstn, ListingFacts.In_skipn in He.
    apply (Permutation_in _ (ListingFacts.sort_perm _)) in He.
    apply filter_In in He as [Hin Hq].
    split; [exact Hin|]. now apply PageFacts.enrollmentQuery_true.
  - rewrite Htotal, Hitems, length_firstn, length_skipn,
      ListingFacts.sort_length. lia.
  - rewrite Hitems, Hlimit, length_firstn. lia.
Qed.

Lemma listEnrollments_only_own_matching_witness :
  exists pg : EnrollmentPage,
    listEnrollments 7%nat (Some "in-progress") (Some "false") None None
                    sampleDb = inr pg
    /\ pageTotal pg = 1%nat
    /\ forall e, In e (pageItems pg) -> Enrollment.student e = 7%nat.
Proof.
  eexists. split; [reflexivity|]. split; [reflexivity|].
  intros e He.
  destruct (listEnrollments_only_own_matching 7%nat (Some "in-progress")
              (Some "false") None None sampleDb _ eq_refl) as [Hown _].
  apply (Hown e He).
Defined.

(** X17.  An answered page lists the most recently accessed enrollments first. *)
Theorem listEnrollments_most_recent_first :
  forall (user : ObjectId) (statusQ isActiveQ : option string)
         (pageQ limitQ : option Z) (db : Db) (pg : EnrollmentPage),
    listEnrollments user statusQ isActiveQ pageQ limitQ db = inr pg ->
    StronglySorted accessedNoEarlier (pageItems pg).
Proof.
  intros user statusQ isActiveQ pageQ limitQ db pg H.
  destruct (PageFacts.listEnrollments_inr _ _ _ _ _ _ _ H)
    as (_ & _ & _ & _ & _ & ->).
  apply ListingFacts.sorted_firstn, ListingFacts.sorted_skipn,
    ListingFacts.sort_sorted.
Qed.

Lemma listEnrollments_most_recent_first_witness :
  StronglySorted accessedNoEarlier
    (itemsOfPage 7%nat None None None
       (mkDb [sampleCourse]
             [sampleEnrollment;
              Enrollment.defaults 500 2%nat 7%nat 11%nat] []) 1).
Proof.
  apply (listEnrollments_most_recent_first 7%nat None None (Some 1) None
           (mkDb [sampleCourse]
                 [sampleEnrollment;
                  Enrollment.defaults 500 2%nat 7%nat 11%nat] []) _ eq_refl).
Defined.

Module CoverFacts.

Lemma orDefault_some (n d : Z) : n <> 0 -> orDefault (Some n) d = n.
Proof. destruct n; [contradiction | reflexivity | reflexivity]. Qed.

(** The listing for a page from 1 on and a limit from 1 on. *)
Lemma listEnrollments_page user statusQ isActiveQ (p limit : Z) db :
  1 <= p -> 1 <= limit ->
  let matches := filter (enrollmentQuery user statusQ isActiveQ)
                        (enrollments db) in
  listEnrollments user statusQ isActiveQ (Some p) (Some limit) db
  = inr {| pageItems :=
             firstn (Z.to_nat limit)
               (skipn (Z.to_nat (p - 1) * Z.to_nat limit)
                      (sortByLastAccessedDesc matches));
           pageNumber := p;
           pageLimit := limit;
           pageTotal := List.length matches;
           pagePages :=
             Math_ceil (inject_Z (Z.of_nat (List.length matches))
                        / inject_Z limit) |}.
Proof.
  intros Hp Hl matches. unfold listEnrollments. fold matches.
  rewrite !orDefault_some by lia. unfold skipLimit.
  assert (Hs : ((p - 1) * limit <? 0) = false) by (apply Z.ltb_ge; nia).
  assert (Hz : (limit =? 0) = false) by (apply Z.eqb_neq; lia).
  rewrite Hs, Hz.
  rewrite Z.abs_eq by lia. rewrite Z2Nat.inj_mul by lia. reflexivity.
Qed.

Lemma itemsOfPage_page user statusQ isActiveQ (p limit : Z) db :
  1 <= p -> 1 <= limit ->
  itemsOfPage user statusQ isActiveQ (Some limit) db p
  = firstn (Z.to_nat limit)
      (skipn (Z.to_nat (p - 1) * Z.to_nat limit)
         (sortByLastAccessedDesc
            (filter (enrollmentQuery user statusQ isActiveQ)
                    (enrollments db)))).
Proof.
  intros Hp Hl. unfold itemsOfPage.
  now rewrite (listEnrollments_page user statusQ isActiveQ p limit db Hp Hl).
Qed.

End CoverFacts.

(** X18.  Paging loses nothing and repeats nothing.  With a limit of at least
    one, every page from 1 on is answered and reports the same number of
    pages, the least one whose capacity covers the total; when no two of
    the requester's matching enrollments were last accessed at the same
    instant, so that the sort leaves no choice, the pages 1 to that
    number, put end to end, are exactly those enrollments, most recently
    accessed first; every later page is empty.  A negative page number is
    answered 500. *)
Theorem listEnrollments_pages_cover :
  forall (user : ObjectId) (statusQ isActiveQ : option string) (limit : Z)
         (db : Db),
    1 <= limit ->
    let all := sortByLastAccessedDesc
                 (filter (enrollmentQuery user statusQ isActiveQ)
                         (enrollments db)) in
    let total := Z.of_nat (List.length all) in
    let pages := Math_ceil (inject_Z total / inject_Z limit) in
    (forall p : Z,
        1 <= p ->
        exists pg : EnrollmentPage,
          listEnrollments user statusQ isActiveQ (Some p) (Some limit) db
            = inr pg
          /\ pageNumber pg = p
          /\ pagePages pg = pages
          /\ Z.of_nat (pageTotal pg) = total)
    /\ (pages - 1) * limit < total <= pages * limit
    /\ (NoDup (map Enrollment.lastAccessedAt all) ->
        flat_map (itemsOfPage user statusQ isActiveQ (Some limit) db)
                 (map (fun i => Z.of_nat (S i)) (seq 0 (Z.to_nat pages)))
        = all)
    /\ (forall p : Z,
          pages < p ->
          itemsOfPage user statusQ isActiveQ (Some limit) db p = [])
    /\ (forall p : Z,
          p < 0 ->
          listEnrollments user statusQ isActiveQ (Some p) (Some limit) db
            = inl server_error).
Proof.
  intros user statusQ isActiveQ limit db Hl all total pages.
  pose proof (StatsFacts.Math_ceil_bounds total limit ltac:(lia)) as Hb.
  fold pages in Hb.
  assert (Htot : total = Z.of_nat
                           (List.length
                              (filter (enrollmentQuery user statusQ isActiveQ)
                                      (enrollments db)))).
  { unfold total, all. now rewrite ListingFacts.sort_length. }
  assert (Hpages0 : 0 <= pages) by (unfold total in *; nia).
  split; [|split; [exact Hb|split; [|split]]].
  - intros p Hp. eexists. split.
    + apply CoverFacts.listEnrollments_page; assumption.
    + cbn [pageNumber pagePages pageTotal].
      split; [reflexivity|]. split; [|now rewrite Htot].
      unfold pages. now rewrite Htot.
  - intros _.
    rewrite flat_map_concat_map, map_map, <- flat_map_concat_map.
    transitivity (flat_map
                    (fun i => firstn (Z.to_nat limit)
                                (skipn (i * Z.to_nat limit) all))
                    (seq 0 (Z.to_nat pages))).
    + apply flat_map_ext. intros i.
      rewrite CoverFacts.itemsOfPage_page by lia.
      fold all.
      replace (Z.to_nat (Z.of_nat (S i) - 1)) with i by lia.
      reflexivity.
    + apply ListingFacts.chunks_cover. unfold total in Hb. nia.
  - intros p Hp. rewrite CoverFacts.itemsOfPage_page by lia. fold all.
    rewrite skipn_all2; [now destruct (Z.to_nat limit)|].
    unfold total in Hb. nia.
  - intros p Hp. unfold listEnrollments.
    rewrite !CoverFacts.orDefault_some by lia. unfold skipLimit.
    assert (Hs : ((p - 1) * limit <? 0) = true) by (apply Z.ltb_lt; nia).
    now rewrite Hs.
Qed.

Lemma listEnrollments_pages_cover_witness :
  (1 <= 1)
  /\ flat_map (itemsOfPage 7%nat None None (Some 1)
                 (mkDb [sampleCourse]
                       [sampleEnrollment;
                        Enrollment.defaults 500 2%nat 7%nat 11%nat] []))
              [1; 2]
     = [Enrollment.defaults 500 2%nat 7%nat 11%nat; sampleEnrollment].
Proof.
  split; [lia|].
  destruct (listEnrollments_pages_cover 7%nat None None 1
              (mkDb [sampleCourse]
                    [sampleEnrollment;
                     Enrollment.defaults 500 2%nat 7%nat 11%nat] []))
    as (_ & _ & Hcover & _); [lia|].
  apply Hcover. simpl.
  constructor; [intros [H|[]]; discriminate H|].
  constructor; [intros []|constructor].
Defined.

(* ================================================================= *)
(** ** Deleting a course *)

Module CourseFacts.

Lemma course_findById_id id cs c : Course.findById id cs = Some c -> Course._id c = id.
Proof. intros H. apply find_some in H. now apply Nat.eqb_eq. Qed.

Lemma findById_deactivated id cs c :
  Course.findById id cs = Some c ->
  Course.findById id (deactivateCourse id cs)
  = Some (Course.mk (Course._id c) (Course.title c) false).
Proof.
  unfold Course.findById.
  induction cs as [|x cs IH]; simpl; [discriminate|].
  destruct (Nat.eqb (Course._id x) id) eqn:E; simpl.
  - intros [= ->]. now rewrite E.
  - rewrite E. exact IH.
Qed.

Lemma deactivate_length id cs :
  List.length (deactivateCourse id cs) = List.length cs.
Proof.
  induction cs as [|x cs IH]; simpl; [reflexivity|].
  destruct (Nat.eqb (Course._id x) id); simpl; congruence.
Qed.

(** Deactivating one course leaves the lookup of every other identifier
    as it was. *)
Lemma findById_deactivate_other id id' cs :
  id' <> id ->
  Course.findById id' (deactivateCourse id cs) = Course.findById id' cs.
Proof.
  intros Hne. unfold Course.findById.
  induction cs as [|x cs IH]; simpl; [reflexivity|].
  destruct (Nat.eqb (Course._id x) id) eqn:E; simpl.
  - apply Nat.eqb_eq in E.
    assert (E' : Nat.eqb (Course._id x) id' = false)
      by (apply Nat.eqb_neq; congruence).
    now rewrite E'.
  - destruct (Nat.eqb (Course._id x) id'); [reflexivity | exact IH].
Qed.

Lemma course_remove_length id cs c :
  Course.findById id cs = Some c ->
  S (List.length (removeCourse id cs)) = List.length cs.
Proof.
  unfold Course.findById.
  induction cs as [|x cs IH]; simpl; [discriminate|].
  destruct (Nat.eqb (Course._id x) id); simpl; [reflexivity|].
  intros H. now rewrite (IH H).
Qed.

Lemma findById_removed id cs :
  NoDup (map Course._id cs) -> Course.findById id (removeCourse id cs) = None.
Proof.
  unfold Course.findById.
  induction cs as [|x cs IH]; simpl; [reflexivity|].
  intros Hnd. inversion Hnd as [|y l Hnotin Hnd']; subst.
  destruct (Nat.eqb (Course._id x) id) eqn:E; simpl.
  - apply Nat.eqb_eq in E. subst id.
    destruct (find _ cs) as [y|] eqn:F; [|reflexivity].
    apply find_some in F as [Hin Hy]. apply Nat.eqb_eq in Hy.
    exfalso. apply Hnotin. rewrite <- Hy. now apply in_map.
  - rewrite E. now apply IH.
Qed.

Lemma count_positive cid docs :
  (0 < countEnrollmentsOf cid docs)%nat <->
  exists e, In e docs /\ Enrollment.course e = cid.
Proof.
  unfold countEnrollmentsOf. split.
  - intros Hpos.
    destruct (filter _ docs) as [|e l] eqn:F; [simpl in Hpos; lia|].
    assert (Hin : In e (filter (fun e => Nat.eqb (Enrollment.course e) cid)
                               docs)) by (rewrite F; now left).
    apply filter_In in Hin as [Hin He]. apply Nat.eqb_eq in He. eauto.
  - intros (e & Hin & He).
    assert (Hf : In e (filter (fun e => Nat.eqb (Enrollment.course e) cid)
                              docs)).
    { apply filter_In. split; [exact Hin|]. now apply Nat.eqb_eq. }
    destruct (filter _ docs); [contradiction | simpl; lia].
Qed.

End CourseFacts.

(** X19.  A course is removed only when no enrollment refers to it.  As soon as
    one does, active or not, the course stays in the catalogue and is
    merely made inactive, and no enrollment or review is touched.  A
    course without any enrollment leaves the catalogue, and with it every
    review of that course and no other review; the enrollments are left
    alone.  An unknown course is answered 404. *)
Theorem deleteCourse_keeps_enrolled_courses :
  forall (id : ObjectId) (db : Db),
    (Course.findById id (courses db) = None ->
     deleteCourse id db = (course_missing, db))
    /\ (forall c : Course.t,
          Course.findById id (courses db) = Some c ->
          (exists e, In e (enrollments db) /\ Enrollment.course e = id) ->
          fst (deleteCourse id db) = course_deactivated
          /\ enrollments (snd (deleteCourse id db)) = enrollments db
          /\ reviews (snd (deleteCourse id db)) = reviews db
          /\ List.length (courses (snd (deleteCourse id db)))
             = List.length (courses db)
          /\ Course.findById id (courses (snd (deleteCourse id db)))
             = Some (Course.mk id (Course.title c) false))
    /\ (forall c : Course.t,
          Course.findById id (courses db) = Some c ->
          (forall e, In e (enrollments db) -> Enrollment.course e <> id) ->
          fst (deleteCourse id db) = course_deleted
          /\ enrollments (snd (deleteCourse id db)) = enrollments db
          /\ S (List.length (courses (snd (deleteCourse id db))))
             = List.length (courses db)
          /\ (forall r : Review.t,
                In r (reviews (snd (deleteCourse id db)))
                <-> In r (reviews db) /\ Review.course r <> id)).
Proof.
  intros id db. split; [|split].
  - intros Hnone. unfold deleteCourse. now rewrite Hnone.
  - intros c Hfind Hsome.
    pose proof (CourseFacts.course_findById_id _ _ _ Hfind) as Hid.
    apply CourseFacts.count_positive in Hsome.
    apply Nat.ltb_lt in Hsome.
    unfold deleteCourse. rewrite Hfind, Hid, Hsome. simpl.
    split; [reflexivity|]. split; [reflexivity|]. split; [reflexivity|].
    split; [apply CourseFacts.deactivate_length|].
    rewrite (CourseFacts.findById_deactivated _ _ _ Hfind). now rewrite Hid.
  - intros c Hfind Hnone.
    pose proof (CourseFacts.course_findById_id _ _ _ Hfind) as Hid.
    assert (Hzero : (0 <? countEnrollmentsOf id (enrollments db))%nat = false).
    { apply Nat.ltb_ge.
      destruct (Nat.eq_dec (countEnrollmentsOf id (enrollments db)) 0)
        as [->|Hpos]; [lia|].
      exfalso.
      assert (Hp : (0 < countEnrollmentsOf id (enrollments db))%nat) by lia.
      apply CourseFacts.count_positive in Hp as (e & Hin & He).
      now apply (Hnone e Hin). }
    unfold deleteCourse. rewrite Hfind, Hid, Hzero. simpl.
    split; [reflexivity|]. split; [reflexivity|].
    split; [now apply CourseFacts.course_remove_length with (c := c)|].
    intros r. unfold deleteReviewsOf. rewrite filter_In.
    rewrite negb_true_iff, Nat.eqb_neq. tauto.
Qed.

Lemma deleteCourse_keeps_enrolled_courses_witness :
  Enrollment.isActive sampleEnrollment = false
  /\ fst (deleteCourse 10%nat sampleDb) = course_deactivated
  /\ Course.findById 10%nat (courses (snd (deleteCourse 10%nat sampleDb)))
     = Some (Course.mk 10%nat "React Basics" false).
Proof.
  split; [reflexivity|].
  destruct (deleteCourse_keeps_enrolled_courses 10%nat sampleDb)
    as (_ & Hsoft & _).
  destruct (Hsoft sampleCourse eq_refl) as (Hres & _ & _ & _ & Hfind).
  - exists sampleEnrollment. split; [left; reflexivity | reflexivity].
  - split; [exact Hres | exact Hfind].
Defined.

(** X20.  Once a course has been through deletion, deactivated or removed, with
    identifiers that are unique in the catalogue, nobody enrolls in it or
    reviews it any more: both requests are answered 404 and change
    nothing. *)
Theorem deleted_course_refuses_enrollments_and_reviews :
  forall (id : ObjectId) (db : Db) (c : Course.t)
         (now : Date) (oid user : ObjectId) (stars : Z) (text : string),
    Course.findById id (courses db) = Some c ->
    NoDup (map Course._id (courses db)) ->
    let db' := snd (deleteCourse id db) in
    courseUsable id db' = false
    /\ handle (EnrollmentRoutes.enroll now oid user (Some id)) db'
       = (EnrollmentRoutes.course_not_found, db')
    /\ handle (ReviewRoutes.createReview oid user id stars text) db'
       = (ReviewRoutes.course_not_found, db').
Proof.
  intros id db c now oid user stars text Hfind Hnd db'.
  pose proof (CourseFacts.course_findById_id _ _ _ Hfind) as Hid.
  assert (Hbad : courseUsable id db' = false).
  { unfold db', deleteCourse, courseUsable. rewrite Hfind, Hid.
    destruct (0 <? countEnrollmentsOf id (enrollments db))%nat; simpl.
    - now rewrite (CourseFacts.findById_deactivated _ _ _ Hfind).
    - now rewrite CourseFacts.findById_removed. }
  split; [exact Hbad|]. unfold courseUsable in Hbad.
  split.
  - unfold handle, EnrollmentRoutes.enroll. simpl.
    destruct (Course.findById id (courses db')) as [c'|]; simpl;
      [|reflexivity].
    now rewrite Hbad.
  - unfold handle, ReviewRoutes.createReview. simpl.
    destruct (Course.findById id (courses db')) as [c'|]; simpl;
      [|reflexivity].
    now rewrite Hbad.
Qed.

Lemma deleted_course_refuses_enrollments_and_reviews_witness :
  NoDup (map Course._id (courses sampleDb))
  /\ handle (EnrollmentRoutes.enroll 900 9%nat 8%nat (Some 10%nat))
            (snd (deleteCourse 10%nat sampleDb))
     = (EnrollmentRoutes.course_not_found, snd (deleteCourse 10%nat sampleDb)).
Proof.
  assert (Hnd : NoDup (map Course._id (courses sampleDb))).
  { constructor; [intros [] | constructor]. }
  split; [exact Hnd|].
  apply (deleted_course_refuses_enrollments_and_reviews 10%nat sampleDb
           sampleCourse 900 9%nat 8%nat 5 "unused" eq_refl Hnd).
Defined.

(* ================================================================= *)
(** ** The mock summary of a note *)

Module SummaryFacts.

Lemma splitOn_nonempty sep s : splitOn sep s <> [].
Proof.
  destruct s as [|c s]; simpl; [discriminate|].
  destruct (Ascii.eqb c sep); [discriminate|].
  destruct (splitOn sep s); discriminate.
Qed.

(** Splitting around one more separator. *)
Lemma splitOn_app sep a b :
  splitOn sep (a ++ String sep b)%string = splitOn sep a ++ splitOn sep b.
Proof.
  induction a as [|c a IH]; simpl.
  - now rewrite Ascii.eqb_refl.
  - destruct (Ascii.eqb c sep); [now rewrite IH|].
    rewrite IH. pose proof (splitOn_nonempty sep a) as Hne.
    destruct (splitOn sep a) as [|w ws]; [contradiction | reflexivity].
Qed.

Lemma sentencesOf_app a b :
  sentencesOf (a ++ String "." b)%string = sentencesOf a ++ sentencesOf b.
Proof.
  unfold sentencesOf. now rewrite splitOn_app, filter_app.
Qed.

Lemma firstn_app_enough {A : Type} (n : nat) (l l' : list A) :
  (n <= List.length l)%nat -> firstn n (l ++ l') = firstn n l.
Proof.
  intros Hn. rewrite firstn_app.
  replace (n - List.length l)%nat with 0%nat by lia.
  simpl. apply app_nil_r.
Qed.

End SummaryFacts.

(** X21.  The mock summary reads the first three sentences of a note and
    nothing else: once a note has three non-blank sentences, whatever
    follows after a further full stop does not change its summary.  A
    note without any non-blank sentence gets the bare frame. *)
Theorem generateMockSummary_reads_three_sentences :
  forall content : string,
    ((3 <= List.length (sentencesOf content))%nat ->
     forall rest : string,
       generateMockSummary (content ++ String "." rest)%string
       = generateMockSummary content)
    /\ (sentencesOf content = [] ->
        generateMockSummary content
        = "Key Points: . This summary was generated using AI to highlight the main concepts from your notes.").
Proof.
  intros content. split.
  - intros Hthree rest. unfold generateMockSummary.
    rewrite SummaryFacts.sentencesOf_app.
    now rewrite SummaryFacts.firstn_app_enough.
  - intros Hnone. unfold generateMockSummary. now rewrite Hnone.
Qed.

Lemma generateMockSummary_reads_three_sentences_witness :
  (3 <= List.length (sentencesOf "Sets. Maps. Folds"))%nat
  /\ generateMockSummary "Sets. Maps. Folds. And a lot more. Really."
     = generateMockSummary "Sets. Maps. Folds".
Proof.
  split; [simpl; lia|].
  destruct (generateMockSummary_reads_three_sentences "Sets. Maps. Folds")
    as [Hrest _].
  apply (Hrest ltac:(simpl; lia) " And a lot more. Really.").
Defined.

(* ================================================================= *)
(** ** Requests that overlap *)

Module RaceFacts.

Import Enrollment EnrollmentRoutes.

Lemma preSave_keyOf now e : keyOf (preSave now e) = keyOf e.
Proof.
  unfold keyOf. now rewrite ProgressFacts.preSave_id, ReachFacts.preSave_pairOf.
Qed.

Lemma keyOf_id e d : keyOf e = keyOf d -> _id e = _id d.
Proof. unfold keyOf. congruence. Qed.

Lemma keyOf_pair e d : keyOf e = keyOf d -> pairOf e = pairOf d.
Proof. unfold keyOf. congruence. Qed.

Lemma key_stored e docs :
  In (keyOf e) (map keyOf docs) ->
  exists d, In d docs /\ _id e = _id d /\ pairOf e = pairOf d.
Proof.
  intros H. apply in_map_iff in H as (d & Hk & Hd).
  exists d. split; [exact Hd|].
  split; [now apply keyOf_id | now apply keyOf_pair].
Qed.

(** Overwriting a document whose key is stored leaves the keys of the
    collection as they were. *)
Lemma replace_keys e' docs :
  NoDup (map _id docs) -> In (keyOf e') (map keyOf docs) ->
  map keyOf (replace e' docs) = map keyOf docs.
Proof.
  induction docs as [|a docs IH]; simpl; [reflexivity|].
  intros Hnd Hin. inversion Hnd as [|x l Hnotin Hnd']; subst.
  destruct (Nat.eqb (_id a) (_id e')) eqn:E; simpl.
  - f_equal. destruct Hin as [H|H]; [now symmetry|].
    exfalso. apply Nat.eqb_eq in E. apply Hnotin. rewrite E.
    apply key_stored in H as (d & Hd & Hid & _).
    rewrite Hid. now apply in_map.
  - f_equal. apply IH; [exact Hnd'|].
    destruct Hin as [H|H]; [|exact H].
    apply Nat.eqb_neq in E. exfalso. apply E. now apply keyOf_id.
Qed.

Lemma keys_ids docs : map fst (map keyOf docs) = map _id docs.
Proof. rewrite map_map. reflexivity. Qed.

Lemma keys_pairs docs : map snd (map keyOf docs) = map pairOf docs.
Proof. rewrite map_map. reflexivity. Qed.

Lemma findById_stored id docs x :
  findById id docs = x -> forall e, x = Some e -> In (keyOf e) (map keyOf docs).
Proof.
  intros <- e H. apply in_map. now apply find_some in H.
Qed.

Lemma findOne_stored s c docs x :
  findOne s c docs = x -> forall e, x = Some e -> In (keyOf e) (map keyOf docs).
Proof.
  intros <- e H. apply in_map. now apply find_some in H.
Qed.

Lemma findOneActive_stored s c docs x :
  findOneActive s c docs = x ->
  forall e, x = Some e -> In (keyOf e) (map keyOf docs).
Proof.
  intros <- e H. apply in_map. now apply find_some in H.
Qed.

(** A tracked handler stays tracked when other requests add keys. *)
Lemma tracked_mono (p : Prog Response) own K K' :
  incl K K' -> tracked p own K -> tracked p own K'.
Proof.
  intros Hincl. destruct p as [r | X op k]; simpl; [trivial|].
  destruct op; simpl;
    try (intros H K2 x Hincl2; apply H; now apply incl_tran with K').
  - intros [Hin H]. split; [now apply Hincl|].
    intros K2 x Hincl2. apply H. now apply incl_tran with K'.
  - intros [Hown H]. split; [exact Hown|].
    intros K2 x Hincl2. apply H. now apply incl_tran with K'.
Qed.

(** One awaited call of a tracked handler: both indexes still hold, the
    handler is tracked from there on, keys are only added, and the only
    identifier that may have come into use is the one of the request. *)
Lemma exec_tracked {X : Type} (op : DbOp X) (k : X -> Prog Response)
      own db x db' :
  ids_unique (enrollments db) -> pairs_unique (enrollments db) ->
  unusedId own db ->
  tracked (Await op k) own (keys db) ->
  exec op db = inr (x, db') ->
  exists own',
    ids_unique (enrollments db') /\ pairs_unique (enrollments db')
    /\ tracked (k x) own' (keys db')
    /\ unusedId own' db'
    /\ (own' = own \/ own' = None)
    /\ incl (keys db) (keys db')
    /\ (forall o, ~ In o (map _id (enrollments db)) -> own <> Some o ->
                  ~ In o (map _id (enrollments db'))).
Proof.
  intros Hids Hpairs Hfresh Htr Hexec.
  assert (Hsame : forall own0 : option ObjectId,
             own0 = own ->
             tracked (k x) own0 (keys db) ->
             db' = db ->
             exists own',
               ids_unique (enrollments db') /\ pairs_unique (enrollments db')
               /\ tracked (k x) own' (keys db')
               /\ unusedId own' db'
               /\ (own' = own \/ own' = None)
               /\ incl (keys db) (keys db')
               /\ (forall o, ~ In o (map _id (enrollments db)) ->
                             own <> Some o ->
                             ~ In o (map _id (enrollments db')))).
  { intros own0 -> Hk ->. exists own.
    repeat split; auto using incl_refl. }
  destruct op; simpl in Htr, Hexec.
  - (* CourseFindById *)
    injection Hexec as <- <-. apply (Hsame own eq_refl); [|reflexivity].
    apply Htr. apply incl_refl.
  - (* EnrollmentFindById *)
    injection Hexec as Hx <-. apply (Hsame own eq_refl); [|reflexivity].
    apply Htr; [apply incl_refl|]. now apply findById_stored with (id := id).
  - (* EnrollmentFindOne *)
    injection Hexec as Hx <-. apply (Hsame own eq_refl); [|reflexivity].
    apply Htr; [apply incl_refl|].
    now apply findOne_stored with (s := s) (c := c).
  - (* EnrollmentFindOneActive *)
    injection Hexec as Hx <-. apply (Hsame own eq_refl); [|reflexivity].
    apply Htr; [apply incl_refl|].
    now apply findOneActive_stored with (s := s) (c := c).
  - (* EnrollmentSave *)
    destruct Htr as [Hin Hk].
    destruct (save_doc now e) as [e'|] eqn:Hs; [|discriminate].
    injection Hexec as <- <-.
    apply EnrollmentFacts.save_doc_some in Hs as [_ ->].
    assert (Hin' : In (keyOf (preSave now e)) (map keyOf (enrollments db)))
      by (rewrite preSave_keyOf; exact Hin).
    assert (Hkeys : keys (set_enrollments
                            (replace (preSave now e) (enrollments db)) db)
                    = keys db)
      by (unfold keys; simpl; now apply replace_keys).
    exists own. unfold ids_unique, pairs_unique, unusedId in *. simpl.
    rewrite <- !keys_ids, <- !keys_pairs.
    unfold keys in Hkeys. simpl in Hkeys. rewrite !Hkeys.
    rewrite !keys_ids, !keys_pairs.
    split; [exact Hids|]. split; [exact Hpairs|].
    split.
    { apply Hk; [unfold keys; simpl; rewrite Hkeys; apply incl_refl|].
      unfold keys; simpl. rewrite Hkeys. exact Hin'. }
    split; [exact Hfresh|]. split; [now left|].
    split; [unfold keys; simpl; rewrite Hkeys; apply incl_refl|].
    auto.
  - (* EnrollmentCreate *)
    destruct Htr as [Hown Hk].
    destruct (save_doc now (defaults now oid s c)) as [e'|] eqn:Hs;
      [|discriminate].
    destruct (violatesUnique s c (enrollments db)) eqn:Hv; [discriminate|].
    injection Hexec as <- <-.
    apply EnrollmentFacts.save_doc_some in Hs as [_ ->].
    assert (Hnone : findOne s c (enrollments db) = None)
      by (now apply find_none_existsb).
    assert (Hkey : keyOf (preSave now (defaults now oid s c)) = (oid, (s, c)))
      by (now rewrite preSave_keyOf).
    exists None. unfold ids_unique, pairs_unique, unusedId in *. simpl.
    split.
    { rewrite map_app. apply NoDup_app; [exact Hids | |].
      - simpl. constructor; [intros [] | constructor].
      - intros a Ha [<-|[]]. apply (Hfresh oid Hown).
        now rewrite ProgressFacts.preSave_id in Ha. }
    split.
    { apply EnrollFacts.pairs_unique_app with (s := s) (c := c);
        try assumption.
      - reflexivity.
      - reflexivity. }
    split.
    { apply Hk.
      - unfold keys. simpl. rewrite map_app. now apply incl_appl, incl_refl.
      - unfold keys. simpl. rewrite map_app. apply in_or_app. right.
        now left. }
    split; [discriminate|]. split; [now right|].
    split.
    { unfold keys. simpl. rewrite map_app. now apply incl_appl, incl_refl. }
    intros o Ho Hne. rewrite map_app. intros Hin.
    apply in_app_or in Hin as [Hin|[Hin|[]]]; [now apply Ho|].
    rewrite ProgressFacts.preSave_id in Hin. simpl in Hin. congruence.
  - (* ReviewFindById *)
    injection Hexec as <- <-. apply (Hsame own eq_refl); [|reflexivity].
    apply Htr. apply incl_refl.
  - (* ReviewFindOne *)
    injection Hexec as <- <-. apply (Hsame own eq_refl); [|reflexivity].
    apply Htr. apply incl_refl.
  - (* ReviewCreate *)
    injection Hexec as <- <-. exists own.
    repeat split; auto using incl_refl.
  - (* ReviewSave *)
    injection Hexec as <- <-. exists own.
    repeat split; auto using incl_refl.
  - (* ReviewFindByIdAndDelete *)
    injection Hexec as <- <-. exists own.
    repeat split; auto using incl_refl.
  - (* ReviewAggregate *)
    injection Hexec as <- <-. apply (Hsame own eq_refl); [|reflexivity].
    apply Htr. apply incl_refl.
Qed.

(** Resuming a tracked request once. *)
Lemma step_tracked (t t' : Thread) own db db' :
  ids_unique (enrollments db) -> pairs_unique (enrollments db) ->
  unusedId own db -> thread_tracked t own db ->
  step t db = (t', db') ->
  exists own',
    ids_unique (enrollments db') /\ pairs_unique (enrollments db')
    /\ thread_tracked t' own' db'
    /\ unusedId own' db'
    /\ (own' = own \/ own' = None)
    /\ incl (keys db) (keys db')
    /\ (forall o, ~ In o (map _id (enrollments db)) -> own <> Some o ->
                  ~ In o (map _id (enrollments db'))).
Proof.
  intros Hids Hpairs Hfresh Htr Hstep.
  destruct t as [[r | X op k] | r]; simpl in Hstep.
  - injection Hstep as <- <-. exists own.
    repeat split; simpl; auto using incl_refl.
  - destruct (exec op db) as [err | [x db1]] eqn:Hexec.
    + injection Hstep as <- <-. exists own.
      repeat split; simpl; auto using incl_refl.
    + injection Hstep as <- <-.
      exact (exec_tracked op k own db x db1 Hids Hpairs Hfresh Htr Hexec).
  - injection Hstep as <- <-. exists own.
    repeat split; simpl; auto using incl_refl.
Qed.

Lemma thread_tracked_mono (t : Thread) own db db' :
  incl (keys db) (keys db') ->
  thread_tracked t own db -> thread_tracked t own db'.
Proof.
  destruct t as [p | r]; simpl; [|trivial].
  intros Hincl. now apply tracked_mono.
Qed.

(** Two tracked requests in flight, whatever the schedule. *)
Lemma interleave_tracked (sched : list bool) :
  forall (a b : Thread) (owna ownb : option ObjectId) (db : Db),
    ids_unique (enrollments db) -> pairs_unique (enrollments db) ->
    thread_tracked a owna db -> thread_tracked b ownb db ->
    unusedId owna db -> unusedId ownb db ->
    (forall o, owna = Some o -> ownb <> Some o) ->
    ids_unique (enrollments (snd (interleave sched a b db)))
    /\ pairs_unique (enrollments (snd (interleave sched a b db))).
Proof.
  induction sched as [|w sched IH];
    intros a b owna ownb db Hids Hpairs Ha Hb Hfa Hfb Hne; simpl;
    [now split|].
  destruct w.
  - destruct (step b db) as [b' db'] eqn:Hstep.
    destruct (step_tracked b b' ownb db db' Hids Hpairs Hfb Hb Hstep)
      as (own' & Hids' & Hpairs' & Hb' & Hfb' & Hown & Hincl & Hnew).
    apply (IH a b' owna own' db'); try assumption.
    + now apply thread_tracked_mono with db.
    + intros o Ho. apply Hnew; [now apply Hfa|].
      intros Hb0. exact (Hne o Ho Hb0).
    + intros o Ho. destruct Hown as [-> | ->]; [now apply Hne|discriminate].
  - destruct (step a db) as [a' db'] eqn:Hstep.
    destruct (step_tracked a a' owna db db' Hids Hpairs Hfa Ha Hstep)
      as (own' & Hids' & Hpairs' & Ha' & Hfa' & Hown & Hincl & Hnew).
    apply (IH a' b own' ownb db'); try assumption.
    + now apply thread_tracked_mono with db.
    + intros o Ho. apply Hnew; [now apply Hfb|].
      intros Ha0. exact (Hne o Ha0 Ho).
    + intros o Ho. destruct Hown as [-> | ->]; [now apply Hne|discriminate].
Qed.

(** Every handler of the API is tracked: what it saves it has read from
    the collection, and only an enroll request creates, once, under its
    own identifier. *)
Lemma api_tracked (q : Request) (K : list Key) :
  tracked (api q) (newId q) K.
Proof.
  destruct q as [now oid user courseId | now user id prog cmi | now user id
                | oid user courseId stars text | user id stars text
                | user role id | id | now reporter id reason | id action];
    simpl.
  - (* Enroll *)
    destruct courseId as [cid|]; simpl; [|exact I].
    intros K1 course _. destruct course as [c|]; simpl; [|exact I].
    destruct (Course.isActive c); simpl; [|exact I].
    intros K2 existing _ Hknown. destruct existing as [e|]; simpl.
    + destruct (isActive e); simpl; [exact I|].
      split; [exact (Hknown e eq_refl)|]. intros; exact I.
    + split; [reflexivity|]. intros K3 x _ _. simpl. intros; exact I.
  - (* UpdateProgress *)
    destruct prog as [p|]; simpl; [|exact I].
    destruct ((p <? 0) || (p >? 100)); simpl; [exact I|].
    intros K1 enrollment _ Hknown. destruct enrollment as [e|]; simpl;
      [|exact I].
    destruct (Nat.eqb (student e) user); simpl; [|exact I].
    split.
    { pose proof (Hknown e eq_refl) as Hin. unfold keyOf in *.
      now rewrite ProgressFacts.addCompletedModule_id,
                  ReachFacts.addCompletedModule_pairOf. }
    intros K2 saved _ _. simpl. intros; exact I.
  - (* Unenroll *)
    intros K1 enrollment _ Hknown. destruct enrollment as [e|]; simpl;
      [|exact I].
    destruct (Nat.eqb (student e) user); simpl; [|exact I].
    split; [exact (Hknown e eq_refl)|]. intros; exact I.
  - (* CreateReview *)
    unfold ReviewRoutes.createReviewRoute.
    destruct (validateReviewCreation stars text); simpl; [|exact I].
    intros K1 course _. destruct course as [c|]; simpl; [|exact I].
    destruct (Course.isActive c); simpl; [|exact I].
    intros K2 enrollment _ _. destruct enrollment as [e|]; simpl; [|exact I].
    intros K3 existing _. destruct existing as [r|]; simpl; [exact I|].
    intros K4 review _. simpl. intros; exact I.
  - (* UpdateReview *)
    destruct (validateReviewCreation stars text); simpl; [|exact I].
    intros K1 review _. destruct review as [r|]; simpl; [|exact I].
    destruct (Nat.eqb (Review.student r) user); simpl; [|exact I].
    intros K2 saved _. simpl. intros; exact I.
  - (* DeleteReview *)
    intros K1 review _. destruct review as [r|]; simpl; [|exact I].
    destruct (negb (Nat.eqb (Review.student r) user)
              && negb (String.eqb role "admin")); simpl; [exact I|].
    intros; exact I.
  - (* MarkHelpful *)
    intros K1 review _. destruct review as [r|]; simpl; [|exact I].
    intros; exact I.
  - (* ReportReview *)
    destruct reason as [s|]; simpl; [|exact I].
    destruct (Nat.eqb (String.length s) 0
              || Nat.eqb (String.length (trim s)) 0); simpl; [exact I|].
    intros K1 review _. destruct review as [r|]; simpl; [|exact I].
    destruct (find _ (Review.reportedBy r)); simpl; [exact I|].
    intros; exact I.
  - (* ModerateReview *)
    unfold AdminRoutes.moderateReview.
    destruct (negb _); simpl; [exact I|].
    intros K1 review _. destruct review as [r|]; simpl; [|exact I].
    intros; exact I.
Qed.

End RaceFacts.

(** X22.  Two requests in flight at once, resumed in any order, never break
    the two indexes of the enrollment collection: when identifiers and
    (student, course) pairs are unique before, and the identifiers the
    requests bring for a new enrollment are unused and differ from each
    other, then identifiers and pairs are unique after every schedule,
    whether or not the requests have been answered yet. *)
Theorem overlapping_requests_keep_enrollments_unique :
  forall (q1 q2 : Request) (sched : list bool) (db : Db),
    ids_unique (enrollments db) ->
    pairs_unique (enrollments db) ->
    freshFor db q1 -> freshFor db q2 ->
    (forall o, newId q1 = Some o -> newId q2 <> Some o) ->
    ids_unique
      (enrollments
         (snd (interleave sched (Pending (api q1)) (Pending (api q2)) db)))
    /\ pairs_unique
         (enrollments
            (snd (interleave sched (Pending (api q1)) (Pending (api q2)) db))).
Proof.
  intros q1 q2 sched db Hids Hpairs Hf1 Hf2 Hne.
  apply (RaceFacts.interleave_tracked sched _ _ (newId q1) (newId q2));
    try assumption.
  - apply RaceFacts.api_tracked.
  - apply RaceFacts.api_tracked.
  - intros o Ho. destruct q1; try discriminate.
    injection Ho as ->. exact Hf1.
  - intros o Ho. destruct q2; try discriminate.
    injection Ho as ->. exact Hf2.
Qed.

Lemma overlapping_requests_keep_enrollments_unique_witness :
  ids_unique
    (enrollments (snd (interleave raceSchedule raceFirst raceSecond raceDb)))
  /\ pairs_unique
       (enrollments (snd (interleave raceSchedule raceFirst raceSecond raceDb))).
Proof.
  apply (overlapping_requests_keep_enrollments_unique
           (Enroll 1000 1%nat 7%nat (Some 10%nat))
           (Enroll 1001 2%nat 7%nat (Some 10%nat))
           raceSchedule raceDb).
  - constructor.
  - constructor.
  - simpl. tauto.
  - simpl. tauto.
  - simpl. intros o [= <-]. discriminate.
Defined.

(* ================================================================= *)
(** ** The invariants on sample requests *)


(* ================================================================= *)
(** ** The queue of reported reviews *)

Module QueueFacts.

Lemma total_split l1 r l2 :
  List.length (filter hasReports (l1 ++ r :: l2))
  = (List.length (filter hasReports l1)
     + (if hasReports r then 1 else 0)
     + List.length (filter hasReports l2))%nat.
Proof.
  rewrite filter_app, length_app. simpl.
  destruct (hasReports r); simpl; lia.
Qed.

Lemma hasReports_push l x r :
  hasReports (Review.set_reportedBy (l ++ [x]) r) = true.
Proof. unfold hasReports. simpl. now destruct l. Qed.

End QueueFacts.

(** X27.  The queue of reported reviews follows moderation and reporting.
    Approving a review takes it out of the queue; rejecting it leaves the
    queue as it is, so that a rejected review stays listed as reported;
    an accepted report puts the review into the queue unless it is there
    already. *)
Theorem reported_queue_follows_moderation :
  forall (now : Date) (reporter id : ObjectId) (s action : string)
         (db : Db) (r : Review.t),
    Review.findById id (reviews db) = Some r ->
    (action = "approve" \/ action = "reject" ->
     (reportedReviewsTotal
        (snd (handle (AdminRoutes.moderateReview id action) db))
      + (if String.eqb action "approve" && hasReports r then 1 else 0))%nat
     = reportedReviewsTotal db)
    /\ (blankReason (Some s) = false ->
        ~ In reporter (reporters r) ->
        reportedReviewsTotal
          (snd (handle (ReviewRoutes.reportReview now reporter id (Some s))
                       db))
        = (reportedReviewsTotal db
           + (if hasReports r then 0 else 1))%nat).
Proof.
  intros now reporter id s action db r Hfind.
  pose proof (ReviewFacts.review_findById_id _ _ _ Hfind) as Hid.
  split.
  - intros Hact.
    set (r' := if String.eqb action "approve"
               then Review.set_reportedBy [] (Review.set_isApproved true r)
               else Review.set_isApproved false r).
    assert (Hdb' : snd (handle (AdminRoutes.moderateReview id action) db)
                   = set_reviews (Review.replace r' (reviews db)) db).
    { unfold handle, AdminRoutes.moderateReview.
      destruct Hact as [-> | ->]; simpl; now rewrite Hfind. }
    assert (Hid' : Review._id r' = id)
      by (unfold r'; now destruct (String.eqb action "approve")).
    assert (Hrep' : hasReports r'
                    = if String.eqb action "approve" then false
                      else hasReports r)
      by (unfold r'; now destruct (String.eqb action "approve")).
    rewrite <- Hid' in Hfind.
    destruct (RatingBoundFacts.review_replace_split r' _ r Hfind)
      as (l1 & l2 & Hdocs & Hrep).
    rewrite Hdb'. unfold reportedReviewsTotal. simpl.
    rewrite Hrep, Hdocs, !QueueFacts.total_split, Hrep'.
    destruct (String.eqb action "approve"); destruct (hasReports r);
      simpl; lia.
  - intros Hb Hnew. simpl in Hb.
    set (r' := Review.set_reportedBy
                 (Review.reportedBy r
                  ++ [Review.mkReport reporter (trim s) now]) r).
    assert (Hdb' : snd (handle (ReviewRoutes.reportReview now reporter id
                                                          (Some s)) db)
                   = set_reviews (Review.replace r' (reviews db)) db).
    { unfold handle, ReviewRoutes.reportReview.
      rewrite ReviewFacts.blank_check, Hb. simpl. rewrite Hfind.
      apply ReviewFacts.find_reporter_none in Hnew. rewrite Hnew.
      reflexivity. }
    assert (Hid' : Review._id r' = id) by exact Hid.
    rewrite <- Hid' in Hfind.
    destruct (RatingBoundFacts.review_replace_split r' _ r Hfind)
      as (l1 & l2 & Hdocs & Hrep).
    rewrite Hdb'. unfold reportedReviewsTotal. simpl.
    rewrite Hrep, Hdocs, !QueueFacts.total_split.
    unfold r'. rewrite QueueFacts.hasReports_push.
    destruct (hasReports r); simpl; lia.
Qed.

Lemma reported_queue_follows_moderation_witness :
  reportedReviewsTotal sampleDb = 1%nat
  /\ reportedReviewsTotal
       (snd (handle (AdminRoutes.moderateReview 3%nat "reject") sampleDb))
     = 1%nat
  /\ reportedReviewsTotal
       (snd (handle (ReviewRoutes.reportReview 500 9%nat 3%nat (Some "rude"))
                    sampleDb))
     = 1%nat.
Proof.
  destruct (reported_queue_follows_moderation
              500 9%nat 3%nat "rude" "reject" sampleDb sampleReview eq_refl)
    as [Hmod Hrep].
  split; [reflexivity|]. split.
  - transitivity (reportedReviewsTotal sampleDb); [|reflexivity].
    rewrite <- (Hmod (or_intror eq_refl)). simpl (_ && _).
    now rewrite Nat.add_0_r.
  - rewrite Hrep; [reflexivity | reflexivity |].
    simpl. intros [H|[]]. discriminate.
Defined.
